(** * The consumer command of the NATS command line tool

    A shallow embedding of [nats/consumer_command.go]: the resolution of a
    consumer configuration from flags, prompts or a file ([prepareConfig]),
    the copy of an existing consumer ([cpAction]), the validation and
    serialisation step ([validateCfg], [createAction]), the leader step-down
    poll ([leaderStandDown]), the push subscription ([subAction],
    [subscribeConsumer]), the retrieval of one message ([getNextMsgDirect],
    [nextAction]) and the removal ([rmAction]).

    Conventions of the embedding:
    - Go [string] is [string] (a sequence of bytes); Go [int], [time.Duration]
      and points in time are [Z]; [uint64] is [N].  The program does no
      arithmetic on them apart from one subtraction of a duration from the
      current time and the decimal reading of [strconv.Atoi], whose
      saturation at the largest [int] is written out.
    - A call that ends the process ([kingpin.Fatalf], [kingpin.FatalIfError]
      with an error) is the constructor [Exit] of [Run]; a Go function that
      returns [(value, error)] returns a sum or an explicit pair.
    - What lies outside the file (the Go library, the file system, the
      environment, the JSON codec of [api.ConsumerConfig], the schema
      validator) is a field of the class [Host]; what the user types at a
      prompt is a field of [Answers]; what the broker replies is a field of
      [Broker].  Every theorem holds for all of them. *)

From Stdlib Require Import String Ascii ZArith NArith List Bool Lia.
From Stdlib Require Import DecimalString DecimalPos DecimalZ.
Import ListNotations.
Local Open Scope string_scope.
Local Open Scope Z_scope.

(** Go's [==] on strings. *)
Infix "==" := String.eqb (at level 70, no associativity).

(** ** Go values *)

(** Errors the program builds itself ([fmt.Errorf]) and errors handed over by
    a collaborator. *)
Inductive error : Type :=
| ErrNotClustered (streamName name : string)
    (* "consumer %q > %q is not clustered" *)
| ErrNoLeaderInTime
    (* "consumer did not elect a new leader in time" *)
| ErrNameMismatch (file name : string)
    (* "non durable consumer name in %s does not match CLI consumer name %s" *)
| ErrRateLimitOnPull
    (* "rate limits are only possible on Push consumers" *)
| ErrUnknownState (streamName name : string)
    (* "consumer %s > %s is in an unknown state" *)
| ErrExternal (msg : string).
    (* an error value produced outside this file *)

(** A Go result [(v, err)] of which exactly one side is meaningful. *)
Inductive result (A : Type) : Type :=
| ok (a : A)
| failed (e : error).
Arguments ok {A} a.
Arguments failed {A} e.

(** A computation that either goes on with a value or ends the process with
    the message given to [kingpin.Fatalf] / [kingpin.FatalIfError]. *)
Inductive Run (A : Type) : Type :=
| Return (a : A)
| Exit (msg : string).
Arguments Return {A} a.
Arguments Exit {A} msg.

Definition bind {A B : Type} (m : Run A) (k : A -> Run B) : Run B :=
  match m with
  | Return a => k a
  | Exit msg => Exit msg
  end.

Notation "x <- m ;; k" := (bind m (fun x => k))
  (at level 61, m at next level, right associativity).

(** [kingpin.FatalIfError(err, msg)] on the result of a call. *)
Definition FatalIfError {A : Type} (r : result A) (msg : string) : Run A :=
  match r with
  | ok a => Return a
  | failed _ => Exit msg
  end.

(** ** Strings *)

Module GoString.

Fixpoint containsAny (chars : list ascii) (s : string) : bool :=
  match s with
  | EmptyString => false
  | String a rest =>
      existsb (Ascii.eqb a) chars || containsAny chars rest
  end.

(** The class [\d] of Go's [regexp]: the ten ASCII digits. *)
Definition isDigit (a : ascii) : bool :=
  ((48 <=? N_of_ascii a) && (N_of_ascii a <=? 57))%N.

Fixpoint onlyDigits (s : string) : bool :=
  match s with
  | EmptyString => true
  | String a rest => isDigit a && onlyDigits rest
  end.

(** [regexp.MatchString("^\\d+$", s)] *)
Definition matchDigits (s : string) : bool :=
  negb (s == "") && onlyDigits s.

(** [regexp.MatchString(`\.|\*|>`, s)]: the three characters are ASCII, so
    a match on the bytes is a match on the text. *)
Definition matchDurableForbidden (s : string) : bool :=
  containsAny ["."; "*"; ">"]%char s.

Fixpoint decimal (acc : Z) (s : string) : Z :=
  match s with
  | EmptyString => acc
  | String a rest => decimal (10 * acc + (Z.of_N (N_of_ascii a) - 48)) rest
  end.

Definition MaxInt : Z := 2 ^ 63 - 1.

(** [strconv.Atoi] on a string of digits, its error dropped as the caller
    drops it: the value, or the largest [int] when the value is out of
    range.  On any other string the caller does not use it. *)
Definition Atoi (s : string) : Z :=
  if matchDigits s then Z.min (decimal 0 s) MaxInt else 0.

(** [strconv.Itoa] *)
Definition Itoa (z : Z) : string :=
  NilZero.string_of_int (Z.to_int z).

(** Lower-casing of the ASCII letters, the behaviour of [strings.ToLower]
    on ASCII text; used where a concrete [Host] is needed. *)
Definition lowerAscii (a : ascii) : ascii :=
  let n := N_of_ascii a in
  if ((65 <=? n) && (n <=? 90))%N then ascii_of_N (n + 32) else a.

Fixpoint lowerASCII (s : string) : string :=
  match s with
  | EmptyString => EmptyString
  | String a rest => String (lowerAscii a) (lowerASCII rest)
  end.

End GoString.

(** ** The configuration of a consumer ([api.ConsumerConfig]) *)

(** The three policies of the [api] package, in the order of their
    declaration: the first constructor of each is the zero value. *)
Module api.
Inductive DeliverPolicy : Type :=
| DeliverAll | DeliverLast | DeliverNew
| DeliverByStartSequence | DeliverByStartTime.
Inductive AckPolicy : Type := AckNone | AckAll | AckExplicit.
Inductive ReplayPolicy : Type := ReplayInstant | ReplayOriginal.

Definition isAckNone (p : AckPolicy) : bool :=
  match p with AckNone => true | _ => false end.
End api.

Record ConsumerConfig : Type := mkConfig {
  Durable : string;
  DeliverSubject : string;
  DeliverPolicy : api.DeliverPolicy;
  OptStartSeq : N;
  OptStartTime : option Z;          (* *time.Time; None is nil *)
  AckPolicy : api.AckPolicy;
  AckWait : Z;
  MaxDeliver : Z;
  FilterSubject : string;
  ReplayPolicy : api.ReplayPolicy;
  SampleFrequency : string;
  RateLimit : N;
  MaxAckPending : Z
}.

(** Assignments [cfg.Field = v]. *)
Definition set_Durable v (g : ConsumerConfig) :=
  mkConfig v (DeliverSubject g) (DeliverPolicy g) (OptStartSeq g) (OptStartTime g)
    (AckPolicy g) (AckWait g) (MaxDeliver g) (FilterSubject g) (ReplayPolicy g)
    (SampleFrequency g) (RateLimit g) (MaxAckPending g).
Definition set_DeliverSubject v (g : ConsumerConfig) :=
  mkConfig (Durable g) v (DeliverPolicy g) (OptStartSeq g) (OptStartTime g)
    (AckPolicy g) (AckWait g) (MaxDeliver g) (FilterSubject g) (ReplayPolicy g)
    (SampleFrequency g) (RateLimit g) (MaxAckPending g).
Definition set_DeliverPolicy v (g : ConsumerConfig) :=
  mkConfig (Durable g) (DeliverSubject g) v (OptStartSeq g) (OptStartTime g)
    (AckPolicy g) (AckWait g) (MaxDeliver g) (FilterSubject g) (ReplayPolicy g)
    (SampleFrequency g) (RateLimit g) (MaxAckPending g).
Definition set_OptStartSeq v (g : ConsumerConfig) :=
  mkConfig (Durable g) (DeliverSubject g) (DeliverPolicy g) v (OptStartTime g)
    (AckPolicy g) (AckWait g) (MaxDeliver g) (FilterSubject g) (ReplayPolicy g)
    (SampleFrequency g) (RateLimit g) (MaxAckPending g).
Definition set_OptStartTime v (g : ConsumerConfig) :=
  mkConfig (Durable g) (DeliverSubject g) (DeliverPolicy g) (OptStartSeq g) v
    (AckPolicy g) (AckWait g) (MaxDeliver g) (FilterSubject g) (ReplayPolicy g)
    (SampleFrequency g) (RateLimit g) (MaxAckPending g).
Definition set_AckPolicy v (g : ConsumerConfig) :=
  mkConfig (Durable g) (DeliverSubject g) (DeliverPolicy g) (OptStartSeq g) (OptStartTime g)
    v (AckWait g) (MaxDeliver g) (FilterSubject g) (ReplayPolicy g)
    (SampleFrequency g) (RateLimit g) (MaxAckPending g).
Definition set_AckWait v (g : ConsumerConfig) :=
  mkConfig (Durable g) (DeliverSubject g) (DeliverPolicy g) (OptStartSeq g) (OptStartTime g)
    (AckPolicy g) v (MaxDeliver g) (FilterSubject g) (ReplayPolicy g)
    (SampleFrequency g) (RateLimit g) (MaxAckPending g).
Definition set_MaxDeliver v (g : ConsumerConfig) :=
  mkConfig (Durable g) (DeliverSubject g) (DeliverPolicy g) (OptStartSeq g) (OptStartTime g)
    (AckPolicy g) (AckWait g) v (FilterSubject g) (ReplayPolicy g)
    (SampleFrequency g) (RateLimit g) (MaxAckPending g).
Definition set_FilterSubject v (g : ConsumerConfig) :=
  mkConfig (Durable g) (DeliverSubject g) (DeliverPolicy g) (OptStartSeq g) (OptStartTime g)
    (AckPolicy g) (AckWait g) (MaxDeliver g) v (ReplayPolicy g)
    (SampleFrequency g) (RateLimit g) (MaxAckPending g).
Definition set_ReplayPolicy v (g : ConsumerConfig) :=
  mkConfig (Durable g) (DeliverSubject g) (DeliverPolicy g) (OptStartSeq g) (OptStartTime g)
    (AckPolicy g) (AckWait g) (MaxDeliver g) (FilterSubject g) v
    (SampleFrequency g) (RateLimit g) (MaxAckPending g).
Definition set_SampleFrequency v (g : ConsumerConfig) :=
  mkConfig (Durable g) (DeliverSubject g) (DeliverPolicy g) (OptStartSeq g) (OptStartTime g)
    (AckPolicy g) (AckWait g) (MaxDeliver g) (FilterSubject g) (ReplayPolicy g)
    v (RateLimit g) (MaxAckPending g).
Definition set_RateLimit v (g : ConsumerConfig) :=
  mkConfig (Durable g) (DeliverSubject g) (DeliverPolicy g) (OptStartSeq g) (OptStartTime g)
    (AckPolicy g) (AckWait g) (MaxDeliver g) (FilterSubject g) (ReplayPolicy g)
    (SampleFrequency g) v (MaxAckPending g).
Definition set_MaxAckPending v (g : ConsumerConfig) :=
  mkConfig (Durable g) (DeliverSubject g) (DeliverPolicy g) (OptStartSeq g) (OptStartTime g)
    (AckPolicy g) (AckWait g) (MaxDeliver g) (FilterSubject g) (ReplayPolicy g)
    (SampleFrequency g) (RateLimit g) v.

(** [api.ConsumerConfig{}] *)
Definition zeroConfig : ConsumerConfig :=
  mkConfig "" "" api.DeliverAll 0%N None api.AckNone 0 0 "" api.ReplayInstant "" 0%N 0.

(** ** The command ([consumerCmd]) *)

(** The fields the modelled functions read or write; [json], [force] and the
    two connection handles only serve the display and the transport. *)
Record consumerCmd : Type := mkCmd {
  consumer : string;
  stream : string;
  ack : bool;
  raw : bool;
  destination : string;
  inputFile : string;
  outFile : string;
  bpsRateLimit : N;
  maxAckPending : Z;
  maxDeliver : Z;
  pull : bool;
  replayPolicy : string;
  startPolicy : string;
  ackPolicy : string;
  ackWait : Z;
  samplePct : Z;
  filterSubject : string;
  delivery : string;
  ephemeral : bool;
  validateOnly : bool
}.

(** Assignments [c.field = v]; those of the fields that only the command
    line parser writes serve [setFlag] below. *)
Definition set_consumer v (c : consumerCmd) :=
  mkCmd v (stream c) (ack c) (raw c) (destination c) (inputFile c) (outFile c)
    (bpsRateLimit c) (maxAckPending c) (maxDeliver c) (pull c)
    (replayPolicy c) (startPolicy c) (ackPolicy c) (ackWait c) (samplePct c)
    (filterSubject c) (delivery c) (ephemeral c) (validateOnly c).
Definition set_stream v (c : consumerCmd) :=
  mkCmd (consumer c) v (ack c) (raw c) (destination c) (inputFile c)
    (outFile c) (bpsRateLimit c) (maxAckPending c) (maxDeliver c) (pull c)
    (replayPolicy c) (startPolicy c) (ackPolicy c) (ackWait c) (samplePct c)
    (filterSubject c) (delivery c) (ephemeral c) (validateOnly c).
Definition set_ack v (c : consumerCmd) :=
  mkCmd (consumer c) (stream c) v (raw c) (destination c) (inputFile c)
    (outFile c) (bpsRateLimit c) (maxAckPending c) (maxDeliver c) (pull c)
    (replayPolicy c) (startPolicy c) (ackPolicy c) (ackWait c) (samplePct c)
    (filterSubject c) (delivery c) (ephemeral c) (validateOnly c).
Definition set_raw v (c : consumerCmd) :=
  mkCmd (consumer c) (stream c) (ack c) v (destination c) (inputFile c)
    (outFile c) (bpsRateLimit c) (maxAckPending c) (maxDeliver c) (pull c)
    (replayPolicy c) (startPolicy c) (ackPolicy c) (ackWait c) (samplePct c)
    (filterSubject c) (delivery c) (ephemeral c) (validateOnly c).
Definition set_destination v (c : consumerCmd) :=
  mkCmd (consumer c) (stream c) (ack c) (raw c) v (inputFile c) (outFile c)
    (bpsRateLimit c) (maxAckPending c) (maxDeliver c) (pull c)
    (replayPolicy c) (startPolicy c) (ackPolicy c) (ackWait c) (samplePct c)
    (filterSubject c) (delivery c) (ephemeral c) (validateOnly c).
Definition set_inputFile v (c : consumerCmd) :=
  mkCmd (consumer c) (stream c) (ack c) (raw c) (destination c) v (outFile c)
    (bpsRateLimit c) (maxAckPending c) (maxDeliver c) (pull c)
    (replayPolicy c) (startPolicy c) (ackPolicy c) (ackWait c) (samplePct c)
    (filterSubject c) (delivery c) (ephemeral c) (validateOnly c).
Definition set_outFile v (c : consumerCmd) :=
  mkCmd (consumer c) (stream c) (ack c) (raw c) (destination c) (inputFile c)
    v (bpsRateLimit c) (maxAckPending c) (maxDeliver c) (pull c)
    (replayPolicy c) (startPolicy c) (ackPolicy c) (ackWait c) (samplePct c)
    (filterSubject c) (delivery c) (ephemeral c) (validateOnly c).
Definition set_bpsRateLimit v (c : consumerCmd) :=
  mkCmd (consumer c) (stream c) (ack c) (raw c) (destination c) (inputFile c)
    (outFile c) v (maxAckPending c) (maxDeliver c) (pull c) (replayPolicy c)
    (startPolicy c) (ackPolicy c) (ackWait c) (samplePct c) (filterSubject c)
    (delivery c) (ephemeral c) (validateOnly c).
Definition set_maxAckPending v (c : consumerCmd) :=
  mkCmd (consumer c) (stream c) (ack c) (raw c) (destination c) (inputFile c)
    (outFile c) (bpsRateLimit c) v (maxDeliver c) (pull c) (replayPolicy c)
    (startPolicy c) (ackPolicy c) (ackWait c) (samplePct c) (filterSubject c)
    (delivery c) (ephemeral c) (validateOnly c).
Definition set_maxDeliver v (c : consumerCmd) :=
  mkCmd (consumer c) (stream c) (ack c) (raw c) (destination c) (inputFile c)
    (outFile c) (bpsRateLimit c) (maxAckPending c) v (pull c) (replayPolicy c)
    (startPolicy c) (ackPolicy c) (ackWait c) (samplePct c) (filterSubject c)
    (delivery c) (ephemeral c) (validateOnly c).
Definition set_pull v (c : consumerCmd) :=
  mkCmd (consumer c) (stream c) (ack c) (raw c) (destination c) (inputFile c)
    (outFile c) (bpsRateLimit c) (maxAckPending c) (maxDeliver c) v
    (replayPolicy c) (startPolicy c) (ackPolicy c) (ackWait c) (samplePct c)
    (filterSubject c) (delivery c) (ephemeral c) (validateOnly c).
Definition set_replayPolicy v (c : consumerCmd) :=
  mkCmd (consumer c) (stream c) (ack c) (raw c) (destination c) (inputFile c)
    (outFile c) (bpsRateLimit c) (maxAckPending c) (maxDeliver c) (pull c) v
    (startPolicy c) (ackPolicy c) (ackWait c) (samplePct c) (filterSubject c)
    (delivery c) (ephemeral c) (validateOnly c).
Definition set_startPolicy v (c : consumerCmd) :=
  mkCmd (consumer c) (stream c) (ack c) (raw c) (destination c) (inputFile c)
    (outFile c) (bpsRateLimit c) (maxAckPending c) (maxDeliver c) (pull c)
    (replayPolicy c) v (ackPolicy c) (ackWait c) (samplePct c)
    (filterSubject c) (delivery c) (ephemeral c) (validateOnly c).
Definition set_ackPolicy v (c : consumerCmd) :=
  mkCmd (consumer c) (stream c) (ack c) (raw c) (destination c) (inputFile c)
    (outFile c) (bpsRateLimit c) (maxAckPending c) (maxDeliver c) (pull c)
    (replayPolicy c) (startPolicy c) v (ackWait c) (samplePct c)
    (filterSubject c) (delivery c) (ephemeral c) (validateOnly c).
Definition set_ackWait v (c : consumerCmd) :=
  mkCmd (consumer c) (stream c) (ack c) (raw c) (destination c) (inputFile c)
    (outFile c) (bpsRateLimit c) (maxAckPending c) (maxDeliver c) (pull c)
    (replayPolicy c) (startPolicy c) (ackPolicy c) v (samplePct c)
    (filterSubject c) (delivery c) (ephemeral c) (validateOnly c).
Definition set_samplePct v (c : consumerCmd) :=
  mkCmd (consumer c) (stream c) (ack c) (raw c) (destination c) (inputFile c)
    (outFile c) (bpsRateLimit c) (maxAckPending c) (maxDeliver c) (pull c)
    (replayPolicy c) (startPolicy c) (ackPolicy c) (ackWait c) v
    (filterSubject c) (delivery c) (ephemeral c) (validateOnly c).
Definition set_filterSubject v (c : consumerCmd) :=
  mkCmd (consumer c) (stream c) (ack c) (raw c) (destination c) (inputFile c)
    (outFile c) (bpsRateLimit c) (maxAckPending c) (maxDeliver c) (pull c)
    (replayPolicy c) (startPolicy c) (ackPolicy c) (ackWait c) (samplePct c) v
    (delivery c) (ephemeral c) (validateOnly c).
Definition set_delivery v (c : consumerCmd) :=
  mkCmd (consumer c) (stream c) (ack c) (raw c) (destination c) (inputFile c)
    (outFile c) (bpsRateLimit c) (maxAckPending c) (maxDeliver c) (pull c)
    (replayPolicy c) (startPolicy c) (ackPolicy c) (ackWait c) (samplePct c)
    (filterSubject c) v (ephemeral c) (validateOnly c).
Definition set_ephemeral v (c : consumerCmd) :=
  mkCmd (consumer c) (stream c) (ack c) (raw c) (destination c) (inputFile c)
    (outFile c) (bpsRateLimit c) (maxAckPending c) (maxDeliver c) (pull c)
    (replayPolicy c) (startPolicy c) (ackPolicy c) (ackWait c) (samplePct c)
    (filterSubject c) (delivery c) v (validateOnly c).
Definition set_validateOnly v (c : consumerCmd) :=
  mkCmd (consumer c) (stream c) (ack c) (raw c) (destination c) (inputFile c)
    (outFile c) (bpsRateLimit c) (maxAckPending c) (maxDeliver c) (pull c)
    (replayPolicy c) (startPolicy c) (ackPolicy c) (ackWait c) (samplePct c)
    (filterSubject c) (delivery c) (ephemeral c) v.

(** The command before any argument is read: every field at the default
    its flag declares in [configureConsumerCommand] (the sentinels
    ["_unset_"], [-1s], [-1]; [true] for the flag [ack] of [sub] and [next]),
    or at its zero value. *)
Definition flagDefaults : consumerCmd :=
  mkCmd "" "" true false "" "" "" 0%N (-1) 0 false "" "" "" (-1000000000) (-1)
    "_unset_" "" false false.

(** The flags of [addCreateFlags], of [add] and of [sub], and the variable
    each one is bound to. *)
Inductive Flag : Type :=
| FlagTarget (s : string)
| FlagFilter (s : string)
| FlagReplay (s : string)
| FlagDeliver (s : string)
| FlagAck (s : string)
| FlagWait (d : Z)
| FlagSample (n : Z)
| FlagEphemeral
| FlagPull
| FlagMaxDeliver (n : Z)
| FlagBps (n : N)
| FlagMaxPending (n : Z)
| FlagConfig (file : string)
| FlagValidate
| FlagOutput (file : string)
| FlagNoAck.

Definition setFlag (c : consumerCmd) (f : Flag) : consumerCmd :=
  match f with
  | FlagTarget s => set_delivery s c
  | FlagFilter s => set_filterSubject s c
  | FlagReplay s => set_replayPolicy s c
  | FlagDeliver s => set_startPolicy s c
  | FlagAck s => set_ackPolicy s c
  | FlagWait d => set_ackWait d c
  | FlagSample n => set_samplePct n c
  | FlagEphemeral => set_ephemeral true c
  | FlagPull => set_pull true c
  | FlagMaxDeliver n => set_maxDeliver n c
  | FlagBps n => set_bpsRateLimit n c
  | FlagMaxPending n => set_maxAckPending n c
  | FlagConfig file => set_inputFile file c
  | FlagValidate => set_validateOnly true c
  | FlagOutput file => set_outFile file c
  | FlagNoAck => set_ack false c
  end.

(** The command after [nats consumer <verb> <stream> <name> <flags>]. *)
Definition commandLine (streamName name : string) (flags : list Flag)
  : consumerCmd :=
  fold_left setFlag flags (set_consumer name (set_stream streamName flagDefaults)).

(** The command after [nats consumer copy <stream> <source> <destination>
    <flags>]. *)
Definition copyLine (streamName source dest : string) (flags : list Flag)
  : consumerCmd :=
  set_destination dest (commandLine streamName source flags).

(** ** Collaborators *)

(** What the program calls and this file does not define. *)
Class Host : Type := {
  (* strings.ToLower *)
  ToLower : string -> string;
  (* parseDurationString, a helper of the tool defined in another file *)
  parseDurationString : string -> result Z;
  (* time.Now(), in nanoseconds *)
  Now : Z;
  (* ioutil.ReadFile *)
  ReadFile : string -> result string;
  (* ioutil.WriteFile(name, data, 0644) *)
  WriteFile : string -> option string -> option error;
  (* json.Unmarshal(f, cfg) into a zero configuration: what cfg holds
     afterwards and the error, if any *)
  Unmarshal : string -> ConsumerConfig * option error;
  (* json.MarshalIndent(cfg, "", "  ") *)
  MarshalIndent : ConsumerConfig -> result string;
  (* cfg.Validate(new(SchemaValidator)) *)
  Validate : ConsumerConfig -> bool * list string;
  (* os.Getenv *)
  Getenv : string -> string
}.

(** The answers typed at the prompts of [survey.AskOne], one field per
    prompt; [failed] is a prompt that returned an error. *)
Record Answers : Type := mkAnswers {
  askName : result string;
  askDelivery : result string;
  askStartPolicy : result string;
  askAckPolicy : result string;
  askReplayPolicy : result string;
  askReplayMode : result string;
  askFilter : result string;
  askMaxDeliver : result Z;
  askMaxAckPending : result Z
}.

(** ** The broker and what the program does to the outside *)

Record Consumer : Type := mkConsumer {
  StreamName : string;
  Name : string;
  Configuration : ConsumerConfig
}.

Record PeerInfo : Type := mkPeer {
  PeerName : string;
  Current : bool;
  Active : Z
}.

Record ClusterInfo : Type := mkCluster {
  ClusterName : string;
  Leader : string;
  Replicas : list PeerInfo
}.

(** [api.ConsumerInfo], of which the program inspects the cluster part; the
    counters are only displayed. *)
Record ConsumerInfo : Type := mkInfo {
  Cluster : option ClusterInfo       (* *ClusterInfo; None is nil *)
}.

(** A message handed to the subscription callback, with what the library
    answers for it: the parsed JetStream metadata and the result of
    [m.Respond(nil)]. *)
Record Msg : Type := mkMsg {
  Subject : string;
  Reply : string;
  Data : string;
  Metadata : result unit;           (* jsm.ParseJSMsgMetadata(m) *)
  Respond : option error            (* m.Respond(nil) *)
}.

(** The replies of the broker and of the connection set-up. *)
Record Broker : Type := mkBroker {
  (* c.connectAndSetup(askStream, askConsumer): ends the process or leaves
     the command with a stream and a consumer selected *)
  connectAndSetup : consumerCmd -> bool -> bool -> Run consumerCmd;
  (* c.mgr.LoadConsumer(stream, name) *)
  LoadConsumer : string -> string -> result Consumer;
  (* c.mgr.NewConsumerFromDefault(stream, cfg) *)
  NewConsumerFromDefault : string -> ConsumerConfig -> result Consumer;
  (* the reply to the n-th call of consumer.State(), n = 0, 1, 2, ... *)
  State : nat -> result ConsumerInfo;
  (* consumer.LeaderStepDown() *)
  LeaderStepDown : option error;
  (* c.nc.Subscribe(subject, callback) and c.nc.SubscribeSync(inbox) *)
  Subscribe : string -> option error;
  (* c.mgr.NextMsgRequest(stream, consumer, inbox, req) *)
  NextMsgRequest : string -> string -> option error;
  (* sub.NextMsg(timeout) *)
  NextMsg : result Msg;
  (* r.Intn(n) of the freshly seeded generator *)
  Intn : Z -> Z
}.

Inductive LogLine : Type :=
| LogRequestingStepDown (leader : string) (peers : nat)
| LogStateFailed (e : error)
| LogNewLeader (leader : string)
| LogLeaderDidNotChange.

(** The calls to the outside, in the order the program makes them. *)
Inductive Event : Type :=
| EvLoadConsumer (streamName name : string)
| EvState
| EvLeaderStepDown
| EvNewConsumer (streamName : string) (cfg : ConsumerConfig)
| EvLog (l : LogLine)
| EvPrintln (s : string)
| EvShowInfo (cfg : ConsumerConfig) (info : ConsumerInfo)
| EvWriteFile (name : string) (data : option string)
| EvSubscribe (subject : string)
| EvRender (m : Msg)
| EvRespond (m : Msg)
| EvAckFailed (m : Msg)
| EvSleep (d : Z)
| EvFlush.

(** How an action of the command ends. *)
Inductive Outcome : Type :=
| Finished (err : option error)   (* the action returned err *)
| Exited (msg : string)           (* kingpin ended the process *)
| Blocked                         (* the goroutine waits for ever *)
| Panicked.                       (* nil pointer dereference *)

Definition Trace : Type := list Event.

(** ** Configuration resolution *)

(** The two shapes of [(cfg, err)] that [prepareConfig] returns. *)
Inductive prepared : Type :=
| Prepared (cfg : ConsumerConfig)                       (* cfg, nil *)
| Failed (cfg : option ConsumerConfig) (err : error).   (* cfg or nil, err *)

Section Resolution.
Context {H : Host}.

Definition replayPolicyFromString (p : string) : Run api.ReplayPolicy :=
  if ToLower p == "instant" then Return api.ReplayInstant
  else if ToLower p == "original" then Return api.ReplayOriginal
  else Exit "invalid replay policy".

Definition ackPolicyFromString (p : string) : Run api.AckPolicy :=
  if ToLower p == "none" then Return api.AckNone
  else if ToLower p == "all" then Return api.AckAll
  else if ToLower p == "explicit" then Return api.AckExplicit
  else Exit "invalid ack policy".

Definition sampleFreqFromString (c : consumerCmd) (s : Z) : Run string :=
  if (s >? 100) || (s <? 0)
  then Exit "sample percent is not between 0 and 100"
  else if s >? 0 then Return (GoString.Itoa (samplePct c))
  else Return "".

Definition defaultConsumer : ConsumerConfig :=
  set_ReplayPolicy api.ReplayInstant (set_AckPolicy api.AckExplicit zeroConfig).

Definition setStartPolicy (cfg : ConsumerConfig) (policy : string)
  : Run ConsumerConfig :=
  if policy == "" then Return cfg
  else if policy == "all" then
    Return (set_DeliverPolicy api.DeliverAll cfg)
  else if policy == "last" then
    Return (set_DeliverPolicy api.DeliverLast cfg)
  else if (policy == "new") || (policy == "next") then
    Return (set_DeliverPolicy api.DeliverNew cfg)
  else if GoString.matchDigits policy then
    let seq := GoString.Atoi policy in
    let cfg := set_DeliverPolicy api.DeliverByStartSequence cfg in
    Return (set_OptStartSeq (Z.to_N seq) cfg)
  else
    d <- FatalIfError (parseDurationString policy)
           "could not parse starting delta" ;;
    let t := Now - d in
    let cfg := set_DeliverPolicy api.DeliverByStartTime cfg in
    Return (set_OptStartTime (Some t) cfg).

(** The body of [cpAction] between the load of the source and the
    creation of the copy: [cfg] is [source.Configuration()], the result is
    the configuration handed to the broker. *)
Definition cpConfig (c : consumerCmd) (cfg : ConsumerConfig)
  : Run (consumerCmd * ConsumerConfig) :=
  let cfg := if ackWait c >? 0 then set_AckWait (ackWait c) cfg else cfg in
  cfg <- (if negb (samplePct c =? -1)
          then s <- sampleFreqFromString c (samplePct c) ;;
               Return (set_SampleFrequency s cfg)
          else Return cfg) ;;
  cfg <- (if negb (startPolicy c == "")
          then setStartPolicy cfg (startPolicy c)
          else Return cfg) ;;
  let cfg := if ephemeral c then set_Durable "" cfg
             else set_Durable (destination c) cfg in
  let cfg := if negb (delivery c == "")
             then set_DeliverSubject (delivery c) cfg else cfg in
  let cfg := if pull c then set_DeliverSubject "" cfg else cfg in
  let c := if pull c then set_ackPolicy "explicit" c else c in
  cfg <- (if negb (ackPolicy c == "")
          then p <- ackPolicyFromString (ackPolicy c) ;;
               Return (set_AckPolicy p cfg)
          else Return cfg) ;;
  let cfg := if negb (filterSubject c == "_unset_")
             then set_FilterSubject (filterSubject c) cfg else cfg in
  cfg <- (if negb (replayPolicy c == "")
          then r <- replayPolicyFromString (replayPolicy c) ;;
               Return (set_ReplayPolicy r cfg)
          else Return cfg) ;;
  let cfg := if negb (maxDeliver c =? 0)
             then set_MaxDeliver (maxDeliver c) cfg else cfg in
  let cfg := if negb (bpsRateLimit c =? 0)%N
             then set_RateLimit (bpsRateLimit c) cfg else cfg in
  let cfg := if negb (maxAckPending c =? -1)
             then set_MaxAckPending (maxAckPending c) cfg else cfg in
  Return (c, cfg).

Definition prepareConfig (c : consumerCmd) (a : Answers)
  : Run (consumerCmd * prepared) :=
  let cfg := defaultConsumer in
  if negb (inputFile c == "") then
    match ReadFile (inputFile c) with
    | failed e => Return (c, Failed None e)
    | ok f =>
        let (cfg, err) := Unmarshal f in
        if negb (Durable cfg == "") && negb (consumer c == "")
           && negb (Durable cfg == consumer c)
        then Return (c, Failed (Some cfg)
                          (ErrNameMismatch (inputFile c) (consumer c)))
        else Return (c, match err with
                        | Some e => Failed (Some cfg) e
                        | None => Prepared cfg
                        end)
    end
  else
  c <- (if (consumer c == "") && negb (ephemeral c)
        then v <- FatalIfError (askName a) "could not request durable name" ;;
             Return (set_consumer v c)
        else Return c) ;;
  let cfg := set_Durable (consumer c) cfg in
  _ <- (if GoString.matchDurableForbidden (Durable cfg)
        then Exit "durable name can not contain '.', '*', '>'"
        else Return tt) ;;
  c <- (if negb (pull c) && (delivery c == "")
        then v <- FatalIfError (askDelivery a)
                    "could not request delivery target" ;;
             Return (set_delivery v c)
        else Return c) ;;
  _ <- (if ephemeral c && (delivery c == "")
        then Exit "ephemeral Consumers has to be push-based."
        else Return tt) ;;
  let cfg := set_DeliverSubject (delivery c) cfg in
  (* pull is always explicit *)
  let c := if delivery c == "" then set_ackPolicy "explicit" c else c in
  c <- (if startPolicy c == ""
        then v <- FatalIfError (askStartPolicy a)
                    "could not request start policy" ;;
             Return (set_startPolicy v c)
        else Return c) ;;
  cfg <- setStartPolicy cfg (startPolicy c) ;;
  c <- (if ackPolicy c == ""
        then v <- FatalIfError (askAckPolicy a)
                    "could not ask acknowledgement policy" ;;
             Return (set_ackPolicy v c)
        else Return c) ;;
  c <- (if replayPolicy c == ""
        then v <- FatalIfError (askReplayPolicy a)
                    "could not ask replay policy" ;;
             Return (set_replayPolicy v c)
        else Return c) ;;
  p <- ackPolicyFromString (ackPolicy c) ;;
  let cfg := set_AckPolicy p cfg in
  let cfg := if api.isAckNone (AckPolicy cfg)
             then set_MaxDeliver (-1) cfg else cfg in
  let cfg := if ackWait c >? 0 then set_AckWait (ackWait c) cfg else cfg in
  cfg <- (if samplePct c >? 0
          then if samplePct c >? 100
               then Exit "sample percent is not between 0 and 100"
               else Return (set_SampleFrequency
                              (GoString.Itoa (samplePct c)) cfg)
          else Return cfg) ;;
  c <- (if negb (DeliverSubject cfg == "") && (replayPolicy c == "")
        then mode <- FatalIfError (askReplayMode a)
                       "could not ask replay policy" ;;
             Return (set_replayPolicy mode c)
        else Return c) ;;
  cfg <- (if negb (replayPolicy c == "")
          then r <- replayPolicyFromString (replayPolicy c) ;;
               Return (set_ReplayPolicy r cfg)
          else Return cfg) ;;
  c <- (if filterSubject c == "_unset_"
        then v <- FatalIfError (askFilter a)
                    "could not ask for filtering subject" ;;
             Return (set_filterSubject v c)
        else Return c) ;;
  let cfg := set_FilterSubject (filterSubject c) cfg in
  c <- (if (maxDeliver c =? 0) && negb (api.isAckNone (AckPolicy cfg))
        then v <- FatalIfError (askMaxDeliver a)
                    "could not ask for maximum allowed deliveries" ;;
             Return (set_maxDeliver v c)
        else Return c) ;;
  c <- (if (maxAckPending c =? -1) && negb (api.isAckNone (AckPolicy cfg))
        then v <- FatalIfError (askMaxAckPending a)
                    "could not ask for maximum outstanding acknowledgements" ;;
             Return (set_maxAckPending v c)
        else Return c) ;;
  let c := if maxAckPending c =? -1 then set_maxAckPending 0 c else c in
  let cfg := set_MaxAckPending (maxAckPending c) cfg in
  let cfg := if negb (maxDeliver c =? 0) && negb (api.isAckNone (AckPolicy cfg))
             then set_MaxDeliver (maxDeliver c) cfg else cfg in
  if (0 <? bpsRateLimit c)%N && (DeliverSubject cfg == "")
  then Return (c, Failed None ErrRateLimitOnPull)
  else Return (c, Prepared (set_RateLimit (bpsRateLimit c) cfg)).

(** ** Validation and serialisation *)

(** The four results in the order of the Go signature; a [[]byte] is
    [option string] with [None] for the nil slice. *)
Definition validateCfg (cfg : ConsumerConfig)
  : bool * option string * list string * option error :=
  match MarshalIndent cfg with
  | failed err => (false, None, [], Some err)
  | ok j =>
      if negb (Getenv "NOVALIDATE" == "") then (true, None, [], None)
      else let (valid, errs) := Validate cfg in (valid, Some j, errs, None)
  end.

(** [string(j)] and the bytes [ioutil.WriteFile] puts in the file. *)
Definition bytesToString (j : option string) : string :=
  match j with Some s => s | None => "" end.

End Resolution.

(** ** Actions *)

(** An action emits events and then either goes on with a value or stops
    with an outcome. *)
Inductive Step (A : Type) : Type :=
| Next (a : A)
| Stop (o : Outcome).
Arguments Next {A} a.
Arguments Stop {A} o.

Definition Act (A : Type) : Type := (Trace * Step A)%type.

Definition andThen {A B : Type} (m : Act A) (k : A -> Act B) : Act B :=
  match m with
  | (t, Next a) => let (t', s) := k a in ((t ++ t')%list, s)
  | (t, Stop o) => (t, Stop o)
  end.

Notation "x <~ m ;; k" := (andThen m (fun x => k))
  (at level 61, m at next level, right associativity).

Definition pass {A : Type} (a : A) : Act A := ([], Next a).
Definition emit (e : Event) : Act unit := ([e], Next tt).
Definition halt {A : Type} (o : Outcome) : Act A := ([], Stop o).
(** [return err] from the action. *)
Definition returns {A : Type} (err : option error) : Act A :=
  halt (Finished err).
Definition lift {A : Type} (r : Run A) : Act A :=
  match r with
  | Return a => pass a
  | Exit msg => halt (Exited msg)
  end.
(** An action that reaches its end returns nil. *)
Definition complete (m : Act unit) : Trace * Outcome :=
  match m with
  | (t, Next _) => (t, Finished None)
  | (t, Stop o) => (t, o)
  end.

(** [c.showConsumer(consumer)]; [n] counts the earlier calls of
    [consumer.State()]. *)
Definition showConsumer (B : Broker) (n : nat) (csm : Consumer) : Act unit :=
  _ <~ emit EvState ;;
  state <~ lift (FatalIfError (State B n) "could not load Consumer") ;;
  emit (EvShowInfo (Configuration csm) state).

Section Create.
Context {H : Host}.

Definition createAction (B : Broker) (c : consumerCmd) (a : Answers)
  : Trace * Outcome :=
  complete (
    r <~ lift (prepareConfig c a) ;;
    let (c, p) := (r : consumerCmd * prepared) in
    match p with
    | Failed _ err => returns (Some err)
    | Prepared cfg =>
        if validateOnly c then
          let '(valid, j, errs, err) := validateCfg cfg in
          match err with
          | Some _ => halt (Exited "Could not validate configuration")
          | None =>
              _ <~ emit (EvPrintln (bytesToString j)) ;;
              _ <~ emit (EvPrintln "") ;;
              if negb valid then halt (Exited "Validation Failed")
              else
                _ <~ emit (EvPrintln "Configuration is a valid Consumer") ;;
                returns None
          end
        else if negb (outFile c == "") then
          let '(valid, j, errs, err) := validateCfg cfg in
          match err with
          | Some _ => halt (Exited "Could not validate configuration")
          | None =>
              if negb valid then halt (Exited "Validation Failed")
              else
                _ <~ emit (EvWriteFile (outFile c) j) ;;
                returns (WriteFile (outFile c) j)
          end
        else
          c <~ lift (connectAndSetup B c true false) ;;
          _ <~ emit (EvNewConsumer (stream c) cfg) ;;
          created <~ lift (FatalIfError (NewConsumerFromDefault B (stream c) cfg)
                             "Consumer creation failed") ;;
          let c := set_consumer (Name created) c in
          _ <~ showConsumer B 0 created ;;
          returns None
    end).

Definition cpAction (B : Broker) (c : consumerCmd) : Trace * Outcome :=
  complete (
    c <~ lift (connectAndSetup B c true false) ;;
    _ <~ emit (EvLoadConsumer (stream c) (consumer c)) ;;
    source <~ lift (FatalIfError (LoadConsumer B (stream c) (consumer c))
                      "could not load source Consumer") ;;
    r <~ lift (cpConfig c (Configuration source)) ;;
    let (c, cfg) := (r : consumerCmd * ConsumerConfig) in
    _ <~ emit (EvNewConsumer (stream c) cfg) ;;
    created <~ lift (FatalIfError (NewConsumerFromDefault B (stream c) cfg)
                       "Consumer creation failed") ;;
    if Durable cfg == "" then returns None
    else
      let c := set_consumer (Durable cfg) c in
      _ <~ showConsumer B 0 created ;;
      returns None).

End Create.

(** ** Leader step-down *)

(** A channel that nobody closes, as the values it will deliver: a receive
    takes the head, a receive on the empty list waits for ever. *)
Definition Chan : Type := list Z.

(** [time.NewTimer(d).C]: the timer fires once, [d] after its creation. *)
Definition NewTimerC (d : Z) : Chan := [d].

Definition Millisecond : Z := 1000000.

(** The loop [for range ch { ... }] of [leaderStandDown].  [ctr] is the
    counter of the source, [n] the number of earlier calls of
    [consumer.State()].  The loop ends by [break] with the state it has just
    read, by [return], by a nil dereference, or never. *)
Fixpoint pollLoop (B : Broker) (leader : string) (ch : Chan) (ctr : nat) (n : nat)
  : Act (nat * ConsumerInfo) :=
  match ch with
  | [] => halt Blocked
  | _ :: ch =>
      if (ctr =? 5)%nat then returns (Some ErrNoLeaderInTime)
      else
        let ctr := S ctr in
        _ <~ emit EvState ;;
        match State B n with
        | failed err =>
            _ <~ emit (EvLog (LogStateFailed err)) ;;
            pollLoop B leader ch ctr (S n)
        | ok info =>
            match Cluster info with
            | None => halt Panicked
            | Some cl =>
                if negb (Leader cl == leader) then
                  _ <~ emit (EvLog (LogNewLeader (Leader cl))) ;;
                  pass (S n, info)
                else pollLoop B leader ch ctr (S n)
            end
        end
  end.

Definition leaderStandDown (B : Broker) (c : consumerCmd) : Trace * Outcome :=
  complete (
    c <~ lift (connectAndSetup B c true true) ;;
    _ <~ emit (EvLoadConsumer (stream c) (consumer c)) ;;
    match LoadConsumer B (stream c) (consumer c) with
    | failed err => returns (Some err)
    | ok csm =>
        _ <~ emit EvState ;;
        match State B 0 with
        | failed err => returns (Some err)
        | ok info =>
            match Cluster info with
            | None =>
                returns (Some (ErrNotClustered (StreamName csm) (Name csm)))
            | Some cl =>
                let leader := Leader cl in
                _ <~ emit (EvLog (LogRequestingStepDown leader
                                    (length (Replicas cl) + 1)%nat)) ;;
                _ <~ emit EvLeaderStepDown ;;
                match LeaderStepDown B with
                | Some err => returns (Some err)
                | None =>
                    r <~ pollLoop B leader (NewTimerC (500 * Millisecond)) 0 1 ;;
                    let (n, info) := (r : nat * ConsumerInfo) in
                    _ <~ match Cluster info with
                         | None => halt Panicked
                         | Some cl =>
                             if Leader cl == leader
                             then emit (EvLog LogLeaderDidNotChange)
                             else pass tt
                         end ;;
                    _ <~ emit (EvPrintln "") ;;
                    _ <~ showConsumer B n csm ;;
                    returns None
                end
            end
        end
    end).

(** ** Retrieving messages *)

(** [consumer.IsPullMode()] and [consumer.IsPushMode()] of the client
    library: pull mode is the absence of a delivery subject. *)
Definition IsPullMode (csm : Consumer) : bool :=
  DeliverSubject (Configuration csm) == "".
Definition IsPushMode (csm : Consumer) : bool := negb (IsPullMode csm).

Definition getNextMsgDirect (B : Broker) (c : consumerCmd)
  (streamName name : string) : Act unit :=
  _ <~ lift (FatalIfError
               (match Subscribe B "_INBOX" with Some e => failed e | None => ok tt end)
               "subscribe failed") ;;
  _ <~ lift (FatalIfError
               (match NextMsgRequest B streamName name with
                | Some e => failed e | None => ok tt end)
               "could not request next message") ;;
  msg <~ lift (FatalIfError (NextMsg B) "no message received") ;;
  _ <~ emit (EvRender msg) ;;
  if ack c then
    let stime := if ackWait c >? 0 then Intn B (ackWait c) else 0 in
    _ <~ (if stime >? 0 then emit (EvSleep stime) else pass tt) ;;
    _ <~ emit (EvRespond msg) ;;
    _ <~ lift (FatalIfError
                 (match Respond msg with Some e => failed e | None => ok tt end)
                 "could not Acknowledge message") ;;
    _ <~ emit EvFlush ;;
    returns None
  else returns None.

(** The callback that [subscribeConsumer] registers, run on one message. *)
Definition onMessage (c : consumerCmd) (m : Msg) : Act unit :=
  _ <~ lift (FatalIfError (Metadata m) "could not parse JetStream metadata") ;;
  _ <~ emit (EvRender m) ;;
  if ack c then
    _ <~ emit (EvRespond m) ;;
    match Respond m with
    | Some _ => emit (EvAckFailed m)
    | None => pass tt
    end
  else pass tt.

(** The callback run on the messages that arrive, in their order. *)
Fixpoint dispatch (c : consumerCmd) (incoming : list Msg) : Act unit :=
  match incoming with
  | [] => pass tt
  | m :: rest => _ <~ onMessage c m ;; dispatch c rest
  end.

(** [subscribeConsumer] on a run in which the messages [incoming] arrive:
    the subscription is registered, the callback handles the messages, and
    the function itself waits on a context that is never done. *)
Definition subscribeConsumer (B : Broker) (c : consumerCmd) (csm : Consumer)
  (incoming : list Msg) : Act unit :=
  let subject := DeliverSubject (Configuration csm) in
  _ <~ emit (EvSubscribe subject) ;;
  _ <~ lift (FatalIfError
               (match Subscribe B subject with Some e => failed e | None => ok tt end)
               "could not subscribe") ;;
  _ <~ dispatch c incoming ;;
  halt Blocked.

Definition subAction (B : Broker) (c : consumerCmd) (incoming : list Msg)
  : Trace * Outcome :=
  complete (
    c <~ lift (connectAndSetup B c true true) ;;
    _ <~ emit (EvLoadConsumer (stream c) (consumer c)) ;;
    csm <~ lift (FatalIfError (LoadConsumer B (stream c) (consumer c))
                    "could not get Consumer info") ;;
    let c := if api.isAckNone (AckPolicy (Configuration csm))
             then set_ack false c else c in
    if IsPullMode csm then
      getNextMsgDirect B c (StreamName csm) (Name csm)
    else if IsPushMode csm then
      subscribeConsumer B c csm incoming
    else returns (Some (ErrUnknownState (stream c) (consumer c)))).

(** ** Further actions *)

(** [nextAction]: the set-up asks for neither stream nor consumer. *)
Definition nextAction (B : Broker) (c : consumerCmd) : Trace * Outcome :=
  complete (
    c <~ lift (connectAndSetup B c false false) ;;
    getNextMsgDirect B c (stream c) (consumer c)).

(** What [rmAction] does to the broker. *)
Inductive RemovalEvent : Type :=
| RmLoadConsumer (streamName name : string)
| RmDelete (streamName name : string).

(** [rmAction].  [force] is the field [c.force]; [askConfirmation] is the
    answer to the prompt "Really delete Consumer ..." and [Delete] the
    result of [consumer.Delete()]. *)
Definition rmAction (B : Broker) (c : consumerCmd) (force : bool)
  (askConfirmation : result bool) (Delete : option error)
  : list RemovalEvent * Outcome :=
  match connectAndSetup B c true true with
  | Exit msg => ([], Exited msg)
  | Return c =>
      let remove :=
        match LoadConsumer B (stream c) (consumer c) with
        | failed _ =>
            ([RmLoadConsumer (stream c) (consumer c)],
             Exited "could not load Consumer")
        | ok csm =>
            ([RmLoadConsumer (stream c) (consumer c);
              RmDelete (StreamName csm) (Name csm)],
             Finished Delete)
        end in
      if negb force then
        match askConfirmation with
        | failed _ => ([], Exited "could not obtain confirmation")
        | ok false => ([], Finished None)
        | ok true => remove
        end
      else remove
  end.

(** ** Sample collaborators

    Concrete hosts, brokers and answers on which the theorems are
    instantiated and the counterexamples computed. *)

Module Sample.

(** A host with the given value of the variable NOVALIDATE, no readable
    file and a serialiser that writes the durable name only. *)
Definition host (novalidate : string) : Host := {|
  ToLower := GoString.lowerASCII;
  parseDurationString := fun _ => failed (ErrExternal "invalid duration");
  Now := 0;
  ReadFile := fun _ => failed (ErrExternal "no such file");
  WriteFile := fun _ _ => None;
  Unmarshal := fun _ => (zeroConfig, Some (ErrExternal "unexpected end of JSON input"));
  MarshalIndent := fun cfg => ok ("{ durable_name: " ++ Durable cfg ++ " }");
  Validate := fun _ => (true, []);
  Getenv := fun k => if k == "NOVALIDATE" then novalidate else ""
|}.

(** A host whose only file, [consumer.json], parses to [cfg]. *)
Definition hostWithFile (cfg : ConsumerConfig) : Host := {|
  ToLower := GoString.lowerASCII;
  parseDurationString := fun _ => failed (ErrExternal "invalid duration");
  Now := 0;
  ReadFile := fun name =>
    if name == "consumer.json" then ok "{...}"
    else failed (ErrExternal "no such file");
  WriteFile := fun _ _ => None;
  Unmarshal := fun _ => (cfg, None);
  MarshalIndent := fun cfg => ok ("{ durable_name: " ++ Durable cfg ++ " }");
  Validate := fun _ => (true, []);
  Getenv := fun _ => ""
|}.

(** Prompts that are all answered with the empty line or the default. *)
Definition answers : Answers :=
  mkAnswers (ok "") (ok "") (ok "all") (ok "none") (ok "instant")
    (ok "instant") (ok "") (ok (-1)) (ok 0).

Definition cluster (leader : string) : ClusterInfo :=
  mkCluster "C1" leader [mkPeer "n2" true 0; mkPeer "n3" true 0].

(** A broker that holds one consumer with configuration [cfg] and answers
    the n-th state query with [state n]. *)
Definition broker (cfg : ConsumerConfig) (state : nat -> result ConsumerInfo)
  : Broker := {|
  connectAndSetup := fun c _ _ => Return c;
  LoadConsumer := fun s n => ok (mkConsumer s n cfg);
  NewConsumerFromDefault := fun s cfg' => ok (mkConsumer s (Durable cfg') cfg');
  State := state;
  LeaderStepDown := None;
  Subscribe := fun _ => None;
  NextMsgRequest := fun _ _ => None;
  NextMsg := failed (ErrExternal "nats: timeout");
  Intn := fun _ => 0
|}.

(** A clustered consumer that keeps the leader [n1] whatever happens. *)
Definition stubbornBroker : Broker :=
  broker zeroConfig (fun _ => ok (mkInfo (Some (cluster "n1")))).

(** A clustered consumer whose leader is [n1] at first and [n2] from the
    first poll on. *)
Definition electingBroker : Broker :=
  broker zeroConfig
    (fun n => ok (mkInfo (Some (cluster (if (n =? 0)%nat then "n1" else "n2"))))).

(** A consumer without cluster information. *)
Definition standaloneBroker : Broker :=
  broker zeroConfig (fun _ => ok (mkInfo None)).

(** A push consumer [SRC] without acknowledgement, the source of the
    copies below. *)
Definition source : ConsumerConfig :=
  set_MaxDeliver (-1) (set_DeliverSubject "out" (set_Durable "SRC" zeroConfig)).

Definition sourceBroker : Broker :=
  broker source (fun _ => ok (mkInfo None)).

(** The command line [nats consumer <verb> ORDERS NEW]. *)
Definition cmd : consumerCmd := commandLine "ORDERS" "NEW" [].

End Sample.

(** ** Vocabulary of the statements *)

(** A reply of the broker that shows [leader] as the leader. *)
Definition showsLeader (r : result ConsumerInfo) (leader : string) : Prop :=
  exists cl, r = ok (mkInfo (Some cl)) /\ Leader cl = leader.

(** A poll that does not see a new leader: the query failed, or it shows
    the leader there was. *)
Definition noNewLeader (r : result ConsumerInfo) (leader : string) : Prop :=
  (exists e, r = failed e) \/ showsLeader r leader.

(** The name the consumer gets: the argument, or the answer to the prompt
    when there is no argument and the consumer is not ephemeral. *)
Definition nameResolved (c : consumerCmd) (a : Answers) (name : string) : Prop :=
  if (consumer c == "") && negb (ephemeral c)
  then askName a = ok name
  else name = consumer c.

(** The delivery subject: the flag, or the answer to the prompt when
    neither the flag [target] nor the flag [pull] is given. *)
Definition deliveryResolved (c : consumerCmd) (a : Answers) (subject : string)
  : Prop :=
  if negb (pull c) && (delivery c == "")
  then askDelivery a = ok subject
  else subject = delivery c.

(** The flags that no prompt and no step of the resolution writes. *)
Definition keeps (c c' : consumerCmd) : Prop :=
  bpsRateLimit c' = bpsRateLimit c /\ samplePct c' = samplePct c.

(** A durable name without any of the characters ['.'], ['*'], ['>']. *)
Definition durableNameAllowed (s : string) : Prop :=
  ~ In "."%char (list_ascii_of_string s)
  /\ ~ In "*"%char (list_ascii_of_string s)
  /\ ~ In ">"%char (list_ascii_of_string s).

(** [cpConfig] as a list of overrides, each of which rewrites the
    configuration or ends the process; [pulled c] is the command after the
    assignment [c.ackPolicy = "explicit"] that the flag [pull] causes. *)
Definition Override : Type := ConsumerConfig -> Run ConsumerConfig.

Fixpoint runSteps {R : Type} (steps : list Override) (g : ConsumerConfig)
  (k : ConsumerConfig -> Run R) : Run R :=
  match steps with
  | [] => k g
  | s :: rest => g' <- s g ;; runSteps rest g' k
  end.

Definition assign (b : bool) (f : ConsumerConfig -> ConsumerConfig) : Override :=
  fun g => Return (if b then f g else g).

Definition assignRun {A : Type} (b : bool) (m : Run A)
  (set : A -> ConsumerConfig -> ConsumerConfig) : Override :=
  fun g => if b then v <- m ;; Return (set v g) else Return g.

Definition pulled (c : consumerCmd) : consumerCmd :=
  if pull c then set_ackPolicy "explicit" c else c.

Definition cpSteps {H : Host} (c : consumerCmd) : list Override :=
  [ assign (ackWait c >? 0) (set_AckWait (ackWait c));
    assignRun (negb (samplePct c =? -1)) (sampleFreqFromString c (samplePct c))
      set_SampleFrequency;
    (fun g => if negb (startPolicy c == "")
              then setStartPolicy g (startPolicy c) else Return g);
    (fun g => Return (if ephemeral c then set_Durable "" g
                      else set_Durable (destination c) g));
    assign (negb (delivery c == "")) (set_DeliverSubject (delivery c));
    assign (pull c) (set_DeliverSubject "");
    assignRun (negb (ackPolicy (pulled c) == ""))
      (ackPolicyFromString (ackPolicy (pulled c))) set_AckPolicy;
    assign (negb (filterSubject (pulled c) == "_unset_"))
      (set_FilterSubject (filterSubject (pulled c)));
    assignRun (negb (replayPolicy (pulled c) == ""))
      (replayPolicyFromString (replayPolicy (pulled c))) set_ReplayPolicy;
    assign (negb (maxDeliver (pulled c) =? 0))
      (set_MaxDeliver (maxDeliver (pulled c)));
    assign (negb (bpsRateLimit (pulled c) =? 0)%N)
      (set_RateLimit (bpsRateLimit (pulled c)));
    assign (negb (maxAckPending (pulled c) =? -1))
      (set_MaxAckPending (maxAckPending (pulled c))) ].

(** An override that leaves the field [P] as it is. *)
Definition preserves {B : Type} (P : ConsumerConfig -> B) (s : Override) : Prop :=
  forall g g', s g = Return g' -> P g' = P g.

(** ** Vocabulary of the further statements *)

(** The calls of [consumer.State()] in a trace. *)
Definition isStateQuery (e : Event) : bool :=
  match e with EvState => true | _ => false end.

Definition stateQueries (t : Trace) : nat := length (filter isStateQuery t).

(** What the subscription callback does with a message whose metadata
    parses. *)
Definition handled (c : consumerCmd) (m : Msg) : Trace :=
  EvRender m
  :: (if ack c
      then EvRespond m :: match Respond m with
                          | Some _ => [EvAckFailed m]
                          | None => []
                          end
      else []).

(** The command [subAction] goes on with once the consumer is loaded. *)
Definition ackFor (csm : Consumer) (c : consumerCmd) : consumerCmd :=
  if api.isAckNone (AckPolicy (Configuration csm)) then set_ack false c else c.

Definition parses (m : Msg) : Prop := exists u, Metadata m = ok u.

Definition isLoadOrRender (e : Event) : Prop :=
  match e with
  | EvLoadConsumer _ _ | EvRender _ => True
  | _ => False
  end.

Definition isPrint (e : Event) : Prop :=
  match e with EvPrintln _ => True | _ => False end.

(** The line "Leader did not change after ..." of [leaderStandDown]. *)
Definition reportsNoChange (e : Event) : bool :=
  match e with EvLog LogLeaderDidNotChange => true | _ => false end.

(** [prepareConfig] without a file, as a list of steps on the pair of the
    command and the configuration; each step takes the rest of the
    function as its continuation. *)
Definition St : Type := (consumerCmd * ConsumerConfig)%type.
Definition Res : Type := (consumerCmd * prepared)%type.
Definition KStep : Type := St -> (St -> Run Res) -> Run Res.

Fixpoint runK (steps : list KStep) (st : St) (k : St -> Run Res) : Run Res :=
  match steps with
  | [] => k st
  | s :: rest => s st (fun st' => runK rest st' k)
  end.

Definition askStep {A : Type} (b : consumerCmd -> ConsumerConfig -> bool)
  (r : result A) (msg : string) (set : A -> consumerCmd -> consumerCmd)
  : KStep :=
  fun st k =>
    let (c, g) := st in
    c' <- (if b c g then v <- FatalIfError r msg ;; Return (set v c)
           else Return c) ;;
    k (c', g).

Definition checkStep (b : consumerCmd -> ConsumerConfig -> bool) (msg : string)
  : KStep :=
  fun st k =>
    let (c, g) := st in
    _ <- (if b c g then Exit msg else Return tt) ;; k (c, g).

Definition cfgStep (f : consumerCmd -> ConsumerConfig -> ConsumerConfig)
  : KStep :=
  fun st k => let (c, g) := st in k (c, f c g).

Definition cmdStep (f : consumerCmd -> consumerCmd) : KStep :=
  fun st k => let (c, g) := st in k (f c, g).

Definition runStep {A : Type} (m : consumerCmd -> ConsumerConfig -> Run A)
  (set : A -> ConsumerConfig -> ConsumerConfig) : KStep :=
  fun st k => let (c, g) := st in v <- m c g ;; k (c, set v g).

Definition prepareSteps {H : Host} (a : Answers) : list KStep :=
  [ askStep (fun c _ => (consumer c == "") && negb (ephemeral c))
      (askName a) "could not request durable name" set_consumer;
    cfgStep (fun c g => set_Durable (consumer c) g);
    checkStep (fun _ g => GoString.matchDurableForbidden (Durable g))
      "durable name can not contain '.', '*', '>'";
    askStep (fun c _ => negb (pull c) && (delivery c == ""))
      (askDelivery a) "could not request delivery target" set_delivery;
    checkStep (fun c _ => ephemeral c && (delivery c == ""))
      "ephemeral Consumers has to be push-based.";
    cfgStep (fun c g => set_DeliverSubject (delivery c) g);
    cmdStep (fun c => if delivery c == "" then set_ackPolicy "explicit" c
                      else c);
    askStep (fun c _ => startPolicy c == "")
      (askStartPolicy a) "could not request start policy" set_startPolicy;
    runStep (fun c g => setStartPolicy g (startPolicy c)) (fun g' _ => g');
    askStep (fun c _ => ackPolicy c == "")
      (askAckPolicy a) "could not ask acknowledgement policy" set_ackPolicy;
    askStep (fun c _ => replayPolicy c == "")
      (askReplayPolicy a) "could not ask replay policy" set_replayPolicy;
    runStep (fun c _ => ackPolicyFromString (ackPolicy c)) set_AckPolicy;
    cfgStep (fun _ g => if api.isAckNone (AckPolicy g)
                        then set_MaxDeliver (-1) g else g);
    cfgStep (fun c g => if ackWait c >? 0 then set_AckWait (ackWait c) g
                        else g);
    runStep (fun c g =>
               if samplePct c >? 0
               then if samplePct c >? 100
                    then Exit "sample percent is not between 0 and 100"
                    else Return (set_SampleFrequency
                                   (GoString.Itoa (samplePct c)) g)
               else Return g)
      (fun g' _ => g');
    askStep (fun c g => negb (DeliverSubject g == "") && (replayPolicy c == ""))
      (askReplayMode a) "could not ask replay policy" set_replayPolicy;
    runStep (fun c g =>
               if negb (replayPolicy c == "")
               then r <- replayPolicyFromString (replayPolicy c) ;;
                    Return (set_ReplayPolicy r g)
               else Return g)
      (fun g' _ => g');
    askStep (fun c _ => filterSubject c == "_unset_")
      (askFilter a) "could not ask for filtering subject" set_filterSubject;
    cfgStep (fun c g => set_FilterSubject (filterSubject c) g);
    askStep (fun c g => (maxDeliver c =? 0)
                        && negb (api.isAckNone (AckPolicy g)))
      (askMaxDeliver a) "could not ask for maximum allowed deliveries"
      set_maxDeliver;
    askStep (fun c g => (maxAckPending c =? -1)
                        && negb (api.isAckNone (AckPolicy g)))
      (askMaxAckPending a)
      "could not ask for maximum outstanding acknowledgements"
      set_maxAckPending;
    cmdStep (fun c => if maxAckPending c =? -1 then set_maxAckPending 0 c
                      else c);
    cfgStep (fun c g => set_MaxAckPending (maxAckPending c) g);
    cfgStep (fun c g => if negb (maxDeliver c =? 0)
                           && negb (api.isAckNone (AckPolicy g))
                        then set_MaxDeliver (maxDeliver c) g else g) ].

(** The last statements of [prepareConfig]: the rate limit. *)
Definition lastStep (st : St) : Run Res :=
  let (c, g) := st in
  if (0 <? bpsRateLimit c)%N && (DeliverSubject g == "")
  then Return (c, Failed None ErrRateLimitOnPull)
  else Return (c, Prepared (set_RateLimit (bpsRateLimit c) g)).

(** Triples: from a state in [P], a step (a list of steps) that goes on
    hands a state in [Q] to its continuation. *)
Definition stepH (P : St -> Prop) (s : KStep) (Q : St -> Prop) : Prop :=
  forall st k r, P st -> s st k = Return r ->
                 exists st', Q st' /\ k st' = Return r.

Definition hoare (P : St -> Prop) (steps : list KStep) (Q : St -> Prop)
  : Prop :=
  forall st k r, P st -> runK steps st k = Return r ->
                 exists st', Q st' /\ k st' = Return r.

(** The same for the overrides of [cpConfig]. *)
Definition overrideH (P : ConsumerConfig -> Prop) (s : Override)
  (Q : ConsumerConfig -> Prop) : Prop :=
  forall g g', P g -> s g = Return g' -> Q g'.

Definition overridesH (P : ConsumerConfig -> Prop) (steps : list Override)
  (Q : ConsumerConfig -> Prop) : Prop :=
  forall (R : Type) (g : ConsumerConfig) (k : ConsumerConfig -> Run R) (r : R),
    P g -> runSteps steps g k = Return r ->
    exists g', Q g' /\ k g' = Return r.

(** The fields of the command that the resolution only reads. *)
Definition sameInputs (c0 c : consumerCmd) : Prop :=
  stream c = stream c0 /\ ack c = ack c0 /\ raw c = raw c0
  /\ destination c = destination c0 /\ inputFile c = inputFile c0
  /\ outFile c = outFile c0 /\ bpsRateLimit c = bpsRateLimit c0
  /\ pull c = pull c0 /\ ackWait c = ackWait c0 /\ samplePct c = samplePct c0
  /\ ephemeral c = ephemeral c0 /\ validateOnly c = validateOnly c0.

(** Assertions on the state of the resolution. *)
Definition pullIsExplicit (st : St) : Prop :=
  DeliverSubject (snd st) = delivery (fst st)
  /\ (delivery (fst st) = "" -> ackPolicy (fst st) = "explicit").

Definition ackResolved {H : Host} (st : St) : Prop :=
  pullIsExplicit st
  /\ ackPolicyFromString (ackPolicy (fst st)) = Return (AckPolicy (snd st)).

Definition pendingAsked (c0 : consumerCmd) (a : Answers) (st : St) : Prop :=
  (maxAckPending c0 <> -1 -> maxAckPending (fst st) = maxAckPending c0)
  /\ (maxAckPending c0 = -1 -> api.isAckNone (AckPolicy (snd st)) = true ->
      maxAckPending (fst st) = -1)
  /\ (maxAckPending c0 = -1 -> api.isAckNone (AckPolicy (snd st)) = false ->
      askMaxAckPending a = ok (maxAckPending (fst st))).

Definition pendingResolved (c0 : consumerCmd) (a : Answers) (st : St) : Prop :=
  maxAckPending (fst st) <> -1
  /\ (maxAckPending c0 <> -1 -> maxAckPending (fst st) = maxAckPending c0)
  /\ (maxAckPending c0 = -1 -> api.isAckNone (AckPolicy (snd st)) = true ->
      maxAckPending (fst st) = 0)
  /\ (maxAckPending c0 = -1 -> api.isAckNone (AckPolicy (snd st)) = false ->
      exists v, askMaxAckPending a = ok v
                /\ maxAckPending (fst st) = (if v =? -1 then 0 else v)).

Definition deliverAsked (c0 : consumerCmd) (a : Answers) (st : St) : Prop :=
  (api.isAckNone (AckPolicy (snd st)) = false -> MaxDeliver (snd st) = 0)
  /\ (maxDeliver c0 <> 0 -> maxDeliver (fst st) = maxDeliver c0)
  /\ (maxDeliver c0 = 0 -> api.isAckNone (AckPolicy (snd st)) = false ->
      askMaxDeliver a = ok (maxDeliver (fst st))).

Definition deliverResolved (c0 : consumerCmd) (a : Answers) (st : St) : Prop :=
  api.isAckNone (AckPolicy (snd st)) = false ->
  (maxDeliver c0 <> 0 -> MaxDeliver (snd st) = maxDeliver c0)
  /\ (maxDeliver c0 = 0 -> askMaxDeliver a = ok (MaxDeliver (snd st))).

Definition ackAsked (c0 : consumerCmd) (a : Answers) (st : St) : Prop :=
  DeliverSubject (snd st) = delivery (fst st)
  /\ (delivery (fst st) <> "" ->
      (ackPolicy c0 <> "" -> ackPolicy (fst st) = ackPolicy c0)
      /\ (ackPolicy c0 = "" -> askAckPolicy a = ok (ackPolicy (fst st)))).

Definition ackChosen {H : Host} (c0 : consumerCmd) (a : Answers) (st : St)
  : Prop :=
  DeliverSubject (snd st) <> "" ->
  (ackPolicy c0 <> "" ->
   ackPolicyFromString (ackPolicy c0) = Return (AckPolicy (snd st)))
  /\ (ackPolicy c0 = "" ->
      exists v, askAckPolicy a = ok v
                /\ ackPolicyFromString v = Return (AckPolicy (snd st))).

(** The wait, the filter and the replay policy given as flags are those of
    the configuration; a filter that is not given is the answer to its
    prompt. *)
Definition flagsHonoured {H : Host} (c0 : consumerCmd) (a : Answers)
  (g : ConsumerConfig) : Prop :=
  AckWait g = (if ackWait c0 >? 0 then ackWait c0 else 0)
  /\ (filterSubject c0 <> "_unset_" -> FilterSubject g = filterSubject c0)
  /\ (filterSubject c0 = "_unset_" -> askFilter a = ok (FilterSubject g))
  /\ (replayPolicy c0 <> "" ->
      replayPolicyFromString (replayPolicy c0) = Return (ReplayPolicy g)).

(** The deliver policy with its start sequence and start time. *)
Definition startFields (g : ConsumerConfig) : api.DeliverPolicy * N * option Z :=
  (DeliverPolicy g, OptStartSeq g, OptStartTime g).

(** The start of [g] is what [setStartPolicy] makes of the flag [deliver],
    or of the answer to its prompt, on the default configuration. *)
Definition startChosen {H : Host} (c0 : consumerCmd) (a : Answers)
  (g : ConsumerConfig) : Prop :=
  exists tok g1,
    (startPolicy c0 <> "" -> tok = startPolicy c0)
    /\ (startPolicy c0 = "" -> askStartPolicy a = ok tok)
    /\ setStartPolicy defaultConsumer tok = Return g1
    /\ startFields g = startFields g1.

(** The overrides of a copy that take the value of their flag. *)
Definition overridesApplied (c : consumerCmd) (cfg : ConsumerConfig) : Prop :=
  (0 < ackWait c -> AckWait cfg = ackWait c)
  /\ (pull c = true -> DeliverSubject cfg = "")
  /\ (pull c = false -> delivery c <> "" -> DeliverSubject cfg = delivery c)
  /\ (filterSubject c <> "_unset_" -> FilterSubject cfg = filterSubject c)
  /\ (maxDeliver c <> 0 -> MaxDeliver cfg = maxDeliver c)
  /\ (bpsRateLimit c <> 0%N -> RateLimit cfg = bpsRateLimit c)
  /\ (maxAckPending c <> -1 -> MaxAckPending cfg = maxAckPending c).

Create HintDb assertions.
#[local] Hint Unfold pullIsExplicit ackResolved pendingAsked pendingResolved
  deliverAsked deliverResolved ackAsked ackChosen : assertions.

(** ** Further sample collaborators *)

Module Scenario.

(** [nats consumer add ORDERS NEW] with every flag given: no prompt is
    needed. *)
Definition fullFlags : list Flag :=
  [FlagTarget "out"; FlagDeliver "42"; FlagAck "all"; FlagReplay "original";
   FlagFilter "ORDERS.new"; FlagWait 5000000000; FlagMaxDeliver 5;
   FlagMaxPending 10; FlagSample 50; FlagBps 1000].

Definition fullCmd : consumerCmd := commandLine "ORDERS" "NEW" fullFlags.

(** The same with [--output consumer.json] and with [--validate]. *)
Definition outCmd : consumerCmd :=
  commandLine "ORDERS" "NEW" (fullFlags ++ [FlagOutput "consumer.json"]).


Definition fullCfg : ConsumerConfig :=
  mkConfig "NEW" "out" api.DeliverByStartSequence 42 None api.AckAll
    5000000000 5 "ORDERS.new" api.ReplayOriginal "50" 1000 10.

(** A pull consumer asked for with [--ack none]. *)
Definition pullCmd : consumerCmd :=
  commandLine "ORDERS" "NEW"
    [FlagPull; FlagAck "none"; FlagDeliver "all"; FlagReplay "instant";
     FlagFilter ""; FlagMaxDeliver 3; FlagMaxPending 0].

Definition pullCfg : ConsumerConfig :=
  mkConfig "NEW" "" api.DeliverAll 0 None api.AckExplicit 0 3 ""
    api.ReplayInstant "" 0 0.

(** The channel of a ticker that delivers seven values. *)
Definition ticks : Chan := [500; 500; 500; 500; 500; 500; 500].

(** Messages: two that parse, the second with a failing acknowledgement,
    and one whose metadata does not parse. *)
Definition msg1 : Msg := mkMsg "ORDERS.new" "$JS.ACK.1" "one" (ok tt) None.
Definition msg2 : Msg :=
  mkMsg "ORDERS.new" "$JS.ACK.2" "two" (ok tt)
    (Some (ErrExternal "nats: connection closed")).
Definition badMsg : Msg :=
  mkMsg "ORDERS.new" "" "three" (failed (ErrExternal "invalid metadata")) None.

(** A push consumer with explicit acknowledgement and a pull consumer
    without acknowledgement. *)
Definition pushCfg : ConsumerConfig :=
  set_AckPolicy api.AckExplicit (set_DeliverSubject "out" zeroConfig).

Definition pushBroker : Broker :=
  Sample.broker pushCfg (fun _ => ok (mkInfo None)).

(** A broker whose next message is [m]; the random delay is half the
    bound. *)
Definition fetchBroker (cfg : ConsumerConfig) (m : Msg) : Broker := {|
  connectAndSetup := fun c _ _ => Return c;
  LoadConsumer := fun s n => ok (mkConsumer s n cfg);
  NewConsumerFromDefault := fun s cfg' => ok (mkConsumer s (Durable cfg') cfg');
  State := fun _ => ok (mkInfo None);
  LeaderStepDown := None;
  Subscribe := fun _ => None;
  NextMsgRequest := fun _ _ => None;
  NextMsg := ok m;
  Intn := fun n => n / 2
|}.

(** A host whose validator refuses every configuration. *)
Definition strictHost : Host := {|
  ToLower := GoString.lowerASCII;
  parseDurationString := fun _ => failed (ErrExternal "invalid duration");
  Now := 0;
  ReadFile := fun _ => failed (ErrExternal "no such file");
  WriteFile := fun _ _ => None;
  Unmarshal := fun _ => (zeroConfig, Some (ErrExternal "unexpected end of JSON input"));
  MarshalIndent := fun cfg => ok ("{ durable_name: " ++ Durable cfg ++ " }");
  Validate := fun _ => (false, ["deliver_subject: is required"]);
  Getenv := fun _ => ""
|}.

End Scenario.

(** * Properties *)

(** ** General facts about [Run] and [Act] *)

Lemma bind_Return {A B : Type} (m : Run A) (k : A -> Run B) (b : B) :
  bind m k = Return b -> exists a, m = Return a /\ k a = Return b.
Proof.
  destruct m as [a|msg]; simpl; intros E.
  - exists a. split; [reflexivity | exact E].
  - discriminate E.
Qed.

Lemma FatalIfError_Return {A : Type} (r : result A) (msg : string) (a : A) :
  FatalIfError r msg = Return a -> r = ok a.
Proof.
  destruct r; simpl; intros E; [injection E as ->; reflexivity | discriminate E].
Qed.

Lemma andThen_trace {A B : Type} (m : Act A) (k : A -> Act B) (e : Event) :
  In e (fst (andThen m k)) ->
  In e (fst m) \/ exists a, snd m = Next a /\ In e (fst (k a)).
Proof.
  destruct m as [t [a|o]]; simpl.
  - destruct (k a) as [t' s] eqn:E. simpl. intros I.
    apply in_app_or in I. destruct I as [I|I]; [left; exact I|].
    right. exists a. rewrite E. split; [reflexivity | exact I].
  - intros I. left. exact I.
Qed.

Lemma complete_trace (m : Act unit) : fst (complete m) = fst m.
Proof. destruct m as [t [a|o]]; reflexivity. Qed.

(** ** Leader step-down *)

(** One value on the channel is one poll: when it sees no new leader the
    loop goes back to a channel that stays silent. *)
Lemma pollLoop_one_tick (B : Broker) (leader : string) (d : Z) (n : nat) :
  noNewLeader (State B n) leader ->
  exists t, pollLoop B leader (NewTimerC d) 0 n = (EvState :: t, Stop Blocked)
            /\ ~ In EvState t.
Proof.
  intros [[e E] | [cl [E L]]]; simpl; rewrite E; simpl.
  - exists [EvLog (LogStateFailed e)]. split; [reflexivity|].
    intros [I|[]]; discriminate I.
  - rewrite L, String.eqb_refl. simpl. exists []. split; [reflexivity | intros []].
Qed.

(** On a channel that keeps delivering, the loop gives up at the sixth
    value, after five polls, by returning the error
    "consumer did not elect a new leader in time". *)
Lemma pollLoop_gives_up (B : Broker) (leader : string) :
  (forall n, showsLeader (State B n) leader) ->
  forall (k ctr : nat) (ch : Chan) (n : nat),
    (ctr + k = 5)%nat -> (k < length ch)%nat ->
    pollLoop B leader ch ctr n
    = (repeat EvState k, Stop (Finished (Some ErrNoLeaderInTime))).
Proof.
  intros S. induction k as [|k IH]; intros ctr ch n E L.
  - destruct ch as [|x ch]; [simpl in L; lia|].
    simpl. replace ctr with 5%nat by lia. reflexivity.
  - destruct ch as [|x ch]; [simpl in L; lia|].
    simpl. destruct (Nat.eqb_spec ctr 5) as [->|_]; [lia|].
    destruct (S n) as [cl [-> Lc]]. simpl. rewrite Lc, String.eqb_refl. simpl.
    rewrite (IH (Datatypes.S ctr) ch (Datatypes.S n)); [reflexivity | lia | simpl in L; lia].
Qed.

(** C1 (the code on the inputs of the claim).  When the step-down request
    was accepted and every reply of the broker shows the leader there was,
    [leaderStandDown] polls the state once, 500ms after the request, and
    then waits for ever on the channel of a timer that has already fired:
    it makes no second attempt, does not end the loop and reports nothing. *)
Theorem leaderStandDown_blocks_after_one_poll
  (B : Broker) (c c' : consumerCmd) (csm : Consumer) (leader : string) :
  connectAndSetup B c true true = Return c' ->
  LoadConsumer B (stream c') (consumer c') = ok csm ->
  LeaderStepDown B = None ->
  (forall n, showsLeader (State B n) leader) ->
  exists peers,
    leaderStandDown B c
    = ([EvLoadConsumer (stream c') (consumer c'); EvState;
        EvLog (LogRequestingStepDown leader peers); EvLeaderStepDown; EvState],
       Blocked).
Proof.
  intros Hs Hl Hd Hst.
  destruct (Hst 0%nat) as [cl [E0 L0]].
  destruct (Hst 1%nat) as [cl1 [E1 L1]].
  exists (length (Replicas cl) + 1)%nat.
  unfold leaderStandDown. rewrite Hs. simpl. rewrite Hl. simpl.
  rewrite E0. simpl. rewrite Hd. simpl. rewrite E1. simpl.
  rewrite L0, L1, String.eqb_refl. reflexivity.
Qed.

Lemma leaderStandDown_blocks_after_one_poll_witness :
  exists peers,
    leaderStandDown Sample.stubbornBroker Sample.cmd
    = ([EvLoadConsumer "ORDERS" "NEW"; EvState;
        EvLog (LogRequestingStepDown "n1" peers); EvLeaderStepDown; EvState],
       Blocked).
Proof.
  apply (leaderStandDown_blocks_after_one_poll
           Sample.stubbornBroker Sample.cmd Sample.cmd
           (mkConsumer "ORDERS" "NEW" zeroConfig) "n1").
  - reflexivity.
  - reflexivity.
  - reflexivity.
  - intros n. exists (Sample.cluster "n1"). split; reflexivity.
Defined.

(** When the first poll shows another leader the loop is left at once and
    the consumer is displayed. *)
Lemma leaderStandDown_new_leader :
  snd (leaderStandDown Sample.electingBroker Sample.cmd) = Finished None
  /\ In (EvLog (LogNewLeader "n2"))
       (fst (leaderStandDown Sample.electingBroker Sample.cmd)).
Proof. split; [reflexivity | vm_compute; auto 10]. Qed.

(** C9.  For a consumer whose state carries no cluster information the
    step-down ends with the error [ErrNotClustered], and the only calls
    made to the broker are the load of the consumer and one state query:
    no step-down request is issued. *)
Theorem leaderStandDown_not_clustered
  (B : Broker) (c c' : consumerCmd) (csm : Consumer) (info : ConsumerInfo) :
  connectAndSetup B c true true = Return c' ->
  LoadConsumer B (stream c') (consumer c') = ok csm ->
  State B 0 = ok info ->
  Cluster info = None ->
  leaderStandDown B c
  = ([EvLoadConsumer (stream c') (consumer c'); EvState],
     Finished (Some (ErrNotClustered (StreamName csm) (Name csm))))
  /\ ~ In EvLeaderStepDown (fst (leaderStandDown B c)).
Proof.
  intros Hs Hl Hst Hc.
  assert (E : leaderStandDown B c
              = ([EvLoadConsumer (stream c') (consumer c'); EvState],
                 Finished (Some (ErrNotClustered (StreamName csm) (Name csm))))).
  { unfold leaderStandDown. rewrite Hs. simpl. rewrite Hl. simpl.
    rewrite Hst. simpl. rewrite Hc. reflexivity. }
  split; [exact E|].
  rewrite E. simpl. intros [I|[I|[]]]; discriminate I.
Qed.

Lemma leaderStandDown_not_clustered_witness :
  leaderStandDown Sample.standaloneBroker Sample.cmd
  = ([EvLoadConsumer "ORDERS" "NEW"; EvState],
     Finished (Some (ErrNotClustered "ORDERS" "NEW")))
  /\ ~ In EvLeaderStepDown (fst (leaderStandDown Sample.standaloneBroker Sample.cmd)).
Proof.
  apply (leaderStandDown_not_clustered
           Sample.standaloneBroker Sample.cmd Sample.cmd
           (mkConsumer "ORDERS" "NEW" zeroConfig) (mkInfo None));
    reflexivity.
Defined.

(** ** Acknowledgement on a subscription *)

Lemma onMessage_without_ack (c : consumerCmd) (m : Msg) (e : Event) :
  ack c = false -> In e (fst (onMessage c m)) -> e = EvRender m.
Proof.
  intros Hack. unfold onMessage. rewrite Hack.
  destruct (Metadata m) as [u|err]; simpl.
  - intros [I|[]]. symmetry. exact I.
  - intros [].
Qed.

Lemma dispatch_without_ack (c : consumerCmd) (incoming : list Msg) :
  ack c = false ->
  forall m, ~ In (EvRespond m) (fst (dispatch c incoming)).
Proof.
  intros Hack m. induction incoming as [|x rest IH]; simpl.
  - intros [].
  - intros I. apply andThen_trace in I. destruct I as [I | [u [_ I]]].
    + apply (onMessage_without_ack c x _ Hack) in I. discriminate I.
    + exact (IH I).
Qed.

(** With acknowledgement on, every message that is handled is answered:
    the absence of [EvRespond] below is due to the policy, not to the
    callback. *)
Lemma onMessage_with_ack (c : consumerCmd) (m : Msg) :
  ack c = true -> Metadata m = ok tt -> In (EvRespond m) (fst (onMessage c m)).
Proof.
  intros Hack Hm. unfold onMessage. rewrite Hack, Hm. simpl.
  destruct (Respond m); simpl; auto.
Qed.

(** C8.  On a subscription to a push consumer whose acknowledgement policy
    is [AckNone], whatever messages arrive and whatever the caller asked
    for with the flag [ack], no [m.Respond] is ever called. *)
Theorem subAction_AckNone_never_responds
  (B : Broker) (c c' : consumerCmd) (csm : Consumer) (incoming : list Msg) :
  connectAndSetup B c true true = Return c' ->
  LoadConsumer B (stream c') (consumer c') = ok csm ->
  AckPolicy (Configuration csm) = api.AckNone ->
  IsPushMode csm = true ->
  forall m, ~ In (EvRespond m) (fst (subAction B c incoming)).
Proof.
  intros Hs Hl Hp Hpush m.
  unfold subAction. rewrite complete_trace, Hs. simpl. rewrite Hl. simpl.
  rewrite Hp. simpl.
  unfold IsPushMode in Hpush. apply negb_true_iff in Hpush. rewrite Hpush.
  unfold IsPushMode. rewrite Hpush. simpl.
  unfold subscribeConsumer.
  destruct (Subscribe B (DeliverSubject (Configuration csm))) as [err|]; simpl.
  - intros [I|[I|[]]]; discriminate I.
  - destruct (dispatch (set_ack false c') incoming) as [t s] eqn:E.
    assert (N : ~ In (EvRespond m) t).
    { pose proof (dispatch_without_ack (set_ack false c') incoming eq_refl m) as N.
      rewrite E in N. exact N. }
    destruct s as [u|o]; simpl.
    + intros [I|[I|I]]; try discriminate I.
      rewrite app_nil_r in I. exact (N I).
    + intros [I|[I|I]]; try discriminate I. exact (N I).
Qed.

Lemma subAction_AckNone_never_responds_witness :
  ~ exists m,
      In (EvRespond m)
        (fst (subAction
                (Sample.broker (set_DeliverSubject "out" zeroConfig)
                   (fun _ => ok (mkInfo None)))
                Sample.cmd
                [mkMsg "ORDERS.new" "$JS.ACK.1" "hello" (ok tt) None;
                 mkMsg "ORDERS.new" "$JS.ACK.2" "world" (ok tt) None])).
Proof.
  intros [m I].
  exact (subAction_AckNone_never_responds
           (Sample.broker (set_DeliverSubject "out" zeroConfig)
              (fun _ => ok (mkInfo None)))
           Sample.cmd Sample.cmd
           (mkConsumer "ORDERS" "NEW" (set_DeliverSubject "out" zeroConfig))
           _ eq_refl eq_refl eq_refl eq_refl m I).
Defined.

(** ** Validation bypass *)

(** C10.  When the variable NOVALIDATE is set and the configuration
    serialises, [validateCfg] declares the configuration valid and returns
    the nil slice in place of the serialisation it has computed; hence
    [createAction] prints an empty serialisation with the flag [validate]
    and writes a file of zero bytes with the flag [output]. *)
Theorem validateCfg_bypass_drops_serialization
  {H : Host} (cfg : ConsumerConfig) (j : string) :
  MarshalIndent cfg = ok j ->
  Getenv "NOVALIDATE" <> "" ->
  validateCfg cfg = (true, None, [], None)
  /\ (forall (B : Broker) (c c' : consumerCmd) (a : Answers),
        prepareConfig c a = Return (c', Prepared cfg) ->
        validateOnly c' = true ->
        createAction B c a
        = ([EvPrintln ""; EvPrintln "";
            EvPrintln "Configuration is a valid Consumer"],
           Finished None))
  /\ (forall (B : Broker) (c c' : consumerCmd) (a : Answers),
        prepareConfig c a = Return (c', Prepared cfg) ->
        validateOnly c' = false ->
        outFile c' <> "" ->
        createAction B c a
        = ([EvWriteFile (outFile c') None],
           Finished (WriteFile (outFile c') None))
        /\ bytesToString None = "").
Proof.
  intros Hj Henv.
  assert (V : validateCfg cfg = (true, None, [], None)).
  { unfold validateCfg. rewrite Hj.
    destruct (String.eqb_spec (Getenv "NOVALIDATE") "") as [E|_];
      [contradiction | reflexivity]. }
  split; [exact V|]. split.
  - intros B c c' a Hp Hv. unfold createAction. rewrite Hp. simpl.
    rewrite Hv, V. reflexivity.
  - intros B c c' a Hp Hv Ho. unfold createAction. rewrite Hp. simpl.
    rewrite Hv, V.
    destruct (String.eqb_spec (outFile c') "") as [E|_]; [contradiction|].
    simpl. split; reflexivity.
Qed.

Lemma validateCfg_bypass_drops_serialization_witness :
  @validateCfg (Sample.host "1")
    (set_MaxDeliver (-1) (set_DeliverSubject "out" (set_Durable "NEW" zeroConfig)))
  = (true, None, [], None)
  /\ @createAction (Sample.host "1") Sample.stubbornBroker
       (commandLine "ORDERS" "NEW" [FlagTarget "out"; FlagValidate]) Sample.answers
     = ([EvPrintln ""; EvPrintln ""; EvPrintln "Configuration is a valid Consumer"],
        Finished None)
  /\ @createAction (Sample.host "1") Sample.stubbornBroker
       (commandLine "ORDERS" "NEW" [FlagTarget "out"; FlagOutput "new.json"])
       Sample.answers
     = ([EvWriteFile "new.json" None], Finished None).
Proof.
  destruct (@validateCfg_bypass_drops_serialization (Sample.host "1")
              (set_MaxDeliver (-1)
                 (set_DeliverSubject "out" (set_Durable "NEW" zeroConfig)))
              "{ durable_name: NEW }" eq_refl)
    as (V & P & W).
  - discriminate.
  - split; [exact V|]. split.
    + apply (P Sample.stubbornBroker
               (commandLine "ORDERS" "NEW" [FlagTarget "out"; FlagValidate])
               (commandLine "ORDERS" "NEW"
                  [FlagTarget "out"; FlagValidate; FlagDeliver "all";
                   FlagAck "none"; FlagReplay "instant"; FlagFilter "";
                   FlagMaxPending 0])
               Sample.answers); vm_compute; reflexivity.
    + destruct (W Sample.stubbornBroker
                  (commandLine "ORDERS" "NEW"
                     [FlagTarget "out"; FlagOutput "new.json"])
                  (commandLine "ORDERS" "NEW"
                     [FlagTarget "out"; FlagOutput "new.json";
                      FlagDeliver "all"; FlagAck "none";
                      FlagReplay "instant"; FlagFilter "";
                      FlagMaxPending 0])
                  Sample.answers) as [E _].
      * vm_compute; reflexivity.
      * vm_compute; reflexivity.
      * vm_compute; discriminate.
      * rewrite E. vm_compute. reflexivity.
Defined.

(** Without the bypass, [validateCfg] hands back the bytes of
    [json.MarshalIndent] together with the verdict of the validator. *)
Lemma validateCfg_checked {H : Host} (cfg : ConsumerConfig) (j : string) :
  MarshalIndent cfg = ok j ->
  Getenv "NOVALIDATE" = "" ->
  validateCfg cfg = (fst (Validate cfg), Some j, snd (Validate cfg), None).
Proof.
  intros Hj Henv. unfold validateCfg. rewrite Hj, Henv. simpl.
  destruct (Validate cfg); reflexivity.
Qed.

(** With a configuration file, [prepareConfig] returns what
    [json.Unmarshal] read, untouched by flags, prompts and checks, unless
    the name on the command line differs from the durable name read. *)
Lemma prepareConfig_file {H : Host} (c : consumerCmd) (a : Answers)
  (f : string) (cfg : ConsumerConfig) :
  inputFile c <> "" ->
  ReadFile (inputFile c) = ok f ->
  Unmarshal f = (cfg, None) ->
  Durable cfg = "" \/ consumer c = "" \/ Durable cfg = consumer c ->
  prepareConfig c a = Return (c, Prepared cfg).
Proof.
  intros Hf Hr Hu Hn. unfold prepareConfig.
  destruct (String.eqb_spec (inputFile c) "") as [E|_]; [contradiction|].
  cbn [negb]. rewrite Hr, Hu.
  destruct Hn as [E | [E | E]]; rewrite E.
  - reflexivity.
  - rewrite String.eqb_refl. cbn [negb]. rewrite andb_false_r. reflexivity.
  - rewrite String.eqb_refl. cbn [negb]. rewrite andb_false_r. reflexivity.
Qed.

(** ** Configuration resolution from flags and prompts *)

Ltac inv_bind H :=
  let x := fresh "x" in
  let E := fresh "E" in
  apply bind_Return in H; destruct H as (x & E & H); cbv beta zeta in H.

(** A prompt that is asked under a condition and stores its answer. *)
Lemma ask_step {A : Type} (b : bool) (r : result A) (msg : string)
  (set : A -> consumerCmd -> consumerCmd) (c x : consumerCmd) :
  (if b then v <- FatalIfError r msg ;; Return (set v c) else Return c)
  = Return x ->
  (b = false /\ x = c) \/ (b = true /\ exists v, r = ok v /\ x = set v c).
Proof.
  destruct b; intros E.
  - right. split; [reflexivity|].
    apply bind_Return in E. destruct E as (v & Ev & E).
    apply FatalIfError_Return in Ev. injection E as <-. exists v. auto.
  - left. injection E as <-. auto.
Qed.

Ltac cmd_frame E :=
  apply ask_step in E;
  let v := fresh "v" in
  destruct E as [[_ E] | [_ (v & _ & E)]]; rewrite E; simpl; auto.

Section ResolutionFacts.
Context {H : Host}.

(** [setStartPolicy] writes the deliver policy and its start sequence or
    time, and nothing else. *)
Lemma setStartPolicy_frame (cfg : ConsumerConfig) (policy : string)
  (cfg' : ConsumerConfig) :
  setStartPolicy cfg policy = Return cfg' ->
  Durable cfg' = Durable cfg /\ DeliverSubject cfg' = DeliverSubject cfg
  /\ AckPolicy cfg' = AckPolicy cfg /\ AckWait cfg' = AckWait cfg
  /\ MaxDeliver cfg' = MaxDeliver cfg
  /\ FilterSubject cfg' = FilterSubject cfg
  /\ ReplayPolicy cfg' = ReplayPolicy cfg
  /\ SampleFrequency cfg' = SampleFrequency cfg
  /\ RateLimit cfg' = RateLimit cfg
  /\ MaxAckPending cfg' = MaxAckPending cfg.
Proof.
  unfold setStartPolicy. intros E.
  repeat match type of E with
         | (if ?b then _ else _) = _ => destruct b
         | bind _ _ = _ =>
             apply bind_Return in E; destruct E as (d & _ & E)
         end;
    injection E as <-; repeat split; reflexivity.
Qed.

(** What a return of [prepareConfig] tells when no file is read. *)
Lemma prepareConfig_flags (c : consumerCmd) (a : Answers)
  (c' : consumerCmd) (p : prepared) :
  inputFile c = "" ->
  prepareConfig c a = Return (c', p) ->
  nameResolved c a (consumer c')
  /\ deliveryResolved c a (delivery c')
  /\ GoString.matchDurableForbidden (consumer c') = false
  /\ samplePct c <= 100
  /\ match p with
     | Failed o e =>
         o = None /\ e = ErrRateLimitOnPull
         /\ (0 <? bpsRateLimit c)%N = true /\ delivery c' = ""
     | Prepared cfg =>
         Durable cfg = consumer c'
         /\ DeliverSubject cfg = delivery c'
         /\ (AckPolicy cfg = api.AckNone -> MaxDeliver cfg = -1)
         /\ SampleFrequency cfg
            = (if samplePct c >? 0 then GoString.Itoa (samplePct c) else "")
         /\ RateLimit cfg = bpsRateLimit c
         /\ (0 <? bpsRateLimit c)%N && (delivery c' == "") = false
     end.
Proof.
  intros Hf Hp. unfold prepareConfig in Hp. rewrite Hf in Hp.
  cbn [String.eqb negb] in Hp. cbv beta zeta in Hp.
  repeat inv_bind Hp.
  (* the name and the delivery subject *)
  assert (N : nameResolved c a (consumer x)
              /\ pull x = pull c /\ delivery x = delivery c
              /\ keeps c x).
  { clear - E. unfold nameResolved, keeps. apply ask_step in E.
    destruct E as [[-> ->] | [-> (v & Ev & ->)]]; simpl; auto. }
  destruct N as (N & Px & Lx & B0 & P0).
  assert (D : deliveryResolved c a (delivery x1)
              /\ consumer x1 = consumer x /\ keeps x x1).
  { clear - E1 Px Lx. unfold deliveryResolved, keeps. rewrite <- Px, <- Lx.
    apply ask_step in E1.
    destruct E1 as [[-> ->] | [-> (v & Ev & ->)]]; simpl; auto. }
  destruct D as (D & C1 & B1 & P1).
  assert (N0 : GoString.matchDurableForbidden (consumer x) = false).
  { clear - E0. simpl in E0.
    destruct (GoString.matchDurableForbidden (consumer x));
      [discriminate E0 | reflexivity]. }
  (* the command keeps these fields through the later prompts *)
  assert (F3 : keeps x1 x3
               /\ consumer x3 = consumer x1 /\ delivery x3 = delivery x1).
  { clear - E3. unfold keeps. apply ask_step in E3.
    destruct E3 as [[_ E] | [_ (v & _ & E)]]; rewrite E;
      destruct (delivery x1 == ""); simpl; auto. }
  assert (F5 : keeps x3 x5
               /\ consumer x5 = consumer x3 /\ delivery x5 = delivery x3)
    by (clear - E5; unfold keeps; cmd_frame E5).
  assert (F6 : keeps x5 x6
               /\ consumer x6 = consumer x5 /\ delivery x6 = delivery x5)
    by (clear - E6; unfold keeps; cmd_frame E6).
  assert (F9 : keeps x6 x9
               /\ consumer x9 = consumer x6 /\ delivery x9 = delivery x6)
    by (clear - E9; unfold keeps; cmd_frame E9).
  assert (F11 : keeps x9 x11
                /\ consumer x11 = consumer x9 /\ delivery x11 = delivery x9)
    by (clear - E11; unfold keeps; cmd_frame E11).
  assert (F12 : keeps x11 x12
                /\ consumer x12 = consumer x11 /\ delivery x12 = delivery x11)
    by (clear - E12; unfold keeps; cmd_frame E12).
  assert (F13 : keeps x12 x13
                /\ consumer x13 = consumer x12 /\ delivery x13 = delivery x12)
    by (clear - E13; unfold keeps; cmd_frame E13).
  (* the configuration keeps name, subject, policy and sampling *)
  apply setStartPolicy_frame in E4. simpl in E4.
  destruct E4 as (D4 & S4 & _ & _ & _ & _ & _ & Q4 & _).
  assert (G8 : Durable x8 = Durable x4
               /\ DeliverSubject x8 = DeliverSubject x4
               /\ AckPolicy x8 = x7
               /\ (x7 = api.AckNone -> MaxDeliver x8 = -1)
               /\ samplePct x6 <= 100
               /\ SampleFrequency x8
                  = (if samplePct x6 >? 0 then GoString.Itoa (samplePct x6)
                     else SampleFrequency x4)).
  { clear - E8.
    destruct (samplePct x6 >? 0) eqn:P;
      [destruct (samplePct x6 >? 100) eqn:P'; [discriminate E8|] |];
      injection E8 as <-;
      destruct (ackWait x6 >? 0); destruct x7; simpl;
      repeat split; intros; try reflexivity; try discriminate; lia. }
  assert (G10 : Durable x10 = Durable x8
                /\ DeliverSubject x10 = DeliverSubject x8
                /\ AckPolicy x10 = AckPolicy x8
                /\ MaxDeliver x10 = MaxDeliver x8
                /\ SampleFrequency x10 = SampleFrequency x8).
  { clear - E10. destruct (negb (replayPolicy x9 == "")).
    - apply bind_Return in E10. destruct E10 as (r & _ & E10).
      injection E10 as <-. repeat split; reflexivity.
    - injection E10 as <-. repeat split; reflexivity. }
  clear E E0 E1 E2 E3 E5 E6 E7 E8 E9 E10 E11 E12 E13.
  set (y := if maxAckPending x13 =? -1
            then set_maxAckPending 0 x13 else x13) in Hp.
  assert (Fy : bpsRateLimit y = bpsRateLimit x13
               /\ consumer y = consumer x13 /\ delivery y = delivery x13).
  { subst y. destruct (maxAckPending x13 =? -1); simpl; auto. }
  clearbody y. simpl in Hp.
  destruct F3 as ((B3 & P3) & C3 & L3), F5 as ((B5 & P5) & C5 & L5),
    F6 as ((B6 & P6) & C6 & L6), F9 as ((B9 & P9) & C9 & L9),
    F11 as ((B11 & P11) & C11 & L11), F12 as ((B12 & P12) & C12 & L12),
    F13 as ((B13 & P13) & C13 & L13), Fy as (By & Cy & Ly),
    G8 as (D8 & S8 & A8 & M8 & R8 & Q8),
    G10 as (D10 & S10 & A10 & M10 & Q10).
  assert (Bc : bpsRateLimit y = bpsRateLimit c) by congruence.
  assert (Cc : consumer y = consumer x) by congruence.
  assert (Lc : delivery y = delivery x1) by congruence.
  assert (Pc : samplePct x6 = samplePct c) by congruence.
  assert (Dc : Durable x10 = consumer x) by congruence.
  assert (Sc : DeliverSubject x10 = delivery x1) by congruence.
  assert (Ac : AckPolicy x10 = x7) by congruence.
  assert (Mc : x7 = api.AckNone -> MaxDeliver x10 = -1)
    by (intros Q; rewrite M10; auto).
  assert (Qc : SampleFrequency x10
               = (if samplePct c >? 0 then GoString.Itoa (samplePct c)
                  else "")).
  { rewrite Q10, Q8, Pc, Q4. reflexivity. }
  rewrite Pc in R8.
  clear - Hp Bc Cc Lc Dc Sc Ac Mc Qc R8 N0 N D.
  rewrite Ac, Bc in Hp.
  destruct (negb (maxDeliver y =? 0) && negb (api.isAckNone x7)) eqn:K;
    simpl in Hp; rewrite Sc in Hp;
    (destruct ((0 <? bpsRateLimit c)%N && (delivery x1 == "")) eqn:G;
     injection Hp as <- <-; rewrite Cc, Lc; simpl;
     [ apply andb_true_iff in G; destruct G as [G1 G2];
       apply String.eqb_eq in G2; repeat split; auto
     | repeat split; auto ]).
  - rewrite Ac. intros Q. rewrite Q in K. simpl in K.
    rewrite andb_false_r in K. discriminate K.
  - rewrite Ac. exact Mc.
Qed.

End ResolutionFacts.

Lemma matchDurableForbidden_false (s : string) :
  GoString.matchDurableForbidden s = false <-> durableNameAllowed s.
Proof.
  unfold GoString.matchDurableForbidden, durableNameAllowed.
  induction s as [|ch s IH].
  - simpl. split; [intros _; repeat split; intros [] | reflexivity].
  - cbn [GoString.containsAny existsb list_ascii_of_string In].
    rewrite !orb_false_iff, IH, !Ascii.eqb_neq. clear IH.
    split.
    + intros ((N1 & N2 & N3 & _) & (A1 & A2 & A3)).
      repeat split; intros [E|I]; auto.
    + intros (A1 & A2 & A3). repeat split; auto.
Qed.

Section CreateFromFlags.
Context {H : Host}.

(** C2, as amended.  On the create path without a configuration file,
    a resolved configuration whose acknowledgement policy is [AckNone]
    has [MaxDeliver = -1], whatever [max-deliver] the caller gave. *)
Theorem prepareConfig_AckNone_forces_MaxDeliver
  (c : consumerCmd) (a : Answers) (c' : consumerCmd) (cfg : ConsumerConfig) :
  inputFile c = "" ->
  prepareConfig c a = Return (c', Prepared cfg) ->
  AckPolicy cfg = api.AckNone ->
  MaxDeliver cfg = -1.
Proof.
  intros Hf Hp.
  destruct (prepareConfig_flags c a c' _ Hf Hp)
    as (_ & _ & _ & _ & _ & _ & M & _).
  exact M.
Qed.

(** C3, as amended.  On the create path without a configuration file and
    with a rate limit requested: a configuration that is produced is in
    push mode and carries the rate limit; and when the delivery subject
    resolves to the empty string the resolution ends the process or
    returns the error [ErrRateLimitOnPull] and no configuration. *)
Theorem prepareConfig_rate_limit_needs_push (c : consumerCmd) (a : Answers) :
  inputFile c = "" ->
  bpsRateLimit c <> 0%N ->
  (forall c' cfg,
      prepareConfig c a = Return (c', Prepared cfg) ->
      DeliverSubject cfg <> "" /\ RateLimit cfg = bpsRateLimit c)
  /\ (deliveryResolved c a "" ->
      (exists msg, prepareConfig c a = Exit msg)
      \/ (exists c', prepareConfig c a
                     = Return (c', Failed None ErrRateLimitOnPull))).
Proof.
  intros Hf Hb.
  assert (Pos : (0 <? bpsRateLimit c)%N = true) by (apply N.ltb_lt; lia).
  split.
  - intros c' cfg Hp.
    destruct (prepareConfig_flags c a c' _ Hf Hp)
      as (_ & _ & _ & _ & _ & S & _ & _ & R & G).
    split; [|exact R].
    rewrite Pos in G. simpl in G. rewrite S.
    intros E. rewrite E in G. discriminate G.
  - intros Hd. destruct (prepareConfig c a) as [[c' p]|msg] eqn:Hp.
    + right. exists c'.
      destruct (prepareConfig_flags c a c' p Hf Hp)
        as (_ & D & _ & _ & P).
      assert (L : delivery c' = "").
      { unfold deliveryResolved in Hd, D.
        destruct (negb (pull c) && (delivery c == "")); congruence. }
      destruct p as [cfg|o e].
      * destruct P as (_ & _ & _ & _ & _ & G).
        rewrite Pos, L in G. discriminate G.
      * destruct P as (-> & -> & _). reflexivity.
    + left. exists msg. reflexivity.
Qed.

(** C4, as amended.  On the create path without a configuration file,
    the durable name of a configuration that is produced is the name
    given or typed and holds none of ['.'], ['*'], ['>']; a name that
    holds one of them ends the process before anything is produced. *)
Theorem prepareConfig_durable_name (c : consumerCmd) (a : Answers) :
  inputFile c = "" ->
  (forall c' cfg,
      prepareConfig c a = Return (c', Prepared cfg) ->
      nameResolved c a (Durable cfg) /\ durableNameAllowed (Durable cfg))
  /\ (forall name,
        nameResolved c a name -> ~ durableNameAllowed name ->
        prepareConfig c a
        = Exit "durable name can not contain '.', '*', '>'").
Proof.
  intros Hf. split.
  - intros c' cfg Hp.
    destruct (prepareConfig_flags c a c' _ Hf Hp)
      as (N & _ & F & _ & D & _).
    rewrite D. split; [exact N | apply matchDurableForbidden_false; exact F].
  - intros name N A.
    assert (F : GoString.matchDurableForbidden name = true).
    { destruct (GoString.matchDurableForbidden name) eqn:F; [reflexivity|].
      apply matchDurableForbidden_false in F. contradiction. }
    unfold prepareConfig. rewrite Hf. cbn [String.eqb negb].
    unfold nameResolved in N.
    destruct ((consumer c == "") && negb (ephemeral c)).
    + rewrite N. simpl. rewrite F. reflexivity.
    + subst name. simpl. rewrite F. reflexivity.
Qed.

End CreateFromFlags.

Lemma prepareConfig_AckNone_forces_MaxDeliver_witness :
  exists c' cfg,
    @prepareConfig (Sample.host "")
      (commandLine "ORDERS" "NEW"
         [FlagTarget "out"; FlagAck "none"; FlagMaxDeliver 5])
      Sample.answers
    = Return (c', Prepared cfg)
    /\ AckPolicy cfg = api.AckNone
    /\ MaxDeliver cfg = -1.
Proof.
  eexists. eexists.
  split; [vm_compute; reflexivity|].
  split; [reflexivity|].
  eapply (@prepareConfig_AckNone_forces_MaxDeliver (Sample.host "")
            (commandLine "ORDERS" "NEW"
               [FlagTarget "out"; FlagAck "none"; FlagMaxDeliver 5])
            Sample.answers).
  - reflexivity.
  - vm_compute. reflexivity.
  - reflexivity.
Defined.

Lemma prepareConfig_rate_limit_needs_push_witness :
  deliveryResolved
    (commandLine "ORDERS" "NEW" [FlagPull; FlagBps 1000]) Sample.answers ""
  /\ ((exists msg,
         @prepareConfig (Sample.host "")
           (commandLine "ORDERS" "NEW" [FlagPull; FlagBps 1000])
           Sample.answers
         = Exit msg)
      \/ (exists c',
            @prepareConfig (Sample.host "")
              (commandLine "ORDERS" "NEW" [FlagPull; FlagBps 1000])
              Sample.answers
            = Return (c', Failed None ErrRateLimitOnPull))).
Proof.
  assert (D : deliveryResolved
                (commandLine "ORDERS" "NEW" [FlagPull; FlagBps 1000])
                Sample.answers "") by reflexivity.
  split; [exact D|].
  refine (proj2 (@prepareConfig_rate_limit_needs_push (Sample.host "")
                   (commandLine "ORDERS" "NEW" [FlagPull; FlagBps 1000])
                   Sample.answers eq_refl _) D).
  vm_compute. discriminate.
Defined.

Lemma prepareConfig_durable_name_witness :
  @prepareConfig (Sample.host "") (commandLine "ORDERS" "a.b" [])
    Sample.answers
  = Exit "durable name can not contain '.', '*', '>'".
Proof.
  refine (proj2 (@prepareConfig_durable_name (Sample.host "")
                   (commandLine "ORDERS" "a.b" []) Sample.answers eq_refl)
            "a.b" _ _).
  - reflexivity.
  - intros (A & _). apply A. simpl. auto.
Defined.

(** The create path accepts a sample percentage up to 100 only, and leaves
    the sample frequency out for every percentage that is not positive,
    the negative ones included. *)
Lemma prepareConfig_sample {H : Host} (c : consumerCmd) (a : Answers)
  (c' : consumerCmd) (cfg : ConsumerConfig) :
  inputFile c = "" ->
  prepareConfig c a = Return (c', Prepared cfg) ->
  samplePct c <= 100
  /\ (samplePct c <= 0 -> SampleFrequency cfg = "")
  /\ (0 < samplePct c -> SampleFrequency cfg = GoString.Itoa (samplePct c)).
Proof.
  intros Hf Hp.
  destruct (prepareConfig_flags c a c' _ Hf Hp)
    as (_ & _ & _ & R & _ & _ & _ & Q & _).
  split; [exact R|]. rewrite Q.
  split; intros G.
  - replace (samplePct c >? 0) with false by lia. reflexivity.
  - replace (samplePct c >? 0) with true by lia. reflexivity.
Qed.

(** C7 (the code at the failing input).  [nats consumer add ORDERS NEW
    --target out --sample -5] is not rejected: the configuration is
    produced, without a sample frequency. *)
Theorem prepareConfig_accepts_negative_sample :
  @prepareConfig (Sample.host "")
    (commandLine "ORDERS" "NEW" [FlagTarget "out"; FlagSample (-5)])
    Sample.answers
  = Return
      (commandLine "ORDERS" "NEW"
         [FlagTarget "out"; FlagSample (-5); FlagDeliver "all";
          FlagAck "none"; FlagReplay "instant"; FlagFilter "";
          FlagMaxPending 0],
       Prepared
         (set_MaxDeliver (-1)
            (set_DeliverSubject "out" (set_Durable "NEW" zeroConfig)))).
Proof. vm_compute. reflexivity. Qed.

(** The copy path, through [sampleFreqFromString], rejects every
    percentage outside [0, 100] that is not the sentinel [-1]. *)
Lemma cpConfig_rejects_sample_out_of_range {H : Host}
  (c : consumerCmd) (src : ConsumerConfig) :
  samplePct c <> -1 ->
  samplePct c < 0 \/ 100 < samplePct c ->
  cpConfig c src = Exit "sample percent is not between 0 and 100".
Proof.
  intros N R. unfold cpConfig. cbv zeta.
  replace (samplePct c =? -1) with false by lia. cbn [negb].
  unfold sampleFreqFromString.
  replace ((samplePct c >? 100) || (samplePct c <? 0)) with true
    by (symmetry; apply orb_true_iff; destruct R; [right | left]; lia).
  reflexivity.
Qed.

(** ** Copy of a consumer *)

Lemma cpConfig_steps {H : Host} (c : consumerCmd) (src : ConsumerConfig) :
  cpConfig c src = runSteps (cpSteps c) src (fun g => Return (pulled c, g)).
Proof. reflexivity. Qed.

Lemma runSteps_cons {R : Type} (s : Override) (rest : list Override)
  (g : ConsumerConfig) (k : ConsumerConfig -> Run R) :
  runSteps (s :: rest) g k = (g' <- s g ;; runSteps rest g' k).
Proof. reflexivity. Qed.

Lemma runSteps_preserves {B R : Type} (P : ConsumerConfig -> B)
  (steps : list Override) :
  Forall (preserves P) steps ->
  forall (g : ConsumerConfig) (k : ConsumerConfig -> Run R) (r : R),
    runSteps steps g k = Return r ->
    exists g', P g' = P g /\ k g' = Return r.
Proof.
  induction 1 as [|s rest Hs _ IH]; intros g k r E; simpl in E.
  - exists g. auto.
  - apply bind_Return in E. destruct E as (g1 & E1 & E).
    destruct (IH g1 k r E) as (g' & Pg & Kg).
    exists g'. split; [rewrite Pg; exact (Hs g g1 E1) | exact Kg].
Qed.

Lemma preserves_assign {B : Type} (P : ConsumerConfig -> B) (b : bool)
  (f : ConsumerConfig -> ConsumerConfig) :
  (b = true -> forall g, P (f g) = P g) -> preserves P (assign b f).
Proof.
  intros Hf g g' E. unfold assign in E. injection E as <-.
  destruct b; [apply Hf|]; reflexivity.
Qed.

Lemma preserves_assignRun {A B : Type} (P : ConsumerConfig -> B) (b : bool)
  (m : Run A) (set : A -> ConsumerConfig -> ConsumerConfig) :
  (b = true -> forall v g, P (set v g) = P g) ->
  preserves P (assignRun b m set).
Proof.
  intros Hf g g' E. unfold assignRun in E. destruct b.
  - apply bind_Return in E. destruct E as (v & _ & E). injection E as <-.
    apply Hf. reflexivity.
  - injection E as <-. reflexivity.
Qed.

Lemma pulled_fields (c : consumerCmd) :
  filterSubject (pulled c) = filterSubject c
  /\ replayPolicy (pulled c) = replayPolicy c
  /\ maxDeliver (pulled c) = maxDeliver c
  /\ bpsRateLimit (pulled c) = bpsRateLimit c
  /\ maxAckPending (pulled c) = maxAckPending c
  /\ (pull c = false -> ackPolicy (pulled c) = ackPolicy c).
Proof.
  unfold pulled. destruct (pull c); simpl; repeat split; auto. discriminate.
Qed.

(** One override leaves a field alone: it writes another field, or its
    condition is excluded by a hypothesis of the context. *)
Ltac frame_step :=
  lazymatch goal with
  | |- preserves _ (assign _ _) =>
      let Hb := fresh "Hb" in
      apply preserves_assign; intros Hb;
      first [ intros ?; reflexivity | exfalso; congruence ]
  | |- preserves _ (assignRun _ _ _) =>
      let Hb := fresh "Hb" in
      apply preserves_assignRun; intros Hb;
      first [ intros ? ?; reflexivity | exfalso; congruence ]
  | |- preserves _ _ =>
      let g := fresh "g" in
      let g' := fresh "g" in
      let E := fresh "E" in
      intros g g' E;
      first [ injection E as <-; destruct (ephemeral _); reflexivity
            | match type of E with
              | (if ?b then _ else _) = _ =>
                  destruct b eqn:?;
                  [ first [ apply setStartPolicy_frame in E;
                            decompose [and] E; assumption
                          | exfalso; congruence ]
                  | injection E as <-; reflexivity ]
              end ]
  end.

Ltac frame P Hp :=
  let g := fresh "g" in
  let Pg := fresh "Pg" in
  let K := fresh "K" in
  apply (runSteps_preserves P) in Hp;
  [ destruct Hp as (g & Pg & K); injection K as _ <-; exact Pg
  | unfold cpSteps; repeat (apply Forall_cons || apply Forall_nil); frame_step ].

Section Copy.
Context {H : Host}.

(** C5, as amended.  The copy of a source configuration has the
    destination as its durable name (no name with the flag [ephemeral]),
    and every other field is the field of the source unless its own input
    was given: a positive [wait], a [sample] other than -1, a [deliver]
    policy, a [target], an [ack] policy, a [filter] other than the
    sentinel, a [replay] policy, a [max-deliver] other than 0, a [bps]
    other than 0, a [max-pending] other than -1; the flag [pull] counts as
    an input for both the delivery subject and the ack policy. *)
Theorem cpConfig_frame (c : consumerCmd) (src : ConsumerConfig)
  (c' : consumerCmd) (cfg : ConsumerConfig) :
  cpConfig c src = Return (c', cfg) ->
  Durable cfg = (if ephemeral c then "" else destination c)
  /\ (ackWait c <= 0 -> AckWait cfg = AckWait src)
  /\ (samplePct c = -1 -> SampleFrequency cfg = SampleFrequency src)
  /\ (startPolicy c = "" ->
      DeliverPolicy cfg = DeliverPolicy src
      /\ OptStartSeq cfg = OptStartSeq src
      /\ OptStartTime cfg = OptStartTime src)
  /\ (delivery c = "" -> pull c = false ->
      DeliverSubject cfg = DeliverSubject src)
  /\ (ackPolicy c = "" -> pull c = false -> AckPolicy cfg = AckPolicy src)
  /\ (filterSubject c = "_unset_" -> FilterSubject cfg = FilterSubject src)
  /\ (replayPolicy c = "" -> ReplayPolicy cfg = ReplayPolicy src)
  /\ (maxDeliver c = 0 -> MaxDeliver cfg = MaxDeliver src)
  /\ (bpsRateLimit c = 0%N -> RateLimit cfg = RateLimit src)
  /\ (maxAckPending c = -1 -> MaxAckPending cfg = MaxAckPending src).
Proof.
  intros Hp. rewrite cpConfig_steps in Hp.
  destruct (pulled_fields c) as (Pf & Pr & Pm & Pb & Pa & Pk).
  repeat match goal with |- _ /\ _ => split end.
  - unfold cpSteps in Hp.
    do 3 (rewrite runSteps_cons in Hp; apply bind_Return in Hp;
          destruct Hp as (? & _ & Hp)).
    rewrite runSteps_cons in Hp. apply bind_Return in Hp.
    destruct Hp as (g4 & E4 & Hp). injection E4 as <-.
    apply (runSteps_preserves Durable) in Hp.
    + destruct Hp as (g & Pg & K). injection K as _ <-. rewrite Pg.
      destruct (ephemeral c); reflexivity.
    + repeat (apply Forall_cons || apply Forall_nil); frame_step.
  - intros G. assert (Gb : (ackWait c >? 0) = false) by lia.
    frame AckWait Hp.
  - intros G. assert (Gb : negb (samplePct c =? -1) = false)
      by (rewrite G; reflexivity).
    frame SampleFrequency Hp.
  - intros G. assert (Gb : negb (startPolicy c == "") = false)
      by (rewrite G; reflexivity).
    repeat match goal with |- _ /\ _ => split end.
    + frame DeliverPolicy Hp.
    + frame OptStartSeq Hp.
    + frame OptStartTime Hp.
  - intros G Gp. assert (Gb : negb (delivery c == "") = false)
      by (rewrite G; reflexivity).
    frame DeliverSubject Hp.
  - intros G Gp. assert (Gb : negb (ackPolicy (pulled c) == "") = false)
      by (rewrite (Pk Gp), G; reflexivity).
    frame AckPolicy Hp.
  - intros G.
    assert (Gb : negb (filterSubject (pulled c) == "_unset_") = false)
      by (rewrite Pf, G; reflexivity).
    frame FilterSubject Hp.
  - intros G. assert (Gb : negb (replayPolicy (pulled c) == "") = false)
      by (rewrite Pr, G; reflexivity).
    frame ReplayPolicy Hp.
  - intros G. assert (Gb : negb (maxDeliver (pulled c) =? 0) = false)
      by (rewrite Pm, G; reflexivity).
    frame MaxDeliver Hp.
  - intros G. assert (Gb : negb (bpsRateLimit (pulled c) =? 0)%N = false)
      by (rewrite Pb, G; reflexivity).
    frame RateLimit Hp.
  - intros G. assert (Gb : negb (maxAckPending (pulled c) =? -1) = false)
      by (rewrite Pa, G; reflexivity).
    frame MaxAckPending Hp.
Qed.

(** Without any override the copy cannot fail, and it is the source
    under its new name. *)
Lemma cpConfig_plain_copy (streamName source dest : string)
  (src : ConsumerConfig) :
  cpConfig (copyLine streamName source dest []) src
  = Return (copyLine streamName source dest [], set_Durable dest src).
Proof. reflexivity. Qed.

End Copy.

Lemma cpConfig_frame_witness :
  exists c' cfg,
    @cpConfig (Sample.host "")
      (copyLine "ORDERS" "SRC" "DST" [FlagWait 5000000000]) Sample.source
    = Return (c', cfg)
    /\ Durable cfg = "DST"
    /\ AckWait cfg = 5000000000
    /\ DeliverSubject cfg = "out"
    /\ AckPolicy cfg = api.AckNone
    /\ MaxDeliver cfg = -1.
Proof.
  assert (E : @cpConfig (Sample.host "")
                (copyLine "ORDERS" "SRC" "DST" [FlagWait 5000000000])
                Sample.source
              = Return (copyLine "ORDERS" "SRC" "DST" [FlagWait 5000000000],
                        set_AckWait 5000000000
                          (set_Durable "DST" Sample.source)))
    by (vm_compute; reflexivity).
  eexists. eexists. split; [exact E|].
  destruct (@cpConfig_frame (Sample.host "") _ _ _ _ E)
    as (D & _ & _ & _ & S & A & _ & _ & M & _).
  split; [exact D|]. split; [reflexivity|].
  split; [exact (S eq_refl eq_refl)|].
  split; [exact (A eq_refl eq_refl) | exact (M eq_refl)].
Defined.

(** ** Where the copy and the configuration file differ from the builder *)

(** C2 fails on the copy path: [nats consumer copy ORDERS SRC DST
    --max-deliver 5] of a source without acknowledgement creates a consumer
    with [AckNone] and [MaxDeliver = 5]. *)
Lemma cpAction_AckNone_keeps_MaxDeliver :
  @cpAction (Sample.host "") Sample.sourceBroker
    (copyLine "ORDERS" "SRC" "DST" [FlagMaxDeliver 5])
  = ([EvLoadConsumer "ORDERS" "SRC";
      EvNewConsumer "ORDERS" (set_MaxDeliver 5 (set_Durable "DST" Sample.source));
      EvState;
      EvShowInfo (set_MaxDeliver 5 (set_Durable "DST" Sample.source))
        (mkInfo None)],
     Finished None)
  /\ AckPolicy (set_MaxDeliver 5 (set_Durable "DST" Sample.source)) = api.AckNone
  /\ MaxDeliver (set_MaxDeliver 5 (set_Durable "DST" Sample.source)) <> -1.
Proof.
  split; [vm_compute; reflexivity|].
  split; [reflexivity | vm_compute; discriminate].
Qed.

(** C3 fails on the copy path: [nats consumer copy ORDERS SRC DST --pull
    --bps 1000] ends without an error and creates a pull consumer, its
    delivery subject empty, with the rate limit set. *)
Lemma cpAction_rate_limit_on_pull :
  @cpAction (Sample.host "") Sample.sourceBroker
    (copyLine "ORDERS" "SRC" "DST" [FlagPull; FlagBps 1000])
  = ([EvLoadConsumer "ORDERS" "SRC";
      EvNewConsumer "ORDERS"
        (set_RateLimit 1000
           (set_AckPolicy api.AckExplicit
              (set_DeliverSubject "" (set_Durable "DST" Sample.source))));
      EvState;
      EvShowInfo
        (set_RateLimit 1000
           (set_AckPolicy api.AckExplicit
              (set_DeliverSubject "" (set_Durable "DST" Sample.source))))
        (mkInfo None)],
     Finished None)
  /\ DeliverSubject
       (set_RateLimit 1000
          (set_AckPolicy api.AckExplicit
             (set_DeliverSubject "" (set_Durable "DST" Sample.source)))) = ""
  /\ RateLimit
       (set_RateLimit 1000
          (set_AckPolicy api.AckExplicit
             (set_DeliverSubject "" (set_Durable "DST" Sample.source))))
     = 1000%N.
Proof.
  split; [vm_compute; reflexivity|]. split; reflexivity.
Qed.

(** C4 fails on the copy path and with a configuration file: the
    destination [a.b] becomes the durable name of the copy, and the durable
    name [a.b] read from a file is returned as it is. *)
Lemma durable_name_unchecked_on_copy_and_file :
  ~ durableNameAllowed "a.b"
  /\ @cpAction (Sample.host "") Sample.sourceBroker
       (copyLine "ORDERS" "SRC" "a.b" [])
     = ([EvLoadConsumer "ORDERS" "SRC";
         EvNewConsumer "ORDERS" (set_Durable "a.b" Sample.source);
         EvState;
         EvShowInfo (set_Durable "a.b" Sample.source) (mkInfo None)],
        Finished None)
  /\ @prepareConfig (Sample.hostWithFile (set_Durable "a.b" zeroConfig))
       (commandLine "ORDERS" "" [FlagConfig "consumer.json"]) Sample.answers
     = Return (commandLine "ORDERS" "" [FlagConfig "consumer.json"],
               Prepared (set_Durable "a.b" zeroConfig)).
Proof.
  split.
  - intros (A & _). apply A. simpl. auto.
  - split; vm_compute; reflexivity.
Qed.

(** C5 fails: the single flag [pull] on [nats consumer copy ORDERS SRC DST]
    changes the delivery subject and the ack policy, and the destination
    replaces the durable name: three fields differ from the source. *)
Lemma cpConfig_pull_changes_several_fields :
  exists cfg,
    @cpConfig (Sample.host "") (copyLine "ORDERS" "SRC" "DST" [FlagPull])
      Sample.source
    = Return (pulled (copyLine "ORDERS" "SRC" "DST" [FlagPull]), cfg)
    /\ DeliverSubject cfg <> DeliverSubject Sample.source
    /\ AckPolicy cfg <> AckPolicy Sample.source
    /\ Durable cfg <> Durable Sample.source.
Proof.
  exists (set_AckPolicy api.AckExplicit
            (set_DeliverSubject "" (set_Durable "DST" Sample.source))).
  split; [vm_compute; reflexivity|].
  repeat split; vm_compute; discriminate.
Qed.

(** * Further properties *)

(** ** Leader step-down: polls and reports *)

Lemma andThen_emit {A : Type} (e : Event) (k : unit -> Act A) :
  andThen (emit e) k = (e :: fst (k tt), snd (k tt)).
Proof. unfold andThen, emit. destruct (k tt); reflexivity. Qed.

Lemma stateQueries_cons (e : Event) (t : Trace) :
  stateQueries (e :: t)
  = ((if isStateQuery e then 1 else 0) + stateQueries t)%nat.
Proof. unfold stateQueries. simpl. destruct (isStateQuery e); reflexivity. Qed.

Lemma stateQueries_nil : stateQueries [] = 0%nat.
Proof. reflexivity. Qed.

Ltac count_queries :=
  repeat (rewrite ?andThen_emit; cbn [fst snd pass halt returns];
          rewrite ?stateQueries_cons, ?stateQueries_nil; cbn [isStateQuery]).

(** X1.  Whatever the channel delivers and whatever the broker replies, the
    loop of [leaderStandDown] queries the state at most once per value it
    receives and at most [5 - ctr] times: the counter bounds the polls on
    every channel, a ticker included. *)
Theorem pollLoop_polls_bounded (B : Broker) (leader : string) :
  forall (ch : Chan) (ctr n : nat),
    (ctr <= 5)%nat ->
    (stateQueries (fst (pollLoop B leader ch ctr n))
     <= Nat.min (5 - ctr) (length ch))%nat.
Proof.
  induction ch as [|x ch IH]; intros ctr n Hc.
  - cbn [pollLoop]. count_queries. lia.
  - cbn [pollLoop length]. destruct (Nat.eqb_spec ctr 5) as [->|Hn].
    + count_queries. lia.
    + assert (Hr : (stateQueries (fst (pollLoop B leader ch (S ctr) (S n)))
                    <= Nat.min (5 - S ctr) (length ch))%nat) by (apply IH; lia).
      destruct (State B n) as [info|err];
        [destruct (Cluster info) as [cl|];
         [destruct (negb (Leader cl == leader))|]|];
        count_queries; lia.
Qed.

Lemma pollLoop_polls_bounded_witness :
  (stateQueries
     (fst (pollLoop Sample.stubbornBroker "n1" Scenario.ticks 0 1))
   <= Nat.min (5 - 0) (length Scenario.ticks))%nat.
Proof.
  apply (pollLoop_polls_bounded Sample.stubbornBroker "n1"
           Scenario.ticks 0 1).
  lia.
Defined.

Ltac broker_cases B :=
  repeat (cbn - [String.eqb];
          first
            [ match goal with
              | |- context [connectAndSetup B ?c ?x ?y] =>
                  destruct (connectAndSetup B c x y) eqn:?
              end
            | match goal with
              | |- context [LoadConsumer B ?s ?n] =>
                  destruct (LoadConsumer B s n) eqn:?
              end
            | match goal with
              | |- context [State B ?n] => destruct (State B n) eqn:?
              end
            | match goal with
              | |- context [Cluster ?i] => destruct (Cluster i) eqn:?
              end
            | match goal with
              | |- context [LeaderStepDown B] =>
                  destruct (LeaderStepDown B) eqn:?
              end
            | match goal with
              | |- context [String.eqb ?a ?b] =>
                  destruct (String.eqb a b) eqn:?
              end ]).

(** X2.  On every broker, [leaderStandDown] calls [consumer.State()] at
    most three times: once before the request, at most once in the loop
    (the channel of the timer delivers one value) and once for the
    display. *)
Theorem leaderStandDown_polls_at_most_once (B : Broker) (c : consumerCmd) :
  (stateQueries (fst (leaderStandDown B c)) <= 3)%nat.
Proof.
  unfold leaderStandDown, showConsumer, NewTimerC. cbn [pollLoop].
  broker_cases B; unfold stateQueries; cbn; lia.
Qed.

(** X3.  No run of [leaderStandDown] prints "Leader did not change after
    ...": the statement sits after the loop, which is left only by [break]
    on a leader that differs from the old one. *)
Theorem leaderStandDown_never_logs_unchanged (B : Broker) (c : consumerCmd) :
  existsb reportsNoChange (fst (leaderStandDown B c)) = false.
Proof.
  unfold leaderStandDown, showConsumer, NewTimerC. cbn [pollLoop].
  broker_cases B; cbn; first [reflexivity | exfalso; congruence].
Qed.

(** X4.  When the request is accepted and the first poll shows another
    leader, [leaderStandDown] logs the new leader, prints an empty line,
    displays the consumer with a third state query and returns nil. *)
Theorem leaderStandDown_new_leader_at_first_poll
  (B : Broker) (c c' : consumerCmd) (csm : Consumer)
  (cl cl1 : ClusterInfo) (info2 : ConsumerInfo) :
  connectAndSetup B c true true = Return c' ->
  LoadConsumer B (stream c') (consumer c') = ok csm ->
  State B 0 = ok (mkInfo (Some cl)) ->
  LeaderStepDown B = None ->
  State B 1 = ok (mkInfo (Some cl1)) ->
  Leader cl1 <> Leader cl ->
  State B 2 = ok info2 ->
  leaderStandDown B c
  = ([EvLoadConsumer (stream c') (consumer c'); EvState;
      EvLog (LogRequestingStepDown (Leader cl) (length (Replicas cl) + 1));
      EvLeaderStepDown; EvState; EvLog (LogNewLeader (Leader cl1));
      EvPrintln ""; EvState; EvShowInfo (Configuration csm) info2],
     Finished None).
Proof.
  intros Hs Hl H0 Hd H1 Hn H2. unfold leaderStandDown, showConsumer.
  apply String.eqb_neq in Hn.
  rewrite Hs. cbn - [String.eqb]. rewrite Hl. cbn - [String.eqb].
  rewrite H0. cbn - [String.eqb]. rewrite Hd. cbn - [String.eqb].
  rewrite H1. cbn - [String.eqb]. rewrite Hn. cbn - [String.eqb].
  rewrite H2. cbn - [String.eqb]. rewrite ?Hn. reflexivity.
Qed.

Lemma leaderStandDown_new_leader_at_first_poll_witness :
  leaderStandDown Sample.electingBroker Sample.cmd
  = ([EvLoadConsumer "ORDERS" "NEW"; EvState;
      EvLog (LogRequestingStepDown "n1" 3);
      EvLeaderStepDown; EvState; EvLog (LogNewLeader "n2");
      EvPrintln ""; EvState;
      EvShowInfo zeroConfig (mkInfo (Some (Sample.cluster "n2")))],
     Finished None).
Proof.
  apply (leaderStandDown_new_leader_at_first_poll
           Sample.electingBroker Sample.cmd Sample.cmd
           (mkConsumer "ORDERS" "NEW" zeroConfig)
           (Sample.cluster "n1") (Sample.cluster "n2")
           (mkInfo (Some (Sample.cluster "n2"))));
    try reflexivity.
  simpl. discriminate.
Defined.

(** ** Subscription and next message *)

Lemma onMessage_parsed (c : consumerCmd) (m : Msg) :
  parses m -> onMessage c m = (handled c m, Next tt).
Proof.
  intros [u Hm]. unfold onMessage, handled. rewrite Hm. cbn.
  destruct (ack c); [destruct (Respond m)|]; reflexivity.
Qed.

Lemma dispatch_parsed (c : consumerCmd) (incoming : list Msg) :
  Forall parses incoming ->
  dispatch c incoming = (flat_map (handled c) incoming, Next tt).
Proof.
  induction 1 as [|m rest Hm _ IH]; [reflexivity|].
  cbn [dispatch flat_map]. rewrite (onMessage_parsed c m Hm), IH.
  cbn. reflexivity.
Qed.

Lemma dispatch_unparsed (c : consumerCmd) (pre post : list Msg) (bad : Msg)
  (e : error) :
  Forall parses pre ->
  Metadata bad = failed e ->
  dispatch c (pre ++ bad :: post)
  = (flat_map (handled c) pre,
     Stop (Exited "could not parse JetStream metadata")).
Proof.
  intros Hpre Hbad. induction Hpre as [|m rest Hm _ IH].
  - cbn. unfold onMessage. rewrite Hbad. reflexivity.
  - cbn [app dispatch flat_map]. rewrite (onMessage_parsed c m Hm), IH.
    cbn. reflexivity.
Qed.

(** X5.  On a push consumer whose subscription is accepted, [subAction]
    loads the consumer, subscribes to its delivery subject and handles the
    messages in the order of their arrival: each one is rendered; with
    acknowledgement on (the flag, cleared when the policy is [AckNone]) it
    is answered once, and a failed answer is only reported; then the action
    waits for ever. *)
Theorem subAction_push_trace
  (B : Broker) (c c' : consumerCmd) (csm : Consumer) (incoming : list Msg) :
  connectAndSetup B c true true = Return c' ->
  LoadConsumer B (stream c') (consumer c') = ok csm ->
  DeliverSubject (Configuration csm) <> "" ->
  Subscribe B (DeliverSubject (Configuration csm)) = None ->
  Forall parses incoming ->
  subAction B c incoming
  = (EvLoadConsumer (stream c') (consumer c')
       :: EvSubscribe (DeliverSubject (Configuration csm))
       :: flat_map (handled (ackFor csm c')) incoming,
     Blocked).
Proof.
  intros Hs Hl Hp Hsub Hm. unfold subAction, IsPushMode, IsPullMode.
  apply String.eqb_neq in Hp.
  rewrite Hs. cbn - [String.eqb]. rewrite Hl. cbn - [String.eqb].
  rewrite Hp. cbn - [String.eqb]. unfold subscribeConsumer.
  rewrite Hsub. fold (ackFor csm c'). cbn - [String.eqb].
  rewrite (dispatch_parsed _ _ Hm). cbn. rewrite app_nil_r. reflexivity.
Qed.

Lemma subAction_push_trace_witness :
  subAction Scenario.pushBroker Sample.cmd [Scenario.msg1; Scenario.msg2]
  = ([EvLoadConsumer "ORDERS" "NEW"; EvSubscribe "out";
      EvRender Scenario.msg1; EvRespond Scenario.msg1;
      EvRender Scenario.msg2; EvRespond Scenario.msg2;
      EvAckFailed Scenario.msg2],
     Blocked).
Proof.
  apply (subAction_push_trace Scenario.pushBroker Sample.cmd Sample.cmd
           (mkConsumer "ORDERS" "NEW" Scenario.pushCfg)
           [Scenario.msg1; Scenario.msg2]).
  - reflexivity.
  - reflexivity.
  - simpl. discriminate.
  - reflexivity.
  - repeat constructor; exists tt; reflexivity.
Defined.

(** X6.  A message whose metadata does not parse ends the process in the
    callback: the messages before it are handled, the message itself is
    neither rendered nor answered, and nothing that arrives later is
    looked at. *)
Theorem subAction_stops_at_unparsed_message
  (B : Broker) (c c' : consumerCmd) (csm : Consumer)
  (pre post : list Msg) (bad : Msg) (e : error) :
  connectAndSetup B c true true = Return c' ->
  LoadConsumer B (stream c') (consumer c') = ok csm ->
  DeliverSubject (Configuration csm) <> "" ->
  Subscribe B (DeliverSubject (Configuration csm)) = None ->
  Forall parses pre ->
  Metadata bad = failed e ->
  subAction B c (pre ++ bad :: post)
  = (EvLoadConsumer (stream c') (consumer c')
       :: EvSubscribe (DeliverSubject (Configuration csm))
       :: flat_map (handled (ackFor csm c')) pre,
     Exited "could not parse JetStream metadata").
Proof.
  intros Hs Hl Hp Hsub Hm Hbad. unfold subAction, IsPushMode, IsPullMode.
  apply String.eqb_neq in Hp.
  rewrite Hs. cbn - [String.eqb]. rewrite Hl. cbn - [String.eqb].
  rewrite Hp. cbn - [String.eqb]. unfold subscribeConsumer.
  rewrite Hsub. fold (ackFor csm c'). cbn - [String.eqb].
  rewrite (dispatch_unparsed _ _ _ _ _ Hm Hbad). reflexivity.
Qed.

Lemma subAction_stops_at_unparsed_message_witness :
  subAction Scenario.pushBroker Sample.cmd
    ([Scenario.msg1] ++ Scenario.badMsg :: [Scenario.msg2])
  = ([EvLoadConsumer "ORDERS" "NEW"; EvSubscribe "out";
      EvRender Scenario.msg1; EvRespond Scenario.msg1],
     Exited "could not parse JetStream metadata").
Proof.
  apply (subAction_stops_at_unparsed_message Scenario.pushBroker
           Sample.cmd Sample.cmd
           (mkConsumer "ORDERS" "NEW" Scenario.pushCfg)
           [Scenario.msg1] [Scenario.msg2] Scenario.badMsg
           (ErrExternal "invalid metadata")).
  - reflexivity.
  - reflexivity.
  - simpl. discriminate.
  - reflexivity.
  - repeat constructor; exists tt; reflexivity.
  - reflexivity.
Defined.

(** X7.  On a pull consumer whose acknowledgement policy is [AckNone],
    [subAction] fetches one message and does nothing but load the consumer
    and render that message: no answer, no sleep, no flush, whatever the
    flags [ack] and [wait] say. *)
Theorem subAction_pull_AckNone_never_responds
  (B : Broker) (c c' : consumerCmd) (csm : Consumer) (incoming : list Msg) :
  connectAndSetup B c true true = Return c' ->
  LoadConsumer B (stream c') (consumer c') = ok csm ->
  AckPolicy (Configuration csm) = api.AckNone ->
  IsPullMode csm = true ->
  Forall isLoadOrRender (fst (subAction B c incoming)).
Proof.
  intros Hs Hl Hp Hpull. unfold subAction.
  rewrite Hs. cbn - [String.eqb]. rewrite Hl. cbn - [String.eqb].
  rewrite Hp, Hpull. cbn - [String.eqb]. unfold getNextMsgDirect.
  destruct (Subscribe B "_INBOX"); cbn; [repeat constructor|].
  destruct (NextMsgRequest B (StreamName csm) (Name csm)); cbn;
    [repeat constructor|].
  destruct (NextMsg B) as [m|err]; cbn; repeat constructor.
Qed.

Lemma subAction_pull_AckNone_never_responds_witness :
  Forall isLoadOrRender
    (fst (subAction (Scenario.fetchBroker zeroConfig Scenario.msg1)
            (commandLine "ORDERS" "NEW" [FlagWait 10]) [])).
Proof.
  apply (subAction_pull_AckNone_never_responds
           (Scenario.fetchBroker zeroConfig Scenario.msg1)
           (commandLine "ORDERS" "NEW" [FlagWait 10])
           (commandLine "ORDERS" "NEW" [FlagWait 10])
           (mkConsumer "ORDERS" "NEW" zeroConfig) []);
    reflexivity.
Defined.



(** X9.  When the answer to the message fails, [nextAction] ends the
    process with "could not Acknowledge message": the answer was
    attempted and the connection is not flushed. *)
Theorem nextAction_ack_failure_is_fatal
  (B : Broker) (c c' : consumerCmd) (m : Msg) (e : error) :
  connectAndSetup B c false false = Return c' ->
  Subscribe B "_INBOX" = None ->
  NextMsgRequest B (stream c') (consumer c') = None ->
  NextMsg B = ok m ->
  ack c' = true ->
  Respond m = Some e ->
  snd (nextAction B c) = Exited "could not Acknowledge message"
  /\ In (EvRespond m) (fst (nextAction B c))
  /\ existsb (fun ev => match ev with EvFlush => true | _ => false end)
       (fst (nextAction B c)) = false.
Proof.
  intros Hs Hsub Hreq Hmsg Hack Hr.
  unfold nextAction, getNextMsgDirect.
  rewrite Hs. cbn - [Z.gtb]. rewrite Hsub. cbn - [Z.gtb].
  rewrite Hreq. cbn - [Z.gtb]. rewrite Hmsg. cbn - [Z.gtb].
  rewrite Hack, Hr.
  destruct ((if ackWait c' >? 0 then Intn B (ackWait c') else 0) >? 0); cbn;
    repeat match goal with |- _ /\ _ => split end; auto.
Qed.

Lemma nextAction_ack_failure_is_fatal_witness :
  snd (nextAction (Scenario.fetchBroker Scenario.pushCfg Scenario.msg2)
         Sample.cmd)
  = Exited "could not Acknowledge message"
  /\ In (EvRespond Scenario.msg2)
       (fst (nextAction (Scenario.fetchBroker Scenario.pushCfg Scenario.msg2)
               Sample.cmd))
  /\ existsb (fun ev => match ev with EvFlush => true | _ => false end)
       (fst (nextAction (Scenario.fetchBroker Scenario.pushCfg Scenario.msg2)
               Sample.cmd)) = false.
Proof.
  apply (nextAction_ack_failure_is_fatal
           (Scenario.fetchBroker Scenario.pushCfg Scenario.msg2)
           Sample.cmd Sample.cmd Scenario.msg2
           (ErrExternal "nats: connection closed"));
    reflexivity.
Defined.

(** ** Removal *)



(** X11.  A deletion that [rmAction] makes is the deletion of the consumer
    it has just loaded under the selected stream and name, it was forced
    or confirmed, and its result is what the action returns. *)
Theorem rmAction_deletes_loaded_consumer
  (B : Broker) (c : consumerCmd) (force : bool) (confirm : result bool)
  (Delete : option error) (s n : string) :
  In (RmDelete s n) (fst (rmAction B c force confirm Delete)) ->
  (force = true \/ confirm = ok true)
  /\ exists c' csm,
       connectAndSetup B c true true = Return c'
       /\ LoadConsumer B (stream c') (consumer c') = ok csm
       /\ s = StreamName csm /\ n = Name csm
       /\ snd (rmAction B c force confirm Delete) = Finished Delete.
Proof.
  unfold rmAction.
  destruct (connectAndSetup B c true true) as [c'|msg]; [|intros []].
  destruct (LoadConsumer B (stream c') (consumer c')) as [csm|e] eqn:Hl;
    destruct force; cbn;
    try (destruct confirm as [[|]|e']; cbn);
    intros Hin; repeat (destruct Hin as [Hin|Hin]; try discriminate Hin);
    try contradiction;
    injection Hin as <- <-;
    (split; [auto | exists c', csm; repeat split; auto]).
Qed.

Lemma rmAction_deletes_loaded_consumer_witness :
  (true = true \/ failed (ErrExternal "interrupt") = ok true)
  /\ exists c' csm,
       connectAndSetup Sample.sourceBroker Sample.cmd true true = Return c'
       /\ LoadConsumer Sample.sourceBroker (stream c') (consumer c') = ok csm
       /\ "ORDERS" = StreamName csm /\ "NEW" = Name csm
       /\ snd (rmAction Sample.sourceBroker Sample.cmd true
                 (failed (ErrExternal "interrupt")) None)
          = Finished None.
Proof.
  apply (rmAction_deletes_loaded_consumer Sample.sourceBroker Sample.cmd true
           (failed (ErrExternal "interrupt")) None "ORDERS" "NEW").
  simpl. right. left. reflexivity.
Defined.

(** ** The start policy *)

(** X12.  What [setStartPolicy] makes of a non-empty start: each deliver
    policy it can set, with the one word or form of the start that sets
    it; only a number writes the start sequence, only a duration writes
    the start time, and the other of the two is left as it was. *)
Theorem setStartPolicy_result {H : Host} (cfg : ConsumerConfig) (tok : string)
  (cfg' : ConsumerConfig) :
  setStartPolicy cfg tok = Return cfg' ->
  tok <> "" ->
  match DeliverPolicy cfg' with
  | api.DeliverAll =>
      tok = "all" /\ OptStartSeq cfg' = OptStartSeq cfg
      /\ OptStartTime cfg' = OptStartTime cfg
  | api.DeliverLast =>
      tok = "last" /\ OptStartSeq cfg' = OptStartSeq cfg
      /\ OptStartTime cfg' = OptStartTime cfg
  | api.DeliverNew =>
      (tok = "new" \/ tok = "next") /\ OptStartSeq cfg' = OptStartSeq cfg
      /\ OptStartTime cfg' = OptStartTime cfg
  | api.DeliverByStartSequence =>
      GoString.matchDigits tok = true
      /\ OptStartSeq cfg' = Z.to_N (GoString.Atoi tok)
      /\ OptStartTime cfg' = OptStartTime cfg
  | api.DeliverByStartTime =>
      exists d, parseDurationString tok = ok d
                /\ OptStartTime cfg' = Some (Now - d)
                /\ OptStartSeq cfg' = OptStartSeq cfg
  end.
Proof.
  unfold setStartPolicy. intros E Hne.
  destruct (String.eqb_spec tok "") as [->|_]; [contradiction|].
  destruct (String.eqb_spec tok "all") as [->|_];
    [injection E as <-; cbn; auto|].
  destruct (String.eqb_spec tok "last") as [->|_];
    [injection E as <-; cbn; auto|].
  destruct (String.eqb_spec tok "new") as [->|_];
    [injection E as <-; cbn; auto|].
  destruct (String.eqb_spec tok "next") as [->|_];
    [injection E as <-; cbn; auto|].
  cbn [orb] in E.
  destruct (GoString.matchDigits tok) eqn:Hd.
  - injection E as <-. cbn. auto.
  - apply bind_Return in E. destruct E as (d & Ed & E).
    apply FatalIfError_Return in Ed. injection E as <-. cbn.
    exists d. auto.
Qed.

Lemma setStartPolicy_result_witness :
  ("next" = "new" \/ "next" = "next")
  /\ OptStartSeq (set_DeliverPolicy api.DeliverNew (set_OptStartSeq 7 zeroConfig))
     = OptStartSeq (set_OptStartSeq 7 zeroConfig)
  /\ OptStartTime (set_DeliverPolicy api.DeliverNew (set_OptStartSeq 7 zeroConfig))
     = OptStartTime (set_OptStartSeq 7 zeroConfig).
Proof.
  apply (@setStartPolicy_result (Sample.host "")
           (set_OptStartSeq 7 zeroConfig) "next"
           (set_DeliverPolicy api.DeliverNew (set_OptStartSeq 7 zeroConfig))).
  - reflexivity.
  - discriminate.
Defined.

Lemma decimal_acc (d : Decimal.uint) :
  forall acc : positive,
    GoString.decimal (Zpos acc) (NilEmpty.string_of_uint d)
    = Zpos (Pos.of_uint_acc d acc).
Proof.
  induction d; intros acc;
    cbn [NilEmpty.string_of_uint GoString.decimal Pos.of_uint_acc];
    try reflexivity;
    match goal with
    | |- GoString.decimal ?x _ = _ =>
        match goal with
        | |- _ = Zpos (Pos.of_uint_acc _ ?p) =>
            replace x with (Zpos p)
              by (rewrite ?Pos2Z.inj_add, ?Pos2Z.inj_mul;
                  simpl (Z.of_N (N_of_ascii _)); lia)
        end
    end; apply IHd.
Qed.

Lemma decimal_of_uint (d : Decimal.uint) :
  GoString.decimal 0 (NilEmpty.string_of_uint d) = Z.of_N (Pos.of_uint d).
Proof.
  induction d; cbn [NilEmpty.string_of_uint GoString.decimal Pos.of_uint];
    try reflexivity;
    try (match goal with
         | |- GoString.decimal ?x _ = Z.of_N (N.pos (Pos.of_uint_acc _ ?p)) =>
             replace x with (Zpos p)
              by (rewrite ?Pos2Z.inj_add, ?Pos2Z.inj_mul;
                  simpl (Z.of_N (N_of_ascii _)); lia)
         end; rewrite decimal_acc; reflexivity).
  replace (10 * 0 + (Z.of_N (N_of_ascii "0") - 48)) with 0 by (cbn; lia).
  exact IHd.
Qed.

Lemma onlyDigits_of_uint (d : Decimal.uint) :
  GoString.onlyDigits (NilEmpty.string_of_uint d) = true.
Proof. induction d; cbn; auto. Qed.

(** [strconv.Itoa] of a natural number is a string of digits that reads
    back as the number. *)
Lemma Itoa_digits (n : Z) :
  0 <= n ->
  GoString.matchDigits (GoString.Itoa n) = true
  /\ GoString.decimal 0 (GoString.Itoa n) = n.
Proof.
  intros Hn. unfold GoString.Itoa, GoString.matchDigits.
  destruct n as [|p|p]; [split; reflexivity | | lia].
  cbn [Z.to_int NilZero.string_of_int].
  pose proof (DecimalPos.Unsigned.of_to p) as Hp.
  unfold NilZero.string_of_uint.
  destruct (Pos.to_uint p) eqn:Eu; try discriminate Hp;
    rewrite <- Eu; rewrite <- Eu in Hp;
    (split;
     [ rewrite onlyDigits_of_uint; rewrite Eu; reflexivity
     | rewrite decimal_of_uint, Hp; reflexivity ]).
Qed.

Lemma digits_not_keyword (s : string) :
  GoString.matchDigits s = true ->
  (s == "") = false /\ (s == "all") = false /\ (s == "last") = false
  /\ (s == "new") = false /\ (s == "next") = false.
Proof.
  intros Hd.
  repeat match goal with |- _ /\ _ => split end;
    match goal with
    | |- (s == ?k) = false =>
        destruct (String.eqb_spec s k) as [->|_];
        [discriminate Hd | reflexivity]
    end.
Qed.

(** X13.  The decimal writing of a sequence number [n >= 0], given as the
    start, selects delivery by start sequence at [n]; a number above the
    largest [int] starts at the largest [int], the value [strconv.Atoi]
    returns together with the range error that the code drops. *)
Theorem setStartPolicy_sequence {H : Host} (cfg : ConsumerConfig) (n : Z) :
  0 <= n ->
  setStartPolicy cfg (GoString.Itoa n)
  = Return (set_OptStartSeq (Z.to_N (Z.min n GoString.MaxInt))
              (set_DeliverPolicy api.DeliverByStartSequence cfg)).
Proof.
  intros Hn. destruct (Itoa_digits n Hn) as (Hd & Hv).
  destruct (digits_not_keyword _ Hd) as (E0 & E1 & E2 & E3 & E4).
  unfold setStartPolicy. rewrite E0, E1, E2, E3, E4. cbn [orb]. rewrite Hd.
  unfold GoString.Atoi. rewrite Hd, Hv. reflexivity.
Qed.

Lemma setStartPolicy_sequence_witness :
  @setStartPolicy (Sample.host "") zeroConfig (GoString.Itoa 42)
  = Return (set_OptStartSeq (Z.to_N (Z.min 42 GoString.MaxInt))
              (set_DeliverPolicy api.DeliverByStartSequence zeroConfig)).
Proof.
  apply (@setStartPolicy_sequence (Sample.host "") zeroConfig 42).
  lia.
Defined.

(** ** The create path as a list of steps *)

(** Without a configuration file, [prepareConfig] is its list of steps run
    from the default configuration and closed by the rate limit. *)
Lemma prepareConfig_steps {H : Host} (c : consumerCmd) (a : Answers) :
  inputFile c = "" ->
  prepareConfig c a = runK (prepareSteps a) (c, defaultConsumer) lastStep.
Proof.
  intros Hf. unfold prepareConfig. rewrite Hf. cbn [String.eqb negb].
  reflexivity.
Qed.

Lemma hoare_nil (P Q : St -> Prop) :
  (forall st, P st -> Q st) -> hoare P [] Q.
Proof.
  intros HPQ st k r HP E. exists st. split; [apply HPQ; exact HP | exact E].
Qed.

Lemma hoare_cons (P Q R : St -> Prop) (s : KStep) (rest : list KStep) :
  stepH P s Q -> hoare Q rest R -> hoare P (s :: rest) R.
Proof.
  intros Hs Hr st k r HP E. cbn [runK] in E.
  destruct (Hs st _ r HP E) as (st1 & HQ & E1).
  exact (Hr st1 k r HQ E1).
Qed.

Lemma hoare_invariant (P : St -> Prop) (steps : list KStep) :
  Forall (fun s => stepH P s P) steps -> hoare P steps P.
Proof.
  induction 1 as [|s rest Hs _ IH].
  - apply hoare_nil. auto.
  - exact (hoare_cons P P P s rest Hs IH).
Qed.

Lemma stepH_ask {A : Type} (P Q : St -> Prop) b (r : result A) msg set :
  (forall c g, P (c, g) -> b c g = false -> Q (c, g)) ->
  (forall c g v, P (c, g) -> b c g = true -> r = ok v -> Q (set v c, g)) ->
  stepH P (askStep b r msg set) Q.
Proof.
  intros Hn Hy [c g] k res HP E. unfold askStep in E.
  apply bind_Return in E. destruct E as (c' & Ec & E).
  exists (c', g). split; [|exact E].
  destruct (b c g) eqn:Hb.
  - apply bind_Return in Ec. destruct Ec as (v & Ev & Ec).
    apply FatalIfError_Return in Ev. injection Ec as <-. eauto.
  - injection Ec as <-. auto.
Qed.

Lemma stepH_check (P Q : St -> Prop) b msg :
  (forall c g, P (c, g) -> b c g = false -> Q (c, g)) ->
  stepH P (checkStep b msg) Q.
Proof.
  intros Hn [c g] k res HP E. unfold checkStep in E.
  apply bind_Return in E. destruct E as (u & Eu & E).
  exists (c, g). split; [|exact E].
  destruct (b c g) eqn:Hb; [discriminate Eu | auto].
Qed.

Lemma stepH_cfg (P Q : St -> Prop) f :
  (forall c g, P (c, g) -> Q (c, f c g)) -> stepH P (cfgStep f) Q.
Proof.
  intros Hf [c g] k res HP E. unfold cfgStep in E.
  exists (c, f c g). split; [auto | exact E].
Qed.

Lemma stepH_cmd (P Q : St -> Prop) f :
  (forall c g, P (c, g) -> Q (f c, g)) -> stepH P (cmdStep f) Q.
Proof.
  intros Hf [c g] k res HP E. unfold cmdStep in E.
  exists (f c, g). split; [auto | exact E].
Qed.

Lemma stepH_run {A : Type} (P Q : St -> Prop)
  (m : consumerCmd -> ConsumerConfig -> Run A) set :
  (forall c g v, P (c, g) -> m c g = Return v -> Q (c, set v g)) ->
  stepH P (runStep m set) Q.
Proof.
  intros Hf [c g] k res HP E. unfold runStep in E.
  apply bind_Return in E. destruct E as (v & Ev & E).
  exists (c, set v g). split; [eauto | exact E].
Qed.

Ltac step_rule :=
  lazymatch goal with
  | |- stepH _ (askStep _ _ _ _) _ => apply stepH_ask
  | |- stepH _ (checkStep _ _) _ => apply stepH_check
  | |- stepH _ (cfgStep _) _ => apply stepH_cfg
  | |- stepH _ (cmdStep _) _ => apply stepH_cmd
  | |- stepH _ (runStep _ _) _ => apply stepH_run
  end.

Ltac eqb_facts :=
  repeat match goal with
         | H : String.eqb _ _ = true |- _ => apply String.eqb_eq in H
         | H : String.eqb _ _ = false |- _ => apply String.eqb_neq in H
         | H : Z.eqb _ _ = true |- _ => apply Z.eqb_eq in H
         | H : Z.eqb _ _ = false |- _ => apply Z.eqb_neq in H
         | H : negb _ = true |- _ => apply negb_true_iff in H
         | H : negb _ = false |- _ => apply negb_false_iff in H
         | H : andb _ _ = true |- _ => apply andb_true_iff in H; destruct H
         | H : andb _ _ = false |- _ => apply andb_false_iff in H; destruct H
         end.

Ltac crush_step :=
  intros; autounfold with assertions in *; cbn [fst snd] in *;
  repeat match goal with
         | H : _ /\ _ |- _ => destruct H
         | H : (if ?b then _ else _) = Return _ |- _ => destruct b eqn:?
         | H : bind _ _ = Return _ |- _ =>
             apply bind_Return in H; destruct H as (? & ? & H)
         | H : Return _ = Return _ |- _ => injection H; clear H; intros; subst
         | H : Exit _ = Return _ |- _ => discriminate H
         | H : setStartPolicy _ _ = Return _ |- _ =>
             apply setStartPolicy_frame in H
         end;
  cbn in *;
  repeat (match goal with
          | |- context [if ?b then _ else _] => destruct b eqn:?
          end; cbn in *);
  eqb_facts;
  repeat match goal with |- _ /\ _ => split end;
  try assumption; try congruence;
  try (intros;
       repeat match goal with
              | H : ?A -> _, H' : ?A |- _ => specialize (H H')
              end;
       congruence).

Ltac hstep Q := apply (hoare_cons _ Q); [step_rule; crush_step |].
Ltac hstep_with Q tac := apply (hoare_cons _ Q); [step_rule; crush_step; tac |].
Ltac hinv := apply hoare_invariant;
             repeat (apply Forall_cons || apply Forall_nil);
             step_rule; crush_step.

Ltac use_hyps :=
  intros;
  repeat match goal with
         | H : ?A -> _, H' : ?A |- _ => specialize (H H')
         | H : _ /\ _ |- _ => destruct H
         end.

Ltac use_context :=
  use_hyps;
  repeat match goal with |- _ /\ _ => split end;
  use_hyps;
  try congruence; try lia;
  try (eexists; split; [eassumption|];
       match goal with
       | |- context [?x =? -1] => destruct (Z.eqb_spec x (-1))
       end; congruence).

Lemma lastStep_inv (c1 : consumerCmd) (g : ConsumerConfig) (c' : consumerCmd)
  (p : prepared) :
  lastStep (c1, g) = Return (c', p) ->
  c' = c1
  /\ match p with
     | Prepared cfg => cfg = set_RateLimit (bpsRateLimit c1) g
     | Failed o e => o = None /\ e = ErrRateLimitOnPull
     end.
Proof.
  unfold lastStep.
  destruct ((0 <? bpsRateLimit c1)%N && (DeliverSubject g == ""));
    intros E; injection E as <- <-; auto.
Qed.

(** A triple on the steps is a fact about what [prepareConfig] returns. *)
Lemma prepareConfig_hoare {H : Host} (P Q : St -> Prop) (c : consumerCmd)
  (a : Answers) (c' : consumerCmd) (p : prepared) :
  hoare P (prepareSteps a) Q ->
  P (c, defaultConsumer) ->
  inputFile c = "" ->
  prepareConfig c a = Return (c', p) ->
  exists g, Q (c', g)
            /\ match p with
               | Prepared cfg => cfg = set_RateLimit (bpsRateLimit c') g
               | Failed o e => o = None /\ e = ErrRateLimitOnPull
               end.
Proof.
  intros Hh HP Hf E. rewrite (prepareConfig_steps c a Hf) in E.
  destruct (Hh _ _ _ HP E) as ([c1 g] & HQ & E1).
  apply lastStep_inv in E1. destruct E1 as (-> & Hp).
  exists g. split; assumption.
Qed.

Lemma prepareSteps_sameInputs {H : Host} (a : Answers) (c0 : consumerCmd) :
  hoare (fun st => sameInputs c0 (fst st)) (prepareSteps a)
    (fun st => sameInputs c0 (fst st)).
Proof.
  apply hoare_invariant. unfold prepareSteps.
  repeat (apply Forall_cons || apply Forall_nil);
    step_rule; unfold sameInputs; cbn [fst]; intros;
    repeat match goal with
           | |- context [if ?b then _ else _] => destruct b
           end; cbn; assumption.
Qed.

Lemma sameInputs_refl (c : consumerCmd) : sameInputs c c.
Proof. unfold sameInputs. repeat split. Qed.

(** With a configuration file the command comes back as it went in. *)
Lemma prepareConfig_file_command {H : Host} (c : consumerCmd) (a : Answers)
  (c' : consumerCmd) (p : prepared) :
  inputFile c <> "" -> prepareConfig c a = Return (c', p) -> c' = c.
Proof.
  intros Hf E. unfold prepareConfig in E.
  apply String.eqb_neq in Hf. rewrite Hf in E. cbn [negb] in E.
  destruct (ReadFile (inputFile c)) as [f|e].
  - destruct (Unmarshal f) as [cfg err].
    destruct (negb (Durable cfg == "") && negb (consumer c == "")
              && negb (Durable cfg == consumer c));
      injection E as <- _; reflexivity.
  - injection E as <- _. reflexivity.
Qed.

Lemma prepareConfig_sameInputs {H : Host} (c : consumerCmd) (a : Answers)
  (c' : consumerCmd) (p : prepared) :
  prepareConfig c a = Return (c', p) -> sameInputs c c'.
Proof.
  intros E. destruct (String.eqb_spec (inputFile c) "") as [Hf|Hf].
  - destruct (prepareConfig_hoare _ _ c a c' p
                (prepareSteps_sameInputs a c) (sameInputs_refl c) Hf E)
      as (g & HQ & _).
    exact HQ.
  - rewrite (prepareConfig_file_command c a c' p Hf E). apply sameInputs_refl.
Qed.

(** X14.  Whatever [prepareConfig] returns, the command it leaves behind
    has the stream, the flags [ack], [raw], [config], [output], [bps],
    [pull], [wait], [sample], [ephemeral], [validate] and the destination
    it was called with: the prompts and the normalisations write the other
    fields only, and with a configuration file nothing at all. *)
Theorem prepareConfig_keeps_inputs {H : Host} (c : consumerCmd) (a : Answers)
  (c' : consumerCmd) (p : prepared) :
  prepareConfig c a = Return (c', p) ->
  sameInputs c c' /\ (inputFile c <> "" -> c' = c).
Proof.
  intros E. split.
  - exact (prepareConfig_sameInputs c a c' p E).
  - intros Hf. exact (prepareConfig_file_command c a c' p Hf E).
Qed.

Lemma prepareConfig_keeps_inputs_witness :
  exists c' p,
    @prepareConfig (Sample.host "")
      (commandLine "ORDERS" "NEW" [FlagTarget "out"; FlagBps 1000])
      Sample.answers
    = Return (c', p)
    /\ startPolicy c' = "all"
    /\ sameInputs
         (commandLine "ORDERS" "NEW" [FlagTarget "out"; FlagBps 1000]) c'
    /\ (inputFile
          (commandLine "ORDERS" "NEW" [FlagTarget "out"; FlagBps 1000]) <> "" ->
        c' = commandLine "ORDERS" "NEW" [FlagTarget "out"; FlagBps 1000]).
Proof.
  eexists. eexists.
  split; [vm_compute; reflexivity|].
  split; [reflexivity|].
  eapply (@prepareConfig_keeps_inputs (Sample.host "")
            (commandLine "ORDERS" "NEW" [FlagTarget "out"; FlagBps 1000])
            Sample.answers).
  vm_compute. reflexivity.
Defined.

Lemma prepareSteps_ackResolved {H : Host} (a : Answers) :
  hoare (fun _ => True) (prepareSteps a) ackResolved.
Proof.
  unfold prepareSteps.
  do 5 hstep (fun _ : St => True).
  hstep (fun st : St => DeliverSubject (snd st) = delivery (fst st)).
  hstep pullIsExplicit.
  do 4 hstep pullIsExplicit.
  hstep ackResolved.
  hinv.
Qed.

(** X15.  On the create path without a configuration file, every
    configuration without a delivery subject (a pull consumer) has the
    acknowledgement policy explicit, whatever the flag [ack] and the
    prompts say; [strings.ToLower] is only required to leave the word
    "explicit" as it is. *)
Theorem prepareConfig_pull_is_explicit {H : Host} (c : consumerCmd)
  (a : Answers) (c' : consumerCmd) (cfg : ConsumerConfig) :
  ToLower "explicit" = "explicit" ->
  inputFile c = "" ->
  prepareConfig c a = Return (c', Prepared cfg) ->
  DeliverSubject cfg = "" ->
  AckPolicy cfg = api.AckExplicit.
Proof.
  intros Hl Hf E Hd.
  destruct (prepareConfig_hoare _ _ c a c' _
              (prepareSteps_ackResolved a) I Hf E)
    as (g & ((Hs & Hx) & Hp) & ->).
  cbn [fst snd] in *. cbn in Hd. cbn.
  rewrite Hx in Hp by congruence.
  unfold ackPolicyFromString in Hp. rewrite Hl in Hp. cbn in Hp.
  injection Hp as <-. reflexivity.
Qed.

Lemma prepareConfig_pull_is_explicit_witness :
  exists c',
    @prepareConfig (Sample.host "") Scenario.pullCmd Sample.answers
    = Return (c', Prepared Scenario.pullCfg)
    /\ ackPolicy Scenario.pullCmd = "none"
    /\ AckPolicy Scenario.pullCfg = api.AckExplicit.
Proof.
  eexists.
  split; [vm_compute; reflexivity|].
  split; [reflexivity|].
  eapply (@prepareConfig_pull_is_explicit (Sample.host "")
            Scenario.pullCmd Sample.answers).
  - reflexivity.
  - reflexivity.
  - vm_compute. reflexivity.
  - reflexivity.
Defined.

(** X16.  An ephemeral consumer has to be push-based: with the flag
    [ephemeral], a name that passes the check and a delivery subject that
    resolves to the empty string, [prepareConfig] ends the process with
    that message. *)
Theorem prepareConfig_ephemeral_needs_push {H : Host} (c : consumerCmd)
  (a : Answers) :
  inputFile c = "" ->
  ephemeral c = true ->
  GoString.matchDurableForbidden (consumer c) = false ->
  deliveryResolved c a "" ->
  prepareConfig c a = Exit "ephemeral Consumers has to be push-based.".
Proof.
  intros Hf He Hn Hd. unfold prepareConfig. rewrite Hf, He.
  cbn [String.eqb negb]. rewrite andb_false_r. cbn [bind].
  cbv zeta.
  change (Durable (set_Durable (consumer c) defaultConsumer)) with (consumer c).
  rewrite Hn. cbn [bind].
  unfold deliveryResolved in Hd.
  destruct (negb (pull c) && (delivery c == "")).
  - rewrite Hd. cbn [FatalIfError bind].
    change (delivery (set_delivery "" c)) with "".
    change (ephemeral (set_delivery "" c)) with (ephemeral c).
    rewrite He. reflexivity.
  - cbn [bind]. rewrite <- Hd, He. reflexivity.
Qed.

Lemma prepareConfig_ephemeral_needs_push_witness :
  @prepareConfig (Sample.host "")
    (commandLine "ORDERS" "" [FlagEphemeral]) Sample.answers
  = Exit "ephemeral Consumers has to be push-based.".
Proof.
  apply (@prepareConfig_ephemeral_needs_push (Sample.host "")
           (commandLine "ORDERS" "" [FlagEphemeral]) Sample.answers);
    reflexivity.
Defined.

Lemma prepareSteps_ack {H : Host} (a : Answers) (c0 : consumerCmd) :
  hoare (fun st => ackPolicy (fst st) = ackPolicy c0)
    (prepareSteps a) (ackChosen c0 a).
Proof.
  unfold prepareSteps.
  do 5 hstep (fun st : St => ackPolicy (fst st) = ackPolicy c0).
  hstep (fun st : St => ackPolicy (fst st) = ackPolicy c0
                        /\ DeliverSubject (snd st) = delivery (fst st)).
  hstep_with (fun st : St =>
                DeliverSubject (snd st) = delivery (fst st)
                /\ (delivery (fst st) <> "" -> ackPolicy (fst st) = ackPolicy c0))
    use_context.
  do 2 hstep_with (fun st : St =>
                DeliverSubject (snd st) = delivery (fst st)
                /\ (delivery (fst st) <> "" -> ackPolicy (fst st) = ackPolicy c0))
    use_context.
  hstep_with (ackAsked c0 a) use_context.
  hstep_with (ackAsked c0 a) use_context.
  hstep_with (ackChosen c0 a)
    ltac:(intros;
          match goal with
          | H : DeliverSubject _ = delivery _ |- _ => rewrite H in *
          end;
          use_context;
          try (eexists; split; [eassumption | assumption])).
  apply hoare_invariant.
  repeat (apply Forall_cons || apply Forall_nil); step_rule; crush_step;
    use_context.
Qed.

(** X17.  On the create path without a configuration file, the
    acknowledgement policy of a push consumer is the reading of the flag
    [ack], or of the answer to its prompt when the flag is not given. *)
Theorem prepareConfig_push_ack_policy {H : Host} (c : consumerCmd) (a : Answers)
  (c' : consumerCmd) (cfg : ConsumerConfig) :
  inputFile c = "" ->
  prepareConfig c a = Return (c', Prepared cfg) ->
  DeliverSubject cfg <> "" ->
  (ackPolicy c <> "" ->
   ackPolicyFromString (ackPolicy c) = Return (AckPolicy cfg))
  /\ (ackPolicy c = "" ->
      exists v, askAckPolicy a = ok v
                /\ ackPolicyFromString v = Return (AckPolicy cfg)).
Proof.
  intros Hf E Hd.
  destruct (prepareConfig_hoare _ _ c a c' _
              (prepareSteps_ack a c) eq_refl Hf E)
    as (g & HQ & ->).
  unfold ackChosen in HQ. cbn [fst snd] in HQ. cbn in Hd. cbn.
  exact (HQ Hd).
Qed.

Lemma prepareConfig_push_ack_policy_witness :
  (ackPolicy Scenario.fullCmd <> "" ->
   @ackPolicyFromString (Sample.host "") (ackPolicy Scenario.fullCmd)
   = Return (AckPolicy Scenario.fullCfg))
  /\ (ackPolicy Scenario.fullCmd = "" ->
      exists v, askAckPolicy Sample.answers = ok v
                /\ @ackPolicyFromString (Sample.host "") v
                   = Return (AckPolicy Scenario.fullCfg)).
Proof.
  apply (@prepareConfig_push_ack_policy (Sample.host "")
           Scenario.fullCmd Sample.answers Scenario.fullCmd Scenario.fullCfg).
  - reflexivity.
  - vm_compute. reflexivity.
  - simpl. discriminate.
Defined.

Lemma setStartPolicy_start_fields {H : Host} (g g' g1 : ConsumerConfig)
  (tok : string) :
  setStartPolicy g tok = Return g1 ->
  startFields g' = startFields g ->
  exists g1', setStartPolicy g' tok = Return g1'
              /\ startFields g1' = startFields g1.
Proof.
  unfold setStartPolicy, startFields. intros E F. injection F as F1 F2 F3.
  repeat match type of E with
         | (if ?b then _ else _) = _ => destruct b
         end;
    try (injection E as <-; eexists; split; [reflexivity|]; cbn; congruence).
  apply bind_Return in E. destruct E as (d & Ed & E). injection E as <-.
  rewrite Ed. cbn. eexists; split; [reflexivity|]. cbn. congruence.
Qed.

Lemma prepareSteps_start {H : Host} (a : Answers) (c0 : consumerCmd) :
  hoare (fun st => startPolicy (fst st) = startPolicy c0
                   /\ startFields (snd st) = startFields defaultConsumer)
    (prepareSteps a) (fun st => startChosen c0 a (snd st)).
Proof.
  unfold prepareSteps.
  do 7 hstep_with
    (fun st : St => startPolicy (fst st) = startPolicy c0
                    /\ startFields (snd st) = startFields defaultConsumer)
    ltac:(unfold startFields in *; cbn; try assumption).
  hstep_with
    (fun st : St =>
       (startPolicy c0 <> "" -> startPolicy (fst st) = startPolicy c0)
       /\ (startPolicy c0 = "" -> askStartPolicy a = ok (startPolicy (fst st)))
       /\ startFields (snd st) = startFields defaultConsumer)
    use_context.
  - apply (hoare_cons _ (fun st : St => startChosen c0 a (snd st))).
    + apply stepH_run. intros c g v (T1 & T2 & F) E. cbn [fst snd] in *.
      destruct (setStartPolicy_start_fields g defaultConsumer v
                  (startPolicy c) E (eq_sym F)) as (g1 & E1 & F1).
      exists (startPolicy c), g1. repeat split; auto.
    + apply hoare_invariant.
      repeat (apply Forall_cons || apply Forall_nil); step_rule;
        unfold startChosen, startFields; intros;
        repeat match goal with
               | H : exists _, _ |- _ => destruct H
               | H : _ /\ _ |- _ => destruct H
               | H : (if ?b then _ else _) = Return _ |- _ => destruct b eqn:?
               | H : bind _ _ = Return _ |- _ =>
                   apply bind_Return in H; destruct H as (? & ? & H)
               | H : Return _ = Return _ |- _ =>
                   injection H; clear H; intros; subst
               | H : Exit _ = Return _ |- _ => discriminate H
               end;
        cbn [fst snd] in *;
        match goal with
        | E : setStartPolicy defaultConsumer ?tok = Return ?g1 |- _ =>
            exists tok, g1
        end;
        repeat match goal with |- _ /\ _ => split end; try assumption;
        repeat match goal with
               | |- context [if ?b then _ else _] => destruct b
               end; cbn; assumption.
Qed.

(** X18.  On the create path without a configuration file, the deliver
    policy, the start sequence and the start time of the configuration are
    those [setStartPolicy] sets on the default configuration for the flag
    [deliver], or for the answer to its prompt when the flag is not given:
    no later step touches them. *)
Theorem prepareConfig_start_policy {H : Host} (c : consumerCmd) (a : Answers)
  (c' : consumerCmd) (cfg : ConsumerConfig) :
  inputFile c = "" ->
  prepareConfig c a = Return (c', Prepared cfg) ->
  startChosen c a cfg.
Proof.
  intros Hf E.
  destruct (prepareConfig_hoare _ _ c a c' _
              (prepareSteps_start a c) (conj eq_refl eq_refl) Hf E)
    as (g & HQ & ->).
  exact HQ.
Qed.

Lemma prepareConfig_start_policy_witness :
  @startChosen (Sample.host "") Scenario.fullCmd Sample.answers
    Scenario.fullCfg.
Proof.
  apply (@prepareConfig_start_policy (Sample.host "")
           Scenario.fullCmd Sample.answers Scenario.fullCmd Scenario.fullCfg).
  - reflexivity.
  - vm_compute. reflexivity.
Defined.

Lemma prepareSteps_deliver {H : Host} (a : Answers) (c0 : consumerCmd) :
  hoare (fun st => maxDeliver (fst st) = maxDeliver c0 /\ MaxDeliver (snd st) = 0)
    (prepareSteps a) (deliverResolved c0 a).
Proof.
  unfold prepareSteps.
  do 12 hstep (fun st : St => maxDeliver (fst st) = maxDeliver c0
                              /\ MaxDeliver (snd st) = 0).
  do 7 hstep_with
    (fun st : St => maxDeliver (fst st) = maxDeliver c0
                    /\ (api.isAckNone (AckPolicy (snd st)) = false ->
                        MaxDeliver (snd st) = 0)) use_context.
  hstep_with (deliverAsked c0 a) use_context.
  do 3 hstep_with (deliverAsked c0 a) use_context.
  hstep_with (deliverResolved c0 a) use_context.
  apply hoare_nil. auto.
Qed.

Lemma isAckNone_false (p : api.AckPolicy) :
  p <> api.AckNone -> api.isAckNone p = false.
Proof. destruct p; [contradiction | reflexivity | reflexivity]. Qed.

(** X19.  On the create path without a configuration file, when the
    acknowledgement policy is not [AckNone] the maximum number of
    deliveries is the flag [max-deliver], or the answer to its prompt when
    the flag is 0; an answer of 0 leaves it at 0. *)
Theorem prepareConfig_MaxDeliver {H : Host} (c : consumerCmd) (a : Answers)
  (c' : consumerCmd) (cfg : ConsumerConfig) :
  inputFile c = "" ->
  prepareConfig c a = Return (c', Prepared cfg) ->
  AckPolicy cfg <> api.AckNone ->
  (maxDeliver c <> 0 -> MaxDeliver cfg = maxDeliver c)
  /\ (maxDeliver c = 0 -> askMaxDeliver a = ok (MaxDeliver cfg)).
Proof.
  intros Hf E Hp.
  destruct (prepareConfig_hoare _ _ c a c' _
              (prepareSteps_deliver a c) (conj eq_refl eq_refl) Hf E)
    as (g & HQ & ->).
  unfold deliverResolved in HQ. cbn [fst snd] in HQ. cbn in Hp. cbn.
  apply HQ. apply isAckNone_false. exact Hp.
Qed.

Lemma prepareConfig_MaxDeliver_witness :
  (maxDeliver Scenario.fullCmd <> 0 ->
   MaxDeliver Scenario.fullCfg = maxDeliver Scenario.fullCmd)
  /\ (maxDeliver Scenario.fullCmd = 0 ->
      askMaxDeliver Sample.answers = ok (MaxDeliver Scenario.fullCfg)).
Proof.
  apply (@prepareConfig_MaxDeliver (Sample.host "")
           Scenario.fullCmd Sample.answers Scenario.fullCmd Scenario.fullCfg).
  - reflexivity.
  - vm_compute. reflexivity.
  - simpl. discriminate.
Defined.

Lemma prepareSteps_pending {H : Host} (a : Answers) (c0 : consumerCmd) :
  hoare (fun st => maxAckPending (fst st) = maxAckPending c0) (prepareSteps a)
    (fun st => MaxAckPending (snd st) = maxAckPending (fst st)
               /\ pendingResolved c0 a st).
Proof.
  unfold prepareSteps.
  do 20 hstep (fun st : St => maxAckPending (fst st) = maxAckPending c0).
  hstep (pendingAsked c0 a).
  hstep_with (pendingResolved c0 a) use_context.
  hstep_with (fun st : St => MaxAckPending (snd st) = maxAckPending (fst st)
                             /\ pendingResolved c0 a st) use_context.
  hstep_with (fun st : St => MaxAckPending (snd st) = maxAckPending (fst st)
                             /\ pendingResolved c0 a st) use_context.
  apply hoare_nil. auto.
Qed.

(** X20.  On the create path without a configuration file, the limit of
    outstanding acknowledgements is never the sentinel -1: it is the flag
    [max-pending] when given; otherwise 0 under [AckNone], where no prompt
    is made, and else the answer to the prompt, with -1 read as 0. *)
Theorem prepareConfig_MaxAckPending {H : Host} (c : consumerCmd) (a : Answers)
  (c' : consumerCmd) (cfg : ConsumerConfig) :
  inputFile c = "" ->
  prepareConfig c a = Return (c', Prepared cfg) ->
  MaxAckPending cfg <> -1
  /\ (maxAckPending c <> -1 -> MaxAckPending cfg = maxAckPending c)
  /\ (maxAckPending c = -1 -> AckPolicy cfg = api.AckNone ->
      MaxAckPending cfg = 0)
  /\ (maxAckPending c = -1 -> AckPolicy cfg <> api.AckNone ->
      exists v, askMaxAckPending a = ok v
                /\ MaxAckPending cfg = (if v =? -1 then 0 else v)).
Proof.
  intros Hf E.
  destruct (prepareConfig_hoare _ _ c a c' _
              (prepareSteps_pending a c) eq_refl Hf E)
    as (g & (Hm & Hn & Hs & Hz & Hv) & ->).
  cbn [fst snd] in *. cbn. rewrite Hm.
  repeat match goal with |- _ /\ _ => split end; auto.
  - intros G Hp. apply Hz; [exact G | rewrite Hp; reflexivity].
  - intros G Hp. apply Hv; [exact G|].
    destruct (AckPolicy g); [contradiction | reflexivity | reflexivity].
Qed.

Lemma prepareConfig_MaxAckPending_witness :
  exists c' cfg,
    @prepareConfig (Sample.host "")
      (commandLine "ORDERS" "NEW" [FlagTarget "out"; FlagAck "none"])
      Sample.answers
    = Return (c', Prepared cfg)
    /\ MaxAckPending cfg <> -1
    /\ (maxAckPending
          (commandLine "ORDERS" "NEW" [FlagTarget "out"; FlagAck "none"])
        <> -1 ->
        MaxAckPending cfg
        = maxAckPending
            (commandLine "ORDERS" "NEW" [FlagTarget "out"; FlagAck "none"]))
    /\ (maxAckPending
          (commandLine "ORDERS" "NEW" [FlagTarget "out"; FlagAck "none"])
        = -1 ->
        AckPolicy cfg = api.AckNone -> MaxAckPending cfg = 0)
    /\ (maxAckPending
          (commandLine "ORDERS" "NEW" [FlagTarget "out"; FlagAck "none"])
        = -1 ->
        AckPolicy cfg <> api.AckNone ->
        exists v, askMaxAckPending Sample.answers = ok v
                  /\ MaxAckPending cfg = (if v =? -1 then 0 else v)).
Proof.
  eexists. eexists.
  split; [vm_compute; reflexivity|].
  eapply (@prepareConfig_MaxAckPending (Sample.host "")
            (commandLine "ORDERS" "NEW" [FlagTarget "out"; FlagAck "none"])
            Sample.answers).
  - reflexivity.
  - vm_compute. reflexivity.
Defined.

Lemma prepareSteps_ackWait {H : Host} (a : Answers) (c0 : consumerCmd) :
  hoare (fun st => ackWait (fst st) = ackWait c0 /\ AckWait (snd st) = 0)
    (prepareSteps a)
    (fun st => AckWait (snd st) = (if ackWait c0 >? 0 then ackWait c0 else 0)).
Proof.
  unfold prepareSteps.
  do 13 hstep (fun st : St => ackWait (fst st) = ackWait c0
                              /\ AckWait (snd st) = 0).
  hstep_with (fun st : St => AckWait (snd st)
                             = (if ackWait c0 >? 0 then ackWait c0 else 0))
    ltac:(try match goal with
              | H : ackWait _ = ackWait _ |- _ => rewrite H in *
              end;
          try match goal with
              | H : (_ >? _) = _ |- _ => rewrite H
              end; try congruence).
  hinv.
Qed.

Lemma prepareSteps_filter {H : Host} (a : Answers) (c0 : consumerCmd) :
  hoare (fun st => filterSubject (fst st) = filterSubject c0)
    (prepareSteps a)
    (fun st => (filterSubject c0 <> "_unset_" ->
                FilterSubject (snd st) = filterSubject c0)
               /\ (filterSubject c0 = "_unset_" ->
                   askFilter a = ok (FilterSubject (snd st)))).
Proof.
  unfold prepareSteps.
  do 17 hstep (fun st : St => filterSubject (fst st) = filterSubject c0).
  hstep_with (fun st : St =>
                (filterSubject c0 <> "_unset_" ->
                 filterSubject (fst st) = filterSubject c0)
                /\ (filterSubject c0 = "_unset_" ->
                    askFilter a = ok (filterSubject (fst st)))) use_context.
  hstep_with (fun st : St =>
                (filterSubject c0 <> "_unset_" ->
                 FilterSubject (snd st) = filterSubject c0)
                /\ (filterSubject c0 = "_unset_" ->
                    askFilter a = ok (FilterSubject (snd st)))) use_context.
  apply hoare_invariant.
  repeat (apply Forall_cons || apply Forall_nil); step_rule; crush_step;
    use_context.
Qed.

Lemma prepareSteps_replay {H : Host} (a : Answers) (c0 : consumerCmd) :
  hoare (fun st => replayPolicy (fst st) = replayPolicy c0)
    (prepareSteps a)
    (fun st => replayPolicy c0 <> "" ->
               replayPolicyFromString (replayPolicy c0)
               = Return (ReplayPolicy (snd st))).
Proof.
  unfold prepareSteps.
  do 16 hstep_with
    (fun st : St => replayPolicy c0 <> "" ->
                    replayPolicy (fst st) = replayPolicy c0) use_context.
  hstep_with (fun st : St => replayPolicy c0 <> "" ->
                             replayPolicyFromString (replayPolicy c0)
                             = Return (ReplayPolicy (snd st))) use_context.
  apply hoare_invariant.
  repeat (apply Forall_cons || apply Forall_nil); step_rule; crush_step;
    use_context.
Qed.

(** X21.  On the create path without a configuration file, the
    acknowledgement wait is the flag [wait] when positive and 0 otherwise;
    the filter subject is the flag [filter], or the answer to its prompt
    when the flag has its default; a replay policy given as a flag is the
    one of the configuration. *)
Theorem prepareConfig_flags_honoured {H : Host} (c : consumerCmd) (a : Answers)
  (c' : consumerCmd) (cfg : ConsumerConfig) :
  inputFile c = "" ->
  prepareConfig c a = Return (c', Prepared cfg) ->
  flagsHonoured c a cfg.
Proof.
  intros Hf E. unfold flagsHonoured.
  destruct (prepareConfig_hoare _ _ c a c' _
              (prepareSteps_ackWait a c) (conj eq_refl eq_refl) Hf E)
    as (g1 & H1 & E1).
  destruct (prepareConfig_hoare _ _ c a c' _
              (prepareSteps_filter a c) eq_refl Hf E)
    as (g2 & (H2 & H2') & E2).
  destruct (prepareConfig_hoare _ _ c a c' _
              (prepareSteps_replay a c) eq_refl Hf E)
    as (g3 & H3 & E3).
  cbn [fst snd] in *.
  split; [rewrite E1; exact H1|].
  split; [rewrite E2; exact H2|].
  split; [rewrite E2; exact H2' | rewrite E3; exact H3].
Qed.

Lemma prepareConfig_flags_honoured_witness :
  @flagsHonoured (Sample.host "") Scenario.fullCmd Sample.answers
    Scenario.fullCfg.
Proof.
  apply (@prepareConfig_flags_honoured (Sample.host "")
           Scenario.fullCmd Sample.answers Scenario.fullCmd Scenario.fullCfg).
  - reflexivity.
  - vm_compute. reflexivity.
Defined.

(** X22.  With a configuration file, the result of [prepareConfig] depends
    on the file and on the name argument only: two commands with the same
    file and the same name get the same result, whatever their other flags
    and whatever the prompts would answer, and the process is never ended
    there. *)
Theorem prepareConfig_file_ignores_flags {H : Host} (c1 c2 : consumerCmd)
  (a1 a2 : Answers) :
  inputFile c1 <> "" ->
  inputFile c2 = inputFile c1 ->
  consumer c2 = consumer c1 ->
  exists p, prepareConfig c1 a1 = Return (c1, p)
            /\ prepareConfig c2 a2 = Return (c2, p).
Proof.
  intros Hf Hi Hc. unfold prepareConfig. rewrite Hi, Hc.
  apply String.eqb_neq in Hf. rewrite Hf. cbn [negb].
  destruct (ReadFile (inputFile c1)) as [f|e]; [|eexists; split; reflexivity].
  destruct (Unmarshal f) as [cfg err].
  destruct (negb (Durable cfg == "") && negb (consumer c1 == "")
            && negb (Durable cfg == consumer c1));
    eexists; split; reflexivity.
Qed.

Lemma prepareConfig_file_ignores_flags_witness :
  exists p,
    @prepareConfig (Sample.hostWithFile Sample.source)
      (commandLine "ORDERS" "" [FlagConfig "consumer.json"]) Sample.answers
    = Return (commandLine "ORDERS" "" [FlagConfig "consumer.json"], p)
    /\ @prepareConfig (Sample.hostWithFile Sample.source)
         (commandLine "ORDERS" ""
            [FlagConfig "consumer.json"; FlagPull; FlagBps 1000;
             FlagSample 250])
         (mkAnswers (failed (ErrExternal "interrupt"))
            (failed (ErrExternal "interrupt"))
            (failed (ErrExternal "interrupt"))
            (failed (ErrExternal "interrupt"))
            (failed (ErrExternal "interrupt"))
            (failed (ErrExternal "interrupt"))
            (failed (ErrExternal "interrupt"))
            (failed (ErrExternal "interrupt"))
            (failed (ErrExternal "interrupt")))
       = Return (commandLine "ORDERS" ""
                   [FlagConfig "consumer.json"; FlagPull; FlagBps 1000;
                    FlagSample 250], p).
Proof.
  apply (@prepareConfig_file_ignores_flags (Sample.hostWithFile Sample.source)).
  - simpl. discriminate.
  - reflexivity.
  - reflexivity.
Defined.

(** ** Creation *)



(** X24.  With the flag [output] and without [validate], a configuration
    that serialises and passes the validation is written, as serialised,
    to the named file; the result of the write is the result of the
    action, and no consumer is created. *)
Theorem createAction_output_writes_serialization {H : Host} (B : Broker)
  (c c' : consumerCmd) (a : Answers) (cfg : ConsumerConfig) (j : string) :
  validateOnly c = false ->
  outFile c <> "" ->
  Getenv "NOVALIDATE" = "" ->
  prepareConfig c a = Return (c', Prepared cfg) ->
  MarshalIndent cfg = ok j ->
  fst (Validate cfg) = true ->
  createAction B c a
  = ([EvWriteFile (outFile c) (Some j)],
     Finished (WriteFile (outFile c) (Some j))).
Proof.
  intros Hv Ho Henv E Hj Hval.
  pose proof (prepareConfig_sameInputs c a c' _ E) as S.
  unfold sameInputs in S. decompose [and] S.
  unfold createAction. rewrite E. cbn.
  replace (validateOnly c') with false by congruence.
  replace (outFile c') with (outFile c) by congruence.
  apply String.eqb_neq in Ho. rewrite Ho. cbn.
  rewrite (validateCfg_checked cfg j Hj Henv), Hval. reflexivity.
Qed.

Lemma createAction_output_writes_serialization_witness :
  @createAction (Sample.host "") Sample.sourceBroker Scenario.outCmd
    Sample.answers
  = ([EvWriteFile (outFile Scenario.outCmd) (Some "{ durable_name: NEW }")],
     Finished (@WriteFile (Sample.host "") (outFile Scenario.outCmd)
                 (Some "{ durable_name: NEW }"))).
Proof.
  apply (@createAction_output_writes_serialization (Sample.host "")
           Sample.sourceBroker Scenario.outCmd Scenario.outCmd Sample.answers
           Scenario.fullCfg "{ durable_name: NEW }").
  - reflexivity.
  - simpl. discriminate.
  - reflexivity.
  - vm_compute. reflexivity.
  - reflexivity.
  - reflexivity.
Defined.

(** X25.  With [validate] or [output], a configuration that the validator
    refuses ends the process with "Validation Failed": nothing is written
    and nothing is created, and at most the serialisation was printed. *)
Theorem createAction_invalid_is_fatal {H : Host} (B : Broker)
  (c c' : consumerCmd) (a : Answers) (cfg : ConsumerConfig) (j : string) :
  validateOnly c = true \/ outFile c <> "" ->
  Getenv "NOVALIDATE" = "" ->
  prepareConfig c a = Return (c', Prepared cfg) ->
  MarshalIndent cfg = ok j ->
  fst (Validate cfg) = false ->
  snd (createAction B c a) = Exited "Validation Failed"
  /\ Forall isPrint (fst (createAction B c a)).
Proof.
  intros Hm Henv E Hj Hval.
  pose proof (prepareConfig_sameInputs c a c' _ E) as S.
  unfold sameInputs in S. decompose [and] S.
  unfold createAction. rewrite E. cbn.
  replace (validateOnly c') with (validateOnly c) by congruence.
  replace (outFile c') with (outFile c) by congruence.
  rewrite (validateCfg_checked cfg j Hj Henv), Hval.
  destruct (validateOnly c) eqn:Hv; cbn.
  - split; [reflexivity | repeat constructor].
  - destruct Hm as [Hm|Hm]; [discriminate Hm|].
    apply String.eqb_neq in Hm. rewrite Hm. cbn.
    split; [reflexivity | constructor].
Qed.

Lemma createAction_invalid_is_fatal_witness :
  snd (@createAction Scenario.strictHost Sample.sourceBroker Scenario.outCmd
         Sample.answers)
  = Exited "Validation Failed"
  /\ Forall isPrint
       (fst (@createAction Scenario.strictHost Sample.sourceBroker
               Scenario.outCmd Sample.answers)).
Proof.
  apply (@createAction_invalid_is_fatal Scenario.strictHost
           Sample.sourceBroker Scenario.outCmd Scenario.outCmd Sample.answers
           Scenario.fullCfg "{ durable_name: NEW }").
  - right. simpl. discriminate.
  - reflexivity.
  - vm_compute. reflexivity.
  - reflexivity.
  - reflexivity.
Defined.

(** X26.  Without [validate] and [output], [createAction] sets up the
    connection, creates the consumer on the selected stream with exactly
    the configuration [prepareConfig] produced, and displays what the
    broker created with one state query. *)
Theorem createAction_creates {H : Host} (B : Broker)
  (c c' c2 : consumerCmd) (a : Answers) (cfg : ConsumerConfig)
  (created : Consumer) (info : ConsumerInfo) :
  validateOnly c = false ->
  outFile c = "" ->
  prepareConfig c a = Return (c', Prepared cfg) ->
  connectAndSetup B c' true false = Return c2 ->
  NewConsumerFromDefault B (stream c2) cfg = ok created ->
  State B 0 = ok info ->
  createAction B c a
  = ([EvNewConsumer (stream c2) cfg; EvState;
      EvShowInfo (Configuration created) info],
     Finished None).
Proof.
  intros Hv Ho E Hs Hn Hst.
  pose proof (prepareConfig_sameInputs c a c' _ E) as S.
  unfold sameInputs in S. decompose [and] S.
  unfold createAction, showConsumer. rewrite E. cbn.
  replace (validateOnly c') with false by congruence.
  replace (outFile c') with "" by congruence.
  cbn. rewrite Hs. cbn. rewrite Hn. cbn. rewrite Hst. reflexivity.
Qed.

Lemma createAction_creates_witness :
  @createAction (Sample.host "") Sample.sourceBroker Scenario.fullCmd
    Sample.answers
  = ([EvNewConsumer (stream Scenario.fullCmd) Scenario.fullCfg; EvState;
      EvShowInfo Scenario.fullCfg (mkInfo None)],
     Finished None).
Proof.
  apply (@createAction_creates (Sample.host "") Sample.sourceBroker
           Scenario.fullCmd Scenario.fullCmd Scenario.fullCmd Sample.answers
           Scenario.fullCfg (mkConsumer "ORDERS" "NEW" Scenario.fullCfg)
           (mkInfo None)).
  - reflexivity.
  - reflexivity.
  - vm_compute. reflexivity.
  - reflexivity.
  - reflexivity.
  - reflexivity.
Defined.

(** ** The overrides of a copy *)

Lemma overridesH_nil (P Q : ConsumerConfig -> Prop) :
  (forall g, P g -> Q g) -> overridesH P [] Q.
Proof. intros HPQ R g k r HP E. exists g. split; [auto | exact E]. Qed.

Lemma overridesH_cons (P Q R : ConsumerConfig -> Prop) (s : Override)
  (rest : list Override) :
  overrideH P s Q -> overridesH Q rest R -> overridesH P (s :: rest) R.
Proof.
  intros Hs Hr T g k r HP E. rewrite runSteps_cons in E.
  apply bind_Return in E. destruct E as (g1 & E1 & E).
  exact (Hr T g1 k r (Hs g g1 HP E1) E).
Qed.

Lemma overridesH_invariant (P : ConsumerConfig -> Prop) (steps : list Override) :
  Forall (fun s => overrideH P s P) steps -> overridesH P steps P.
Proof.
  induction 1 as [|s rest Hs _ IH].
  - apply overridesH_nil. auto.
  - exact (overridesH_cons P P P s rest Hs IH).
Qed.

Ltac crush_override :=
  unfold overrideH, assign, assignRun; intros;
  repeat match goal with
         | H : _ /\ _ |- _ => destruct H
         | H : (if ?b then _ else _) = Return _ |- _ => destruct b eqn:?
         | H : bind _ _ = Return _ |- _ =>
             apply bind_Return in H; destruct H as (? & ? & H)
         | H : Return _ = Return _ |- _ => injection H; clear H; intros; subst
         | H : Exit _ = Return _ |- _ => discriminate H
         | H : setStartPolicy _ _ = Return _ |- _ =>
             apply setStartPolicy_frame in H
         end;
  cbn in *;
  repeat (match goal with
          | |- context [if ?b then _ else _] => destruct b eqn:?
          end; cbn in *);
  repeat match goal with
         | H : String.eqb _ _ = true |- _ => apply String.eqb_eq in H
         | H : String.eqb _ _ = false |- _ => apply String.eqb_neq in H
         | H : Z.eqb _ _ = true |- _ => apply Z.eqb_eq in H
         | H : Z.eqb _ _ = false |- _ => apply Z.eqb_neq in H
         | H : N.eqb _ _ = true |- _ => apply N.eqb_eq in H
         | H : N.eqb _ _ = false |- _ => apply N.eqb_neq in H
         | H : Z.gtb _ _ = true |- _ => apply Z.gtb_lt in H
         | H : negb _ = true |- _ => apply negb_true_iff in H
         | H : negb _ = false |- _ => apply negb_false_iff in H
         end;
  repeat match goal with |- _ /\ _ => split end;
  intros;
  repeat match goal with
         | H : ?A -> _, H' : ?A |- _ => specialize (H H')
         | H : _ /\ _ |- _ => destruct H
         end;
  try assumption; try congruence; try lia.

Ltac ostep Q := apply (overridesH_cons _ Q); [crush_override |].
Ltac oinv := apply overridesH_invariant;
             repeat (apply Forall_cons || apply Forall_nil); crush_override.

Section CopyOverrides.
Context {H : Host}.

(** A triple on the overrides is a fact about what [cpConfig] returns. *)
Lemma cpConfig_overridesH (P Q : ConsumerConfig -> Prop) (c : consumerCmd)
  (src : ConsumerConfig) (c' : consumerCmd) (cfg : ConsumerConfig) :
  overridesH P (cpSteps c) Q -> P src ->
  cpConfig c src = Return (c', cfg) ->
  Q cfg /\ c' = pulled c.
Proof.
  intros Hh HP E. rewrite cpConfig_steps in E.
  destruct (Hh _ _ _ _ HP E) as (g & HQ & Eg).
  injection Eg as <- <-. auto.
Qed.

Lemma cpSteps_ackWait (c : consumerCmd) :
  overridesH (fun _ => True) (cpSteps c)
    (fun g => 0 < ackWait c -> AckWait g = ackWait c).
Proof.
  unfold cpSteps.
  ostep (fun g => 0 < ackWait c -> AckWait g = ackWait c).
  oinv.
Qed.

Lemma cpSteps_subject (c : consumerCmd) :
  overridesH (fun _ => True) (cpSteps c)
    (fun g => (pull c = true -> DeliverSubject g = "")
              /\ (pull c = false -> delivery c <> "" ->
                  DeliverSubject g = delivery c)).
Proof.
  unfold cpSteps.
  do 4 ostep (fun _ : ConsumerConfig => True).
  ostep (fun g => delivery c <> "" -> DeliverSubject g = delivery c).
  ostep (fun g => (pull c = true -> DeliverSubject g = "")
                  /\ (pull c = false -> delivery c <> "" ->
                      DeliverSubject g = delivery c)).
  oinv.
Qed.

Ltac unfold_steps c :=
  let Pf := fresh in let Pr := fresh in let Pm := fresh in
  let Pb := fresh in let Pa := fresh in let Pk := fresh in
  destruct (pulled_fields c) as (Pf & Pr & Pm & Pb & Pa & Pk);
  unfold cpSteps; rewrite Pf, Pr, Pm, Pb, Pa; clear Pf Pr Pm Pb Pa.

Lemma cpSteps_limits (c : consumerCmd) :
  overridesH (fun _ => True) (cpSteps c)
    (fun g => (filterSubject c <> "_unset_" ->
               FilterSubject g = filterSubject c)
              /\ (maxDeliver c <> 0 -> MaxDeliver g = maxDeliver c)
              /\ (bpsRateLimit c <> 0%N -> RateLimit g = bpsRateLimit c)
              /\ (maxAckPending c <> -1 ->
                  MaxAckPending g = maxAckPending c)).
Proof.
  unfold_steps c.
  do 7 ostep (fun _ : ConsumerConfig => True).
  ostep (fun g => filterSubject c <> "_unset_" ->
                  FilterSubject g = filterSubject c).
  ostep (fun g => filterSubject c <> "_unset_" ->
                  FilterSubject g = filterSubject c).
  ostep (fun g => (filterSubject c <> "_unset_" ->
                   FilterSubject g = filterSubject c)
                  /\ (maxDeliver c <> 0 -> MaxDeliver g = maxDeliver c)).
  ostep (fun g => (filterSubject c <> "_unset_" ->
                   FilterSubject g = filterSubject c)
                  /\ (maxDeliver c <> 0 -> MaxDeliver g = maxDeliver c)
                  /\ (bpsRateLimit c <> 0%N -> RateLimit g = bpsRateLimit c)).
  ostep (fun g => (filterSubject c <> "_unset_" ->
                   FilterSubject g = filterSubject c)
                  /\ (maxDeliver c <> 0 -> MaxDeliver g = maxDeliver c)
                  /\ (bpsRateLimit c <> 0%N -> RateLimit g = bpsRateLimit c)
                  /\ (maxAckPending c <> -1 ->
                      MaxAckPending g = maxAckPending c)).
  apply overridesH_nil. auto.
Qed.

(** X27.  In the configuration of a copy, every override that was given
    has the value of its flag: the wait when positive, the target (the
    empty subject under [pull], which wins over a target), the filter,
    the maximum of deliveries, the rate limit and the limit of outstanding
    acknowledgements; no later override undoes an earlier one but [pull]
    the target. *)
Theorem cpConfig_overrides_applied (c : consumerCmd) (src : ConsumerConfig)
  (c' : consumerCmd) (cfg : ConsumerConfig) :
  cpConfig c src = Return (c', cfg) -> overridesApplied c cfg.
Proof.
  intros E. unfold overridesApplied.
  destruct (cpConfig_overridesH _ _ c src c' cfg (cpSteps_ackWait c) I E)
    as (W & _).
  destruct (cpConfig_overridesH _ _ c src c' cfg (cpSteps_subject c) I E)
    as ((S1 & S2) & _).
  destruct (cpConfig_overridesH _ _ c src c' cfg (cpSteps_limits c) I E)
    as ((L1 & L2 & L3 & L4) & _).
  repeat match goal with |- _ /\ _ => split end; assumption.
Qed.

Lemma cpSteps_sample (c : consumerCmd) :
  overridesH (fun _ => True) (cpSteps c)
    (fun g => samplePct c <> -1 ->
              0 <= samplePct c <= 100
              /\ SampleFrequency g
                 = (if samplePct c =? 0 then ""
                    else GoString.Itoa (samplePct c))).
Proof.
  unfold cpSteps.
  ostep (fun _ : ConsumerConfig => True).
  apply (overridesH_cons _
           (fun g => samplePct c <> -1 ->
                     0 <= samplePct c <= 100
                     /\ SampleFrequency g
                        = (if samplePct c =? 0 then ""
                           else GoString.Itoa (samplePct c)))).
  - unfold overrideH, assignRun, sampleFreqFromString. intros g g' _ E Hn.
    destruct (Z.eqb_spec (samplePct c) (-1)) as [|_]; [contradiction|].
    cbn [negb] in E.
    destruct ((samplePct c >? 100) || (samplePct c <? 0)) eqn:R;
      [discriminate E|].
    apply orb_false_iff in R. destruct R as [R1 R2].
    split; [lia|].
    destruct (samplePct c >? 0) eqn:P; cbn in E; injection E as <-; cbn;
      destruct (Z.eqb_spec (samplePct c) 0); try reflexivity; lia.
  - oinv.
Qed.

Lemma cpSteps_policies (c : consumerCmd) :
  overridesH (fun _ => True) (cpSteps c)
    (fun g => (ackPolicy (pulled c) <> "" ->
               ackPolicyFromString (ackPolicy (pulled c))
               = Return (AckPolicy g))
              /\ (replayPolicy c <> "" ->
                  replayPolicyFromString (replayPolicy c)
                  = Return (ReplayPolicy g))).
Proof.
  unfold_steps c.
  do 6 ostep (fun _ : ConsumerConfig => True).
  ostep (fun g => ackPolicy (pulled c) <> "" ->
                  ackPolicyFromString (ackPolicy (pulled c))
                  = Return (AckPolicy g)).
  ostep (fun g => ackPolicy (pulled c) <> "" ->
                  ackPolicyFromString (ackPolicy (pulled c))
                  = Return (AckPolicy g)).
  ostep (fun g => (ackPolicy (pulled c) <> "" ->
                   ackPolicyFromString (ackPolicy (pulled c))
                   = Return (AckPolicy g))
                  /\ (replayPolicy c <> "" ->
                      replayPolicyFromString (replayPolicy c)
                      = Return (ReplayPolicy g))).
  oinv.
Qed.

(** X28.  A copy made with the flag [pull] is a pull consumer with
    explicit acknowledgement, whatever the source and the flags [target]
    and [ack] say; [strings.ToLower] is only required to leave the word
    "explicit" as it is. *)
Theorem cpConfig_pull_is_explicit (c : consumerCmd) (src : ConsumerConfig)
  (c' : consumerCmd) (cfg : ConsumerConfig) :
  ToLower "explicit" = "explicit" ->
  pull c = true ->
  cpConfig c src = Return (c', cfg) ->
  DeliverSubject cfg = "" /\ AckPolicy cfg = api.AckExplicit.
Proof.
  intros Hl Hp E.
  destruct (cpConfig_overridesH _ _ c src c' cfg (cpSteps_subject c) I E)
    as ((S1 & _) & _).
  destruct (cpConfig_overridesH _ _ c src c' cfg (cpSteps_policies c) I E)
    as ((A & _) & _).
  split; [exact (S1 Hp)|].
  unfold pulled in A. rewrite Hp in A. cbn in A.
  assert (Ha : ackPolicyFromString "explicit" = Return (AckPolicy cfg))
    by (apply A; discriminate).
  unfold ackPolicyFromString in Ha. rewrite Hl in Ha. cbn in Ha.
  injection Ha as <-. reflexivity.
Qed.

(** X29.  In the configuration of a copy, a sample percentage other than
    the sentinel -1 lies in [0, 100] and gives its decimal writing as the
    sample frequency, 0 the empty frequency; without [pull], an
    acknowledgement policy given as a flag is the one of the
    configuration, and so is a replay policy given as a flag. *)
Theorem cpConfig_policies_and_sample (c : consumerCmd) (src : ConsumerConfig)
  (c' : consumerCmd) (cfg : ConsumerConfig) :
  cpConfig c src = Return (c', cfg) ->
  (samplePct c <> -1 ->
   0 <= samplePct c <= 100
   /\ SampleFrequency cfg
      = (if samplePct c =? 0 then "" else GoString.Itoa (samplePct c)))
  /\ (pull c = false -> ackPolicy c <> "" ->
      ackPolicyFromString (ackPolicy c) = Return (AckPolicy cfg))
  /\ (replayPolicy c <> "" ->
      replayPolicyFromString (replayPolicy c) = Return (ReplayPolicy cfg)).
Proof.
  intros E.
  destruct (cpConfig_overridesH _ _ c src c' cfg (cpSteps_sample c) I E)
    as (S & _).
  destruct (cpConfig_overridesH _ _ c src c' cfg (cpSteps_policies c) I E)
    as ((A & R) & _).
  split; [exact S|]. split; [|exact R].
  intros Hp Ha. unfold pulled in A. rewrite Hp in A. exact (A Ha).
Qed.

Lemma pulled_stream (c : consumerCmd) : stream (pulled c) = stream c.
Proof. unfold pulled. destruct (pull c); reflexivity. Qed.

(** X30.  [cpAction] loads the source under the selected stream and
    name and creates the copy on the same stream, with exactly the
    configuration [cpConfig] made of the source's; an ephemeral copy (no
    durable name) ends there, a durable one is displayed with one state
    query. *)
Theorem cpAction_creates_copy (B : Broker) (c c1 c2 : consumerCmd)
  (source created : Consumer) (cfg : ConsumerConfig) (info : ConsumerInfo) :
  connectAndSetup B c true false = Return c1 ->
  LoadConsumer B (stream c1) (consumer c1) = ok source ->
  cpConfig c1 (Configuration source) = Return (c2, cfg) ->
  NewConsumerFromDefault B (stream c1) cfg = ok created ->
  (Durable cfg <> "" -> State B 0 = ok info) ->
  cpAction B c
  = (EvLoadConsumer (stream c1) (consumer c1)
       :: EvNewConsumer (stream c1) cfg
       :: (if Durable cfg == "" then []
           else [EvState; EvShowInfo (Configuration created) info]),
     Finished None).
Proof.
  intros Hs Hl E Hn Hst.
  assert (Hc : stream c2 = stream c1).
  { destruct (cpConfig_overridesH (fun _ => True) (fun _ => True) c1
                (Configuration source) c2 cfg) as (_ & ->);
      [ apply overridesH_invariant; unfold cpSteps;
        repeat (apply Forall_cons || apply Forall_nil); intros g g' _ _;
        exact I
      | exact I | exact E | apply pulled_stream ]. }
  unfold cpAction, showConsumer.
  rewrite Hs. cbn - [String.eqb]. rewrite Hl. cbn - [String.eqb].
  rewrite E. cbn - [String.eqb]. rewrite Hc, Hn. cbn - [String.eqb].
  destruct (String.eqb_spec (Durable cfg) "") as [Hd|Hd]; [reflexivity|].
  cbn. rewrite (Hst Hd). reflexivity.
Qed.

End CopyOverrides.

Lemma cpConfig_overrides_applied_witness :
  exists c' cfg,
    @cpConfig (Sample.host "")
      (copyLine "ORDERS" "SRC" "DST"
         [FlagTarget "elsewhere"; FlagPull; FlagWait 5000000000;
          FlagMaxDeliver 7; FlagBps 1000])
      Sample.source
    = Return (c', cfg)
    /\ overridesApplied
         (copyLine "ORDERS" "SRC" "DST"
            [FlagTarget "elsewhere"; FlagPull; FlagWait 5000000000;
             FlagMaxDeliver 7; FlagBps 1000])
         cfg.
Proof.
  eexists. eexists.
  split; [vm_compute; reflexivity|].
  eapply (@cpConfig_overrides_applied (Sample.host "")
            (copyLine "ORDERS" "SRC" "DST"
               [FlagTarget "elsewhere"; FlagPull; FlagWait 5000000000;
                FlagMaxDeliver 7; FlagBps 1000])
            Sample.source).
  vm_compute. reflexivity.
Defined.

Lemma cpConfig_pull_is_explicit_witness :
  exists c' cfg,
    @cpConfig (Sample.host "")
      (copyLine "ORDERS" "SRC" "DST" [FlagPull; FlagAck "all"]) Sample.source
    = Return (c', cfg)
    /\ DeliverSubject Sample.source = "out"
    /\ DeliverSubject cfg = "" /\ AckPolicy cfg = api.AckExplicit.
Proof.
  eexists. eexists.
  split; [vm_compute; reflexivity|].
  split; [reflexivity|].
  eapply (@cpConfig_pull_is_explicit (Sample.host "")
            (copyLine "ORDERS" "SRC" "DST" [FlagPull; FlagAck "all"])
            Sample.source).
  - reflexivity.
  - reflexivity.
  - vm_compute. reflexivity.
Defined.

Lemma cpConfig_policies_and_sample_witness :
  exists c' cfg,
    @cpConfig (Sample.host "")
      (copyLine "ORDERS" "SRC" "DST"
         [FlagSample 25; FlagAck "all"; FlagReplay "original"])
      Sample.source
    = Return (c', cfg)
    /\ SampleFrequency cfg = "25"
    /\ AckPolicy cfg = api.AckAll
    /\ ReplayPolicy cfg = api.ReplayOriginal.
Proof.
  assert (E : @cpConfig (Sample.host "")
                (copyLine "ORDERS" "SRC" "DST"
                   [FlagSample 25; FlagAck "all"; FlagReplay "original"])
                Sample.source
              = Return (copyLine "ORDERS" "SRC" "DST"
                          [FlagSample 25; FlagAck "all"; FlagReplay "original"],
                        set_ReplayPolicy api.ReplayOriginal
                          (set_AckPolicy api.AckAll
                             (set_Durable "DST"
                                (set_SampleFrequency "25" Sample.source)))))
    by (vm_compute; reflexivity).
  eexists. eexists. split; [exact E|].
  destruct (@cpConfig_policies_and_sample (Sample.host "") _ _ _ _ E)
    as (S & A & R).
  split; [exact (proj2 (S ltac:(discriminate)))|].
  split; [reflexivity | reflexivity].
Defined.

Lemma cpAction_creates_copy_witness :
  @cpAction (Sample.host "") Sample.sourceBroker
    (copyLine "ORDERS" "SRC" "DST" [FlagWait 5000000000])
  = ([EvLoadConsumer "ORDERS" "SRC";
      EvNewConsumer "ORDERS"
        (set_AckWait 5000000000 (set_Durable "DST" Sample.source));
      EvState;
      EvShowInfo (set_AckWait 5000000000 (set_Durable "DST" Sample.source))
        (mkInfo None)],
     Finished None).
Proof.
  apply (@cpAction_creates_copy (Sample.host "") Sample.sourceBroker
           (copyLine "ORDERS" "SRC" "DST" [FlagWait 5000000000])
           (copyLine "ORDERS" "SRC" "DST" [FlagWait 5000000000])
           (copyLine "ORDERS" "SRC" "DST" [FlagWait 5000000000])
           (mkConsumer "ORDERS" "SRC" Sample.source)
           (mkConsumer "ORDERS" "DST"
              (set_AckWait 5000000000 (set_Durable "DST" Sample.source)))
           (set_AckWait 5000000000 (set_Durable "DST" Sample.source))
           (mkInfo None)).
  - reflexivity.
  - reflexivity.
  - vm_compute. reflexivity.
  - reflexivity.
  - intros _. reflexivity.
Defined.
